(** * BLW Care: state store, safe age, eligibility filter and diary save

    A shallow embedding of [js/storage.js], of the domain functions and
    the handlers of [js/app.js] and of the precache loop of [sw.js], with
    the properties of the design document proved or refuted on it, and
    further properties of the code.

    - JavaScript values are JSON values: what [JSON.parse] yields and
      what [localStorage] can hold.  A property that is absent reads as
      [None] (JavaScript's [undefined]).  Objects are finite maps from
      property names to values, so equality of two values is deep
      equality, insensitive to the order of the keys.
    - Numbers are the integers.  The catalog, the profile form and the
      calendar getters produce integers; fractions are outside the model.
    - Only own properties are modelled: a key such as [__proto__], which
      JavaScript resolves on the prototype, is outside the model.
    - [localStorage] is a map from keys to items that never fails; an
      item is described by what [JSON.parse] makes of it.
    - The clock, the date parser and the string functions of the platform
      are parameters, see [Platform]. *)

From stdpp Require Import gmap strings list fin_maps pretty.
From Stdlib Require Import ZArith.

#[local] Set Warnings "-register-all".
#[local] Open Scope Z_scope.

(** ** JavaScript values *)

Inductive JVal : Type :=
  | JNull
  | JBool (b : bool)
  | JNum (z : Z)
  | JStr (s : string)
  | JArr (l : list JVal)
  | JObj (m : gmap string JVal).

(** A JavaScript object as the map of its own properties. *)
Abbreviation JMap := (gmap string JVal).

(** A value that may be [undefined]. *)
Abbreviation JOpt := (option JVal).

(** Thrown values: a [TypeError] of the engine (a property read on [null]
    or [undefined]) and [new Error(msg)]. *)
Inductive Exn : Type :=
  | TypeError
  | Error (msg : string).

Inductive Res (A : Type) : Type :=
  | Ok (a : A)
  | Throw (e : Exn).
Arguments Ok {A} a.
Arguments Throw {A} e.

(** [isPlainObject], storage.js:13.  Arrays and [null] have typeof
    "object" but their tag is not "[object Object]". *)
Definition isPlainObject (v : JOpt) : bool :=
  match v with
  | Some (JObj _) => true
  | _ => false
  end.

(** [!!v]: JavaScript truthiness. *)
Definition truthy (v : JOpt) : bool :=
  match v with
  | None => false
  | Some JNull => false
  | Some (JBool b) => b
  | Some (JNum z) => negb (z =? 0)
  | Some (JStr s) => negb (String.eqb s "")
  | Some (JArr _) => true
  | Some (JObj _) => true
  end.

(** [typeof v === "object"]: true of [null], arrays and objects. *)
Definition typeofObject (v : JOpt) : bool :=
  match v with
  | Some JNull | Some (JArr _) | Some (JObj _) => true
  | _ => false
  end.

(** [a === b].  Primitives compare by value.  Two objects or arrays are
    equal only when they are the same reference; the values compared in
    this program come from different allocations (one side is read from
    the store, the other is built by the caller), so such a comparison is
    false. *)
Definition strictEq (a b : JOpt) : bool :=
  match a, b with
  | None, None => true
  | Some JNull, Some JNull => true
  | Some (JBool x), Some (JBool y) => Bool.eqb x y
  | Some (JNum x), Some (JNum y) => x =? y
  | Some (JStr x), Some (JStr y) => String.eqb x y
  | _, _ => false
  end.

(** [v.k] for a value [v] that is neither [null] nor [undefined]: the own
    property of an object; arrays and primitives have none of the
    property names this program reads. *)
Definition prop (v : JVal) (k : string) : JOpt :=
  match v with
  | JObj m => m !! k
  | _ => None
  end.

(** [v.k] for any [v]: reading a property of [null] or [undefined] throws. *)
Definition getProp (v : JOpt) (k : string) : Res JOpt :=
  match v with
  | None | Some JNull => Throw TypeError
  | Some x => Ok (prop x k)
  end.

(** [v.k = x] on an object. *)
Definition setProp (v : JVal) (k : string) (x : JVal) : JVal :=
  match v with
  | JObj m => JObj (<[k := x]> m)
  | _ => v
  end.

(** ** mergeDeep, storage.js:18

    [out] starts as a copy of [target]; the loop then visits the entries
    of [source], each key once, and writes [out[key]]: the merge of
    [out[key]] and the value when both are plain objects, else the
    value. *)
Fixpoint mergeDeep (target source : JVal) {struct source} : JVal :=
  match target, source with
  | JObj t, JObj s =>
      JObj (map_fold
              (fun key value out =>
                 <[key := if isPlainObject (Some value) && isPlainObject (out !! key)
                          then match out !! key with
                               | Some o => mergeDeep o value
                               | None => value
                               end
                          else value]> out)
              t s)
  | _, _ => source
  end.

(** Nesting depth of objects, the measure of the recursion of
    [mergeDeep]. *)
Fixpoint depth (v : JVal) : nat :=
  match v with
  | JObj m => S (map_fold (fun _ x acc => Nat.max (depth x) acc) 0%nat m)
  | _ => 0%nat
  end.

(** The entry [mergeDeep] leaves at one key. *)
Definition mergeAt (t : JOpt) (s : JOpt) : JOpt :=
  match s with
  | None => t
  | Some value =>
      match t with
      | Some tv => Some (if isPlainObject (Some value) && isPlainObject (Some tv)
                         then mergeDeep tv value else value)
      | None => Some value
      end
  end.

(** ** The platform

    What the program takes from the browser.  [clockIso n] and [clockUtc n]
    are the ISO timestamp and the UTC calendar date shown by the [n]-th
    reading of the clock ([new Date()]); [dateParse s] is [new Date(s)],
    [None] for an invalid date; [stringToNumber] and [numberToString] are
    the conversions between strings and numbers ([None] is [NaN]);
    [randomUUID n] is the identifier drawn at time [n], never empty. *)

Record UtcDate : Type := {
  utcFullYear : Z;
  utcMonth : Z;
  utcDate : Z
}.

Class Platform : Type := {
  clockIso : nat -> string;
  clockUtc : nat -> UtcDate;
  dateParse : string -> option UtcDate;
  stringToNumber : string -> option Z;
  numberToString : Z -> string;
  trim : string -> string;
  randomUUID : nat -> string;
  randomUUID_nonempty : forall n, randomUUID n <> ""
}.

(** ** localStorage

    An item is a string.  The program only ever tests an item for
    emptiness and parses it as JSON, and only ever writes
    [JSON.stringify] of a JSON value, which parses back to that value. *)
Inductive Item : Type :=
  | Blank                (* the empty string *)
  | Malformed            (* a non-empty string that JSON.parse rejects *)
  | Json (v : JVal).     (* a text that JSON.parse reads as [v] *)

Record World : Type := {
  storage : gmap string Item;
  tick : nat
}.

Definition STATE_KEY : string := "blwcare.state.v1".
Definition LEGACY_HISTORY_KEY : string := "blwcare.history.v1".

Definition getItem (k : string) (w : World) : option Item := storage w !! k.

Definition setItem (k : string) (i : Item) (w : World) : World :=
  {| storage := <[k := i]> (storage w); tick := tick w |}.

Definition removeItem (k : string) (w : World) : World :=
  {| storage := delete k (storage w); tick := tick w |}.

(** [!!localStorage.getItem(k)] *)
Definition itemTruthy (i : option Item) : bool :=
  match i with
  | Some Malformed | Some (Json _) => true
  | Some Blank | None => false
  end.

(** [safeParse(localStorage.getItem(k) || "null", null)], storage.js:5 *)
Definition safeParse (i : option Item) : JVal :=
  match i with
  | Some (Json v) => v
  | _ => JNull
  end.

Definition M (A : Type) : Type := World -> Res A * World.

Definition ret {A} (a : A) : M A := fun w => (Ok a, w).

Definition bind {A B} (m : M A) (f : A -> M B) : M B :=
  fun w => match m w with
           | (Ok a, w') => f a w'
           | (Throw e, w') => (Throw e, w')
           end.

Definition lift {A} (s : World -> A * World) : M A :=
  fun w => let '(a, w') := s w in (Ok a, w').

Definition try {A} (r : Res A) : M A := fun w => (r, w).

Notation "x <~ m ;; k" := (bind m (fun x => k))
  (at level 100, m at next level, right associativity).

(** ** storage.js *)

Section Store.
Context `{Platform}.

(** [new Date()]: read the clock. *)
Definition readClock (w : World) : nat * World :=
  (tick w, {| storage := storage w; tick := S (tick w) |}).

(** [nowIso], storage.js:31.  [toISOString] cannot throw on the current
    time, so the [catch] branch is dead. *)
Definition nowIso (w : World) : JVal * World :=
  let '(n, w') := readClock w in (JStr (clockIso n), w').

Definition defaultStateAt (createdAt updatedAt : JVal) : JMap :=
  <["version" := JNum 1]>
  (<["createdAt" := createdAt]>
  (<["updatedAt" := updatedAt]>
  (<["diary" := JObj (<["entries" := JArr []]> ∅)]>
  (<["allergens" := JObj (<["statuses" := JObj ∅]> ∅)]>
  (<["milestones" := JObj (<["seated" := JBool false]>
                          (<["noExtrusion" := JBool false]>
                          (<["interestInFood" := JBool false]>
                          (<["handToMouth" := JBool false]> ∅))))]>
  (<["babyProfile" := JObj (<["birthDate" := JNull]>
                           (<["gestationWeeks" := JNull]>
                           (<["dueDate" := JNull]> ∅)))]> ∅)))))).

(** [getDefaultState], storage.js:39 *)
Definition getDefaultState (w : World) : JVal * World :=
  let '(c, w1) := nowIso w in
  let '(u, w2) := nowIso w1 in
  (JObj (defaultStateAt c u), w2).

(** [normalizeState], storage.js:64 *)
Definition normalizeState (raw : JVal) (w : World) : JVal * World :=
  let '(defaults, w1) := getDefaultState w in
  if negb (truthy (Some raw)) || negb (typeofObject (Some raw)) then (defaults, w1)
  else if negb (strictEq (prop raw "version") (Some (JNum 1))) then (defaults, w1)
  else
    let merged := mergeDeep defaults raw in
    let merged := setProp merged "version" (JNum 1) in
    let '(t, w2) := nowIso w1 in
    (setProp merged "updatedAt" t, w2).

(** [readStateFromStorage], storage.js:75 *)
Definition readStateFromStorage (w : World) : JVal * World :=
  normalizeState (safeParse (getItem STATE_KEY w)) w.

(** [writeStateToStorage], storage.js:80 *)
Definition writeStateToStorage (state : JVal) (w : World) : JVal * World :=
  let '(next, w1) := normalizeState state w in
  (next, setItem STATE_KEY (Json next) w1).

(** [migrateLegacyIfNeeded], storage.js:86 *)
Definition migrateLegacyIfNeeded (w : World) : World :=
  if itemTruthy (getItem STATE_KEY w) then w
  else
    let legacyHistory := safeParse (getItem LEGACY_HISTORY_KEY w) in
    match legacyHistory with
    | JArr (_ :: _) =>
        let '(c, w1) := nowIso w in
        let '(u, w2) := nowIso w1 in
        let state :=
          JObj (<["diary" := JObj (<["entries" := legacyHistory]> ∅)]>
                  (defaultStateAt c u)) in
        snd (writeStateToStorage state w2)
    | _ => w
    end.

(** [ensureState], storage.js:98 *)
Definition ensureState (w : World) : JVal * World :=
  let w1 := migrateLegacyIfNeeded w in
  let '(state, w2) := readStateFromStorage w1 in
  if negb (itemTruthy (getItem STATE_KEY w2))
  then (state, snd (writeStateToStorage state w2))
  else (state, w2).

Record Validation : Type := {
  ok : bool;
  error : option string
}.

Definition invalid (msg : string) : Validation :=
  {| ok := false; error := Some msg |}.

(** [x.k] is missing or not of typeof "object". *)
Definition lacksSection (candidate : JVal) (k : string) : bool :=
  negb (truthy (prop candidate k)) || negb (typeofObject (prop candidate k)).

(** [validateBackupState], storage.js:107 *)
Definition validateBackupState (candidate : JVal) : Validation :=
  if negb (truthy (Some candidate)) || negb (typeofObject (Some candidate))
  then invalid "Formato inválido"
  else if negb (strictEq (prop candidate "version") (Some (JNum 1)))
  then invalid "Versión no soportada"
  else if lacksSection candidate "diary" then invalid "Falta diary"
  else if lacksSection candidate "allergens" then invalid "Falta allergens"
  else if lacksSection candidate "milestones" then invalid "Falta milestones"
  else if lacksSection candidate "babyProfile" then invalid "Falta babyProfile"
  else {| ok := true; error := None |}.

(** *** StorageApi, storage.js:117 *)

Definition getState : World -> JVal * World := ensureState.

(** [isPlainObject(partial) ? partial : {}] *)
Definition plainOrEmpty (partial : JVal) : JVal :=
  if isPlainObject (Some partial) then partial else JObj ∅.

Definition setState (partial : JVal) (w : World) : JVal * World :=
  let '(current, w1) := ensureState w in
  let next := mergeDeep current (plainOrEmpty partial) in
  writeStateToStorage next w1.

Definition resetState (w : World) : JVal * World :=
  ensureState (removeItem LEGACY_HISTORY_KEY (removeItem STATE_KEY w)).

Definition exportState : World -> JVal * World := ensureState.

Definition importState (nextState : JVal) : M JVal :=
  let validation := validateBackupState nextState in
  if negb (ok validation)
  then try (Throw (Error (match error validation with
                          | Some msg => if String.eqb msg "" then "Backup inválido" else msg
                          | None => "Backup inválido"
                          end)))
  else
    _ <~ lift (writeStateToStorage nextState) ;;
    lift ensureState.

(** [Array.isArray(x) ? x : []] *)
Definition arrayOrEmpty (x : JOpt) : list JVal :=
  match x with
  | Some (JArr l) => l
  | _ => []
  end.

(** [Array.prototype.findIndex] *)
Fixpoint findIndex (p : JVal -> bool) (l : list JVal) : option nat :=
  match l with
  | [] => None
  | e :: l' => if p e then Some 0%nat else S <$> findIndex p l'
  end.

(** [{ diary: { entries } }] *)
Definition diaryPartial (entries : list JVal) : JVal :=
  JObj {["diary" := JObj {["entries" := JArr entries]}]}.

(** [current.diary.entries] behind [Array.isArray]; the read throws when
    [current.diary] is [null]. *)
Definition currentEntries (current : JVal) : Res (list JVal) :=
  match getProp (prop current "diary") "entries" with
  | Ok es => Ok (arrayOrEmpty es)
  | Throw e => Throw e
  end.

(** [(e) => e && typeof e === "object" && e.id === id] *)
Definition hasId (id : JOpt) (e : JVal) : bool :=
  truthy (Some e) && typeofObject (Some e) && strictEq (prop e "id") id.

(** [StorageApi.diary.setEntries], storage.js:150 *)
Definition setEntries (entries : JVal) (w : World) : JVal * World :=
  setState (diaryPartial (arrayOrEmpty (Some entries))) w.

(** [StorageApi.diary.addEntry], storage.js:155 *)
Definition addEntry (entry : JVal) : M JVal :=
  current <~ lift ensureState ;;
  entries <~ try (currentEntries current) ;;
  lift (setState (diaryPartial (entries ++ [entry]))).

(** The array [upsertEntry] builds, storage.js:168-169 *)
Definition upsertList (entries : list JVal) (entry : JVal) : list JVal :=
  match findIndex (hasId (prop entry "id")) entries with
  | Some idx => take idx entries ++ entry :: drop (S idx) entries
  | None => entries ++ [entry]
  end.

(** [StorageApi.diary.upsertEntry], storage.js:162 *)
Definition upsertEntry (entry : JVal) : M JVal :=
  current <~ lift ensureState ;;
  entries <~ try (currentEntries current) ;;
  if negb (truthy (Some entry)) || negb (typeofObject (Some entry))
     || negb (truthy (prop entry "id"))
  then lift (setState (diaryPartial entries))
  else lift (setState (diaryPartial (upsertList entries entry))).

(** [StorageApi.diary.deleteEntry], storage.js:174 *)
Definition deleteEntry (entryId : JVal) : M JVal :=
  current <~ lift ensureState ;;
  entries <~ try (currentEntries current) ;;
  lift (setState (diaryPartial
    (List.filter (fun e => negb (hasId (Some entryId) e)) entries))).

(** [current.allergens.statuses] behind [isPlainObject]; the read throws
    when [current.allergens] is [null]. *)
Definition currentStatuses (current : JVal) : Res JMap :=
  match getProp (prop current "allergens") "statuses" with
  | Ok (Some (JObj m)) => Ok m
  | Ok _ => Ok ∅
  | Throw e => Throw e
  end.

(** [StorageApi.allergens.setStatus], storage.js:192 *)
Definition setStatus (allergenId status : string) : M JVal :=
  if negb (truthy (Some (JStr allergenId))) then lift ensureState
  else
    current <~ lift ensureState ;;
    statuses <~ try (currentStatuses current) ;;
    lift (setState
      (JObj {["allergens" :=
         JObj {["statuses" := JObj (<[allergenId := JStr status]> statuses)]}]})).

(** [StorageApi.milestones.getAll], storage.js:205 *)
Definition milestonesGetAll (w : World) : JOpt * World :=
  let '(state, w') := ensureState w in (prop state "milestones", w').

(** [StorageApi.milestones.set], storage.js:208 *)
Definition milestonesSet (partial : JVal) (w : World) : JVal * World :=
  setState (JObj {["milestones" := plainOrEmpty partial]}) w.

(** [m.seated && m.noExtrusion && m.interestInFood && m.handToMouth],
    coerced to a boolean; the first read throws when [m] is [null]. *)
Definition allFour (m : JOpt) : Res bool :=
  match m with
  | None | Some JNull => Throw TypeError
  | Some x =>
      Ok (truthy (prop x "seated") && truthy (prop x "noExtrusion")
          && truthy (prop x "interestInFood") && truthy (prop x "handToMouth"))
  end.

(** [StorageApi.milestones.isComplete], storage.js:213 *)
Definition isComplete : M bool :=
  m <~ lift milestonesGetAll ;;
  try (allFour m).

(** [StorageApi.babyProfile.get], storage.js:220 *)
Definition babyProfileGet (w : World) : JOpt * World :=
  let '(state, w') := ensureState w in (prop state "babyProfile", w').

(** [StorageApi.babyProfile.set], storage.js:223 *)
Definition babyProfileSet (partial : JVal) (w : World) : JVal * World :=
  setState (JObj {["babyProfile" := plainOrEmpty partial]}) w.

End Store.

(** ** app.js *)

Section App.
Context `{Platform}.

(** Template-literal conversion of a value to a string. *)
Fixpoint toStr (v : JVal) : string :=
  match v with
  | JNull => "null"
  | JBool true => "true"
  | JBool false => "false"
  | JNum z => numberToString z
  | JStr s => s
  | JArr l =>
      String.concat ","
        (map (fun x => match x with JNull => "" | _ => toStr x end) l)
  | JObj _ => "[object Object]"
  end.

(** [Number(v)]; [None] is [NaN].  A value that converts to an infinity has
    no image here: the age tests of the two lists, which tell [+Infinity]
    from [NaN], are given on [Num] further down. *)
Definition toNumber (v : JOpt) : option Z :=
  match v with
  | None => None
  | Some JNull => Some 0
  | Some (JBool b) => Some (if b then 1 else 0)
  | Some (JNum z) => Some z
  | Some (JStr s) => stringToNumber s
  | Some (JArr l) => stringToNumber (toStr (JArr l))
  | Some (JObj _) => None
  end.

(** Comparisons with a number that may be [NaN]: false on [NaN]. *)
Definition numGt (a : option Z) (b : Z) : bool :=
  match a with
  | Some x => b <? x
  | None => false
  end.

Definition numLe (a : option Z) (b : Z) : bool :=
  match a with
  | Some x => x <=? b
  | None => false
  end.

(** [parseDateInput], app.js:496 *)
Definition parseDateInput (value : JOpt) : option UtcDate :=
  match value with
  | Some v => if truthy value then dateParse (toStr v ++ "T00:00:00Z") else None
  | None => None
  end.

(** [monthsBetweenUtc], app.js:504, on two dates. *)
Definition monthsBetweenUtc (startDate endDate : UtcDate) : Z :=
  let y1 := utcFullYear startDate in
  let m1 := utcMonth startDate in
  let d1 := utcDate startDate in
  let y2 := utcFullYear endDate in
  let m2 := utcMonth endDate in
  let d2 := utcDate endDate in
  let months := (y2 - y1) * 12 + (m2 - m1) in
  let months := if d2 <? d1 then months - 1 else months in
  Z.max 0 months.

(** [Number.isFinite(gw) && gw > 0 && gw < 37] *)
Definition isPreterm (gestationWeeks : option Z) : bool :=
  match gestationWeeks with
  | Some gw => (0 <? gw) && (gw <? 37)
  | None => false
  end.

(** [getSafeAgeMonths], app.js:518; [None] is [null]. *)
Definition getSafeAgeMonths (profile : JOpt) (w : World) : option Z * World :=
  match profile with
  | Some p =>
      if negb (truthy profile) || negb (typeofObject profile) then (None, w)
      else
        match parseDateInput (prop p "birthDate") with
        | None => (None, w)
        | Some birth =>
            let gestationWeeks := toNumber (prop p "gestationWeeks") in
            let due := parseDateInput (prop p "dueDate") in
            let baseDate :=
              match due with
              | Some d => if isPreterm gestationWeeks then d else birth
              | None => birth
              end in
            let '(now, w') := readClock w in
            (Some (monthsBetweenUtc baseDate (clockUtc now)), w')
        end
  | None => (None, w)
  end.

(** [getProfileSafeAgeMonths], app.js:555 *)
Definition getProfileSafeAgeMonths (w : World) : option Z * World :=
  let '(profile, w1) := babyProfileGet w in
  getSafeAgeMonths profile w1.

(** [getAllowedFoodsBySafeAge], app.js:561, over the catalog
    [window.FOOD_INDEX], an array of summary records. *)
Definition getAllowedFoodsBySafeAge (catalog : list JMap) (w : World)
  : list JMap * World :=
  let '(safeMonths, w1) := getProfileSafeAgeMonths w in
  match safeMonths with
  | None => ([], w1)
  | Some sm =>
      (List.filter (fun f => numLe (toNumber (f !! "edad_minima")) sm) catalog, w1)
  end.

Record AgeRange : Type := {
  rangeMin : Z;
  maxExclusive : Z
}.

(** [parseAgeRange], app.js:15 *)
Definition parseAgeRange (value : string) : option AgeRange :=
  if String.eqb value "6-7" then Some {| rangeMin := 6; maxExclusive := 8 |}
  else if String.eqb value "7-8" then Some {| rangeMin := 7; maxExclusive := 9 |}
  else if String.eqb value "8-9" then Some {| rangeMin := 8; maxExclusive := 10 |}
  else if String.eqb value "9-12" then Some {| rangeMin := 9; maxExclusive := 13 |}
  else None.

(** [!(min >= range.min && min < range.maxExclusive)] *)
Definition outsideRange (range : AgeRange) (min : Z) : bool :=
  negb ((rangeMin range <=? min) && (min <? maxExclusive range)).

(** The age tests that open the filter predicate of [renderFoodList],
    app.js:215-222; [true] when the record goes on to the text search. *)
Definition foodListAge (safeMonths : Z) (range : option AgeRange) (f : JMap) : bool :=
  if numGt (toNumber (f !! "edad_minima")) safeMonths then false
  else
    match range with
    | Some r =>
        match toNumber (f !! "edad_minima") with
        | None => false
        | Some min => negb (outsideRange r min)
        end
    | None => true
    end.

(** The age tests that open the filter predicate of [renderRecipeList],
    app.js:99-105; [true] when the recipe goes on to the ingredient and
    allergen tests. *)
Definition recipeListAge (safeMonths : Z) (range : option AgeRange) (r : JMap) : bool :=
  match toNumber (r !! "edad_minima") with
  | Some minAge =>
      if safeMonths <? minAge then false
      else match range with
           | Some rg => negb (outsideRange rg minAge)
           | None => true
           end
  | None =>
      match range with
      | Some _ => false
      | None => true
      end
  end.

(** [getDiaryEntries], app.js:640, over [StorageApi.diary.getEntries],
    storage.js:147: [ensureState().diary.entries] when it is an array,
    else the empty array. *)
Definition getDiaryEntries : M (list JVal) :=
  state <~ lift ensureState ;;
  try (currentEntries state).

(** [getEntriesForDate], app.js:645 *)
Definition getEntriesForDate (dateStr : string) : M (list JVal) :=
  entries <~ getDiaryEntries ;;
  ret (List.filter
         (fun e => truthy (Some e) && typeofObject (Some e)
                   && strictEq (prop e "date") (Some (JStr dateStr)))
         entries).

(** [openMilestonesBlockedModal], app.js:1112: the items it lists. *)
Definition missingMilestones (m : JOpt) : list string :=
  let field k := match m with
                 | Some x => prop x k
                 | None => None
                 end in
  (if truthy (field "seated") then [] else ["Se mantiene sentado"])
  ++ (if truthy (field "noExtrusion") then [] else ["Sin reflejo de extrusión"])
  ++ (if truthy (field "interestInFood") then [] else ["Interés por comida"])
  ++ (if truthy (field "handToMouth") then [] else ["Coordinación mano-boca"]).

(** The result of [ensureCalendarAllowedOrExplain], with the modal it
    opened. *)
Inductive Gate : Type :=
  | GateMilestones (missing : list string)  (* reason "milestones" *)
  | GateProfile                             (* reason "profile" *)
  | GateOk (safeMonths : Z).

(** [ensureCalendarAllowedOrExplain], app.js:674.  [StorageApi] is
    defined as soon as storage.js is loaded, so the first test passes. *)
Definition ensureCalendarAllowedOrExplain : M Gate :=
  complete <~ isComplete ;;
  if negb complete then
    m <~ lift milestonesGetAll ;;
    ret (GateMilestones (missingMilestones m))
  else
    safeMonths <~ lift getProfileSafeAgeMonths ;;
    match safeMonths with
    | None => ret GateProfile
    | Some sm => ret (GateOk sm)
    end.

(** The fields of the day form when "Guardar" is clicked. *)
Record DayForm : Type := {
  dayFood : string;
  dayQuantity : string;
  dayForm : string;
  dayReaction : string;
  dayNotes : string;
  dayEntryId : string
}.

(** [x || fallback] on a string. *)
Definition orElse (x fallback : string) : string :=
  if String.eqb x "" then fallback else x.

(** What a click on "Guardar" ends in: one of the four modals, named by
    their titles, or the entry handed to [upsertEntry]. *)
Inductive SaveOutcome : Type :=
  | RegistroBloqueado (missing : list string)
  | FaltaPerfil
  | FaltaDato
  | FueraDeRango
  | Guardado (entry : JVal).

(** [makeId], app.js:691 *)
Definition makeId (w : World) : string := randomUUID (tick w).

(** The entry built at app.js:876-887. *)
Definition buildEntry (dateStr : string) (editing : JOpt) (form : DayForm)
    (foodId : string) (w : World) : JVal * World :=
  let entryId := orElse (trim (dayEntryId form)) (makeId w) in
  let editingCreatedAt := match editing with
                          | Some e => prop e "createdAt"
                          | None => None
                          end in
  let '(createdAt, w1) :=
    match editingCreatedAt with
    | Some c => if truthy editingCreatedAt then (c, w) else nowIso w
    | None => nowIso w
    end in
  let '(updatedAt, w2) := nowIso w1 in
  (JObj (<["id" := JStr entryId]>
        (<["date" := JStr dateStr]>
        (<["foodId" := JStr foodId]>
        (<["quantity" := JStr (orElse (dayQuantity form) "exploration")]>
        (<["form" := JStr (orElse (dayForm form) "soft_whole")]>
        (<["reaction" := JStr (orElse (dayReaction form) "neutral")]>
        (<["notes" := JStr (trim (dayNotes form))]>
        (<["createdAt" := createdAt]>
        (<["updatedAt" := updatedAt]> ∅))))))))), w2).

(** [getFoodIndex().find((f) => f.id === foodId)] *)
Definition findFood (catalog : list JMap) (foodId : string) : option JMap :=
  List.find (fun f => strictEq (f !! "id") (Some (JStr foodId))) catalog.

(** [food && Number.isFinite(minAge) && minAge > ok.safeMonths], app.js:871 *)
Definition outOfRange (food : option JMap) (safeMonths : Z) : bool :=
  match food with
  | Some f => numGt (toNumber (f !! "edad_minima")) safeMonths
  | None => false
  end.

(** The click handler of "Guardar", app.js:859-892, in the modal of
    [renderDayModal(dateStr, editingId)] where [editing] is the entry
    being edited, if any.  After the save the handler only redraws the
    calendar and the modal. *)
Definition daySave (catalog : list JMap) (dateStr : string) (editing : JOpt)
    (form : DayForm) : M SaveOutcome :=
  gate <~ ensureCalendarAllowedOrExplain ;;
  match gate with
  | GateMilestones missing => ret (RegistroBloqueado missing)
  | GateProfile => ret FaltaPerfil
  | GateOk safeMonths =>
      let foodId := trim (dayFood form) in
      if String.eqb foodId "" then ret FaltaDato
      else if outOfRange (findFood catalog foodId) safeMonths then ret FueraDeRango
      else
        entry <~ lift (buildEntry dateStr editing form foodId) ;;
        _ <~ upsertEntry entry ;;
        ret (Guardado entry)
  end.

(** [renderDayModal], app.js:700-704 and 755: the entry being edited and
    the value of the hidden input [day-entry-id]. *)
Definition findEditing (dateStr : string) (editingId : string) : M JOpt :=
  entries <~ getEntriesForDate dateStr ;;
  ret (if String.eqb editingId "" then None
       else List.find (fun e => truthy (Some e)
                                && strictEq (prop e "id") (Some (JStr editingId)))
                      entries).

Definition hiddenEntryId (editing : JOpt) : string :=
  match editing with
  | Some e => match prop e "id" with
              | Some i => if truthy (Some i) then toStr i else ""
              | None => ""
              end
  | None => ""
  end.

End App.

(** ** Auxiliary definitions

    Closed forms of the store functions, used to state and prove the
    properties below. *)

(** The map of [mergeDeep] on two objects. *)
Definition mergeMap (t s : JMap) : JMap :=
  match mergeDeep (JObj t) (JObj s) with
  | JObj m => m
  | _ => ∅
  end.

(** The world [k] readings of the clock later. *)
Definition later (k : nat) (w : World) : World :=
  {| storage := storage w; tick := (k + tick w)%nat |}.

(** The value [readStateFromStorage] parses, and whether the store holds
    a state. *)
Definition persisted (w : World) : JVal := safeParse (getItem STATE_KEY w).

Definition hasState (w : World) : bool := itemTruthy (getItem STATE_KEY w).

(** The legacy history is a non-empty array. *)
Definition legacyPresent (w : World) : bool :=
  match safeParse (getItem LEGACY_HISTORY_KEY w) with
  | JArr (_ :: _) => true
  | _ => false
  end.

(** Two targets that differ only in leaves that are not plain objects. *)
Definition sameShape (t' t : JMap) : Prop :=
  forall k, t' !! k = t !! k
            \/ exists a b, t' !! k = Some a /\ t !! k = Some b
                           /\ isPlainObject (Some a) = false
                           /\ isPlainObject (Some b) = false.

(** Equality of two states but for [updatedAt], and but for both
    timestamps. *)
Definition eqButUpdated (a b : JVal) : Prop :=
  forall k, k <> "updatedAt" -> prop a k = prop b k.

Definition eqButStamps (a b : JVal) : Prop :=
  forall k, k <> "updatedAt" -> k <> "createdAt" -> prop a k = prop b k.

Section Closed.
Context `{Platform}.

Definition stamp (n : nat) : JVal := JStr (clockIso n).

(** The defaults built when the clock shows [n]. *)
Definition defaultsAt (n : nat) : JMap :=
  defaultStateAt (stamp n) (stamp (S n)).

(** The two tests of [normalizeState] pass. *)
Definition accepted (raw : JVal) : bool :=
  truthy (Some raw) && typeofObject (Some raw)
  && strictEq (prop raw "version") (Some (JNum 1)).

(** The value of [normalizeState raw] when the clock shows [n]. *)
Definition normalizeAt (n : nat) (raw : JVal) : JVal :=
  if accepted raw
  then setProp (setProp (mergeDeep (JObj (defaultsAt n)) raw) "version" (JNum 1))
         "updatedAt" (stamp (S (S n)))
  else JObj (defaultsAt n).

(** The number of clock readings of [normalizeState raw]. *)
Definition normalizeCost (raw : JVal) : nat :=
  if accepted raw then 3%nat else 2%nat.

(** The state that the migration writes. *)
Definition migrated (w : World) : JVal :=
  normalizeAt (2 + tick w)
    (JObj (<["diary" := JObj (<["entries" := safeParse (getItem LEGACY_HISTORY_KEY w)]> ∅)]>
             (defaultsAt (tick w)))).

(** The store is empty, or holds a value that [normalizeState] accepts
    and that carries a [createdAt]: every state the store itself wrote. *)
Definition settled (w : World) : Prop :=
  hasState w = true ->
  accepted (persisted w) = true /\ is_Some (prop (persisted w) "createdAt").

End Closed.

(** ** A platform for the examples

    A browser on 10 August 2024 (month index 7).  It reads calendar dates
    written [YYYY-MM-DD], decimal numerals, and trims spaces; on these
    inputs it is what the browser computes. *)

Fixpoint digitsFrom (acc : Z) (s : string) : option Z :=
  match s with
  | EmptyString => Some acc
  | String a s' =>
      let d := Z.of_nat (Ascii.nat_of_ascii a) - 48 in
      if (0 <=? d) && (d <=? 9) then digitsFrom (10 * acc + d) s' else None
  end.

Definition decimal (s : string) : option Z := digitsFrom 0 s.

Definition isoMidnight (s : string) : option UtcDate :=
  if (String.length s =? 20)%nat
     && String.eqb (String.substring 4 1 s) "-"
     && String.eqb (String.substring 7 1 s) "-"
     && String.eqb (String.substring 10 10 s) "T00:00:00Z"
  then
    match decimal (String.substring 0 4 s),
          decimal (String.substring 5 2 s),
          decimal (String.substring 8 2 s) with
    | Some y, Some m, Some d =>
        if (1 <=? m) && (m <=? 12) && (1 <=? d) && (d <=? 31)
        then Some {| utcFullYear := y; utcMonth := m - 1; utcDate := d |}
        else None
    | _, _, _ => None
    end
  else None.

Fixpoint trimStart (s : string) : string :=
  match s with
  | String a s' => if (Ascii.nat_of_ascii a =? 32)%nat then trimStart s' else s
  | EmptyString => s
  end.

Definition trimSpaces (s : string) : string :=
  String.rev (trimStart (String.rev (trimStart s))).

Definition entryId_nonempty (n : nat) : "entry-" +:+ pretty n <> "" :=
  fun Heq => eq_ind ("entry-" +:+ pretty n)
               (fun s => match s with EmptyString => False | String _ _ => True end)
               I "" Heq.

Definition browser : Platform := {|
  clockIso n := "2024-08-10T12:00:00." +:+ pretty n +:+ "Z";
  clockUtc _ := {| utcFullYear := 2024; utcMonth := 7; utcDate := 10 |};
  dateParse := isoMidnight;
  stringToNumber := decimal;
  numberToString := pretty;
  trim := trimSpaces;
  randomUUID n := "entry-" +:+ pretty n;
  randomUUID_nonempty n := entryId_nonempty n
|}.

(** An empty [localStorage], the clock never read. *)
Definition emptyWorld : World := {| storage := ∅; tick := 0 |}.

(** ** Definitions used to state the properties *)

(** The top-level sections a backup must carry. *)
Definition backupSections : list string :=
  ["diary"; "allergens"; "milestones"; "babyProfile"].

(** A value of typeof "object" other than [null]: an object or an array. *)
Definition isContainer (v : JOpt) : bool :=
  match v with
  | Some (JObj _) | Some (JArr _) => true
  | _ => false
  end.

(** A document that [validateBackupState] turns down: it is no container,
    its version is not the number 1, or one of its sections is missing,
    [null] or a primitive. *)
Definition badBackup (doc : JVal) : Prop :=
  isContainer (Some doc) = false
  \/ prop doc "version" <> Some (JNum 1)
  \/ exists k, k ∈ backupSections /\ isContainer (prop doc k) = false.

(** The messages of [validateBackupState]. *)
Definition backupErrors : list string :=
  ["Formato inválido"; "Versión no soportada"; "Falta diary";
   "Falta allergens"; "Falta milestones"; "Falta babyProfile"].

(** A backup whose diary is an array instead of a record. *)
Definition arrayDiaryBackup : JVal :=
  JObj (<["version" := JNum 1]>
       (<["diary" := JArr []]>
       (<["allergens" := JObj (<["statuses" := JObj ∅]> ∅)]>
       (<["milestones" := JObj ∅]>
       (<["babyProfile" := JObj ∅]> ∅))))).

(** The four milestones. *)
Definition milestoneFields : list string :=
  ["seated"; "noExtrusion"; "interestInFood"; "handToMouth"].

(** All four milestones ticked. *)
Definition allMilestones : JMap :=
  <["seated" := JBool true]>
  (<["noExtrusion" := JBool true]>
  (<["interestInFood" := JBool true]>
  (<["handToMouth" := JBool true]> ∅))).

(** A profile with a birth date only. *)
Definition termProfile : JMap :=
  <["birthDate" := JStr "2024-01-10"]>
  (<["gestationWeeks" := JNull]>
  (<["dueDate" := JNull]> ∅)).

(** The store after the caregiver ticked the four milestones and saved
    the profile [termProfile]. *)
Definition readyWorld : World :=
  (babyProfileSet (H := browser) (JObj termProfile)
     (milestonesSet (H := browser) (JObj allMilestones) emptyWorld).2).2.

(** The allergen registry of a state: [state.allergens.statuses] when it
    is a plain object, as [setStatus] reads it, else empty. *)
Definition registry (state : JVal) : JMap :=
  match prop state "allergens" with
  | Some al => match prop al "statuses" with
               | Some (JObj m) => m
               | _ => ∅
               end
  | None => ∅
  end.

(** [{ allergens: { statuses } }] *)
Definition statusesPartial (statuses : JMap) : JVal :=
  JObj {["allergens" := JObj {["statuses" := JObj statuses]}]}.

(** The diary entries of a state: [state.diary.entries] when it is an
    array, else none. *)
Definition entriesOf (state : JVal) : list JVal :=
  match prop state "diary" with
  | Some d => arrayOrEmpty (prop d "entries")
  | None => []
  end.

(** The number of entries that [findIndex] of [upsertEntry] would match
    for the identifier [id]. *)
Definition countId (id : JOpt) (entries : list JVal) : nat :=
  length (List.filter (hasId id) entries).

(** Two entries with the same identifier and different [createdAt]. *)
Definition bananaEntry : JMap :=
  <["id" := JStr "e1"]>
  (<["date" := JStr "2024-08-10"]>
  (<["foodId" := JStr "platano"]>
  (<["createdAt" := JStr "2024-08-10T09:00:00.000Z"]> ∅))).

Definition bananaEdited : JMap :=
  <["id" := JStr "e1"]>
  (<["date" := JStr "2024-08-10"]>
  (<["foodId" := JStr "platano"]>
  (<["notes" := JStr "comió bien"]>
  (<["createdAt" := JStr "2024-08-10T18:30:00.000Z"]> ∅)))).




(** The store of [readyWorld] after [bananaEntry] was saved. *)
Definition diaryWorld : World :=
  (upsertEntry (H := browser) (JObj bananaEntry) readyWorld).2.

(** The month count of [monthsBetweenUtc] written out. *)
Definition wholeMonths (start today : UtcDate) : Z :=
  Z.max 0 ((utcFullYear today - utcFullYear start) * 12
           + (utcMonth today - utcMonth start)
           - (if utcDate today <? utcDate start then 1 else 0)).

(** [a] is a later calendar day than [b]. *)
Definition laterDay (a b : UtcDate) : Prop :=
  utcFullYear b < utcFullYear a
  \/ (utcFullYear b = utcFullYear a /\ utcMonth b < utcMonth a)
  \/ (utcFullYear b = utcFullYear a /\ utcMonth b = utcMonth a
      /\ utcDate b < utcDate a).

(** The month index of a date is one of 0..11. *)
Definition monthInRange (d : UtcDate) : Prop := 0 <= utcMonth d <= 11.

(** The preterm profile of the design document, which has no birth date. *)
Definition pretermNoBirth : JMap :=
  <["gestationWeeks" := JNum 32]> (<["dueDate" := JStr "2024-03-01"]> ∅).

(** The same profile with a birth date. *)
Definition pretermProfile : JMap :=
  <["birthDate" := JStr "2024-01-03"]> pretermNoBirth.

(** Catalog records for the examples: two foods of [data.js], one food
    from the age of 12 months, and a record whose minimum age is [null]. *)
Definition food (id : string) (edad_minima : JVal) : JMap :=
  <["id" := JStr id]> (<["nombre" := JStr id]> (<["edad_minima" := edad_minima]> ∅)).

Definition aguacate : JMap := food "aguacate" (JNum 6).
Definition fresa : JMap := food "fresa" (JNum 8).
Definition miel : JMap := food "miel" (JNum 12).
Definition sinEdad : JMap := food "sin-edad" JNull.

(** The save precondition chain in the order and with the outcomes of
    the design document, section 4.5: the milestone gate, the safe age,
    the food (it resolves in the catalog and its minimum age is at most
    the safe age), the food reference of the payload.  [minAge] is the
    minimum age of the food in the catalog: [None] when the id does not
    resolve, [Some None] when the age is not a number. *)
Inductive SpecOutcome : Type :=
  | MilestonesIncomplete
  | ProfileIncomplete
  | FoodIneligible
  | ValidationError
  | SaveAccepted.

Definition specChain (complete : bool) (safeAge : option Z)
    (minAge : option (option Z)) (foodRef : string) : SpecOutcome :=
  if negb complete then MilestonesIncomplete
  else
    match safeAge with
    | None => ProfileIncomplete
    | Some sm =>
        match minAge with
        | Some (Some a) =>
            if a <=? sm
            then if String.eqb foodRef "" then ValidationError else SaveAccepted
            else FoodIneligible
        | _ => FoodIneligible
        end
    end.

(** The modal of the handler under the name the design document gives
    to the failure. *)
Definition outcomeName (o : SaveOutcome) : SpecOutcome :=
  match o with
  | RegistroBloqueado _ => MilestonesIncomplete
  | FaltaPerfil => ProfileIncomplete
  | FaltaDato => ValidationError
  | FueraDeRango => FoodIneligible
  | Guardado _ => SaveAccepted
  end.

(** The minimum age the catalog gives for a food id. *)
Definition catalogMinAge `{Platform} (catalog : list JMap) (foodId : string)
  : option (option Z) :=
  match findFood catalog foodId with
  | Some f => Some (toNumber (f !! "edad_minima"))
  | None => None
  end.

(** The food chosen resolves in the catalog to a record whose minimum
    age is a number above the safe age. *)
Definition aboveSafeAge `{Platform} (catalog : list JMap) (foodId : string)
    (sm : Z) : Prop :=
  exists f n, findFood catalog foodId = Some f
              /\ toNumber (f !! "edad_minima") = Some n /\ sm < n.

(** The result of the handler in those names; [None] when it threw. *)
Definition savedAs (r : Res SaveOutcome) : option SpecOutcome :=
  match r with
  | Ok o => Some (outcomeName o)
  | Throw _ => None
  end.

Definition blankForm (foodId : string) : DayForm :=
  {| dayFood := foodId; dayQuantity := "tasted"; dayForm := "sticks";
     dayReaction := "liked"; dayNotes := ""; dayEntryId := "" |}.

(** ** The rest of storage.js *)

Section StoreMore.
Context `{Platform}.

(** [x || fallback] on a value that may be [undefined]. *)
Definition valueOr (x : JOpt) (fallback : JVal) : JVal :=
  match x with
  | Some v => if truthy x then v else fallback
  | None => fallback
  end.

(** [StorageApi.diary.getEntries], storage.js:147 *)
Definition getEntries : M JVal :=
  state <~ lift ensureState ;;
  entries <~ try (getProp (prop state "diary") "entries") ;;
  ret (valueOr entries (JArr [])).

(** [StorageApi.allergens.getAll], storage.js:185 *)
Definition allergensGetAll : M JVal :=
  state <~ lift ensureState ;;
  statuses <~ try (getProp (prop state "allergens") "statuses") ;;
  ret (valueOr statuses (JObj ∅)).

(** [StorageApi.allergens.getStatus], storage.js:188.  The identifiers
    the program asks for are the allergen names, which are own properties
    of a registry object only. *)
Definition getStatus (allergenId : string) : M JVal :=
  state <~ lift ensureState ;;
  statuses <~ try (getProp (prop state "allergens") "statuses") ;;
  ret (valueOr (prop (valueOr statuses (JObj ∅)) allergenId)
         (JStr "not_introduced")).

(** [StorageApi.getHistory] and [StorageApi.setHistory], storage.js:231 *)
Definition getHistory : M JVal := getEntries.

Definition setHistory (items : JVal) (w : World) : JVal * World :=
  setEntries items w.

End StoreMore.

(** ** The rest of app.js

    The catalog, the recipe index and the values of the form controls are
    arguments; [toLowerCase] is the platform's
    [String.prototype.toLowerCase]. *)

(** [s.replaceAll(c, r)] for a pattern of one ASCII character and a
    replacement without [$]. *)
Fixpoint replaceAll (c : Ascii.ascii) (r s : string) : string :=
  match s with
  | EmptyString => EmptyString
  | String a s' =>
      if Ascii.eqb a c then r +:+ replaceAll c r s'
      else String a (replaceAll c r s')
  end.

(** The characters [&], [<], [>], the double quote and the apostrophe. *)
Definition chAmp : Ascii.ascii := Ascii.ascii_of_nat 38.
Definition chLt : Ascii.ascii := Ascii.ascii_of_nat 60.
Definition chGt : Ascii.ascii := Ascii.ascii_of_nat 62.
Definition chQuot : Ascii.ascii := Ascii.ascii_of_nat 34.
Definition chApos : Ascii.ascii := Ascii.ascii_of_nat 39.

(** [s1.includes(s2)] *)
Definition includes (s q : string) : bool :=
  match String.index 0 q s with
  | Some _ => true
  | None => false
  end.

(** [Array.prototype.filter] with a predicate that may throw. *)
Fixpoint filterRes {A} (p : A -> Res bool) (l : list A) : Res (list A) :=
  match l with
  | [] => Ok []
  | x :: l' =>
      match p x with
      | Throw e => Throw e
      | Ok b =>
          match filterRes p l' with
          | Throw e => Throw e
          | Ok r => Ok (if b then x :: r else r)
          end
      end
  end.

(** [calendarMonthState], app.js:921 *)
Record MonthState : Type := {
  year : Z;
  monthIndex : Z
}.

(** The handlers of the buttons [cal-prev] and [cal-next], app.js:1202
    and 1218, on a month state that is set. *)
Definition calPrev (s : MonthState) : MonthState :=
  let monthIndex' := monthIndex s - 1 in
  if monthIndex' <? 0 then {| year := year s - 1; monthIndex := 11 |}
  else {| year := year s; monthIndex := monthIndex' |}.

Definition calNext (s : MonthState) : MonthState :=
  let monthIndex' := monthIndex s + 1 in
  if 11 <? monthIndex' then {| year := year s + 1; monthIndex := 0 |}
  else {| year := year s; monthIndex := monthIndex' |}.

(** The fields of the profile form when it is submitted. *)
Record ProfileForm : Type := {
  babyBirthdate : string;
  babyGestationWeeks : string;
  babyDuedate : string
}.

(** What the submit of the profile form ends in: one of the two modals
    "Falta dato", or the profile handed to [babyProfile.set]. *)
Inductive ProfileOutcome : Type :=
  | FaltaNacimiento
  | FaltaFpp
  | PerfilActualizado (nextProfile : JVal).

(** The three flags of [getDayIcons]. *)
Record DayFlags : Type := {
  hasFood : bool;
  hasWarn : bool;
  hasLove : bool
}.

(** What [renderRecipeList] puts in the list. *)
Inductive RecipeView : Type :=
  | RecipesHidden                      (* no safe age: the list is emptied *)
  | RecipesUnavailable                 (* the index could not be loaded *)
  | RecipesShown (items : list JMap).

Section AppMore.
Context `{Platform}.
Variable toLowerCase : string -> string.

(** [String(value)] *)
Definition stringOf (value : JOpt) : string :=
  match value with
  | Some v => toStr v
  | None => "undefined"
  end.

(** [escapeHtml], app.js:1 *)
Definition escapeHtml (value : JOpt) : string :=
  replaceAll chApos "&#039;"
    (replaceAll chQuot "&quot;"
       (replaceAll chGt "&gt;"
          (replaceAll chLt "&lt;"
             (replaceAll chAmp "&amp;" (stringOf value))))).

(** [v === "mild" || v === "severe"] *)
Definition isReaction (v : JVal) : bool :=
  strictEq (Some v) (Some (JStr "mild")) || strictEq (Some v) (Some (JStr "severe")).

(** The keys of [Object.entries(statuses)] whose value is a reaction, as
    a set.  The entries of an array are its elements under their
    indices; those of a string are its characters, none of which is a
    status; a number or a boolean has none; [statuses] is never [null]
    here. *)
Definition reactiveOf (statuses : JVal) : gset string :=
  match statuses with
  | JObj m => dom (filter (fun kv : string * JVal => isReaction kv.2 = true) m)
  | JArr l =>
      list_to_set
        (omap (fun iv : nat * JVal => if isReaction iv.2 then Some (pretty iv.1) else None)
           (imap (fun i x => (i, x)) l))
  | _ => ∅
  end.

(** [getReactiveAllergenIds], app.js:35 *)
Definition getReactiveAllergenIds : M (gset string) :=
  statuses <~ allergensGetAll ;;
  ret (reactiveOf statuses).

(** [Object.values(statuses).some((v) => v === "mild" || v === "severe")],
    app.js:634 *)
Definition hasReaction (statuses : JVal) : bool :=
  match statuses with
  | JObj m => existsb (fun kv : string * JVal => isReaction kv.2) (map_to_list m)
  | JArr l => existsb isReaction l
  | _ => false
  end.

(** [recipeMatchesIngredient], app.js:44 *)
Definition recipeMatchesIngredient (recipe : JMap) (query : string) : bool :=
  if String.eqb query "" then true
  else
    let q := toLowerCase (trim query) in
    if String.eqb q "" then true
    else
      let list := arrayOrEmpty (recipe !! "ingredientes") in
      includes (toLowerCase (toStr (valueOr (recipe !! "nombre") (JStr "")))) q
      || existsb (fun x => includes (toLowerCase (toStr x)) q) list.

(** [reactiveAllergens.has(a)]: the set holds strings only. *)
Definition setHas (s : gset string) (a : JVal) : bool :=
  match a with
  | JStr x => bool_decide (x ∈ s)
  | _ => false
  end.

(** The filter predicate of [renderRecipeList], app.js:98-115 *)
Definition recipeListed (safeMonths : Z) (range : option AgeRange) (q : string)
    (excludeReactive : bool) (reactiveAllergens : gset string) (r : JMap) : bool :=
  if negb (recipeListAge safeMonths range r) then false
  else if negb (recipeMatchesIngredient r q) then false
  else if excludeReactive
          && existsb (setHas reactiveAllergens) (arrayOrEmpty (r !! "alergenos"))
  then false
  else true.

(** [renderRecipeList], app.js:66, on the controls [recipe-ingredient],
    [recipe-age-filter] and [recipe-exclude-reactive]; [loaded] is the
    array [loadRecipeIndex] resolves to, [None] when it rejects. *)
Definition renderRecipeList (loaded : option (list JMap)) (q ageFilter : string)
    (excludeReactive : bool) : M RecipeView :=
  _ <~ lift getProfileSafeAgeMonths ;;            (* renderRecipeNote *)
  safeMonths <~ lift getProfileSafeAgeMonths ;;
  match safeMonths with
  | None => ret RecipesHidden
  | Some sm =>
      let range := parseAgeRange ageFilter in
      reactiveAllergens <~ (if excludeReactive then getReactiveAllergenIds
                            else ret ∅) ;;
      match loaded with
      | None => ret RecipesUnavailable
      | Some recipes =>
          ret (RecipesShown
                 (List.filter (recipeListed sm range q excludeReactive reactiveAllergens)
                    recipes))
      end
  end.

(** [x.toLowerCase()]: a [TypeError] unless [x] is a string. *)
Definition lowerOf (x : JOpt) : Res string :=
  match x with
  | Some (JStr s) => Ok (toLowerCase s)
  | _ => Throw TypeError
  end.

(** The text search that closes the filter predicate of [renderFoodList],
    app.js:224-229 *)
Definition foodMatches (q : string) (f : JMap) : Res bool :=
  if String.eqb q "" then Ok true
  else
    match lowerOf (f !! "nombre") with
    | Throw e => Throw e
    | Ok nombre =>
        if includes nombre q then Ok true
        else
          match lowerOf (f !! "id") with
          | Throw e => Throw e
          | Ok id =>
              if includes id q then Ok true
              else Ok (includes
                         (toLowerCase (toStr (valueOr (f !! "grupo") (JStr "")))) q)
          end
    end.

(** The filter predicate of [renderFoodList], app.js:213-230 *)
Definition foodListed (safeMonths : Z) (range : option AgeRange) (q : string)
    (f : JMap) : Res bool :=
  if foodListAge safeMonths range f then foodMatches q f else Ok false.

(** [renderFoodList], app.js:197: the records it lists, for the text
    [filterText] and the value [ageFilter] of [food-age-filter]. *)
Definition renderFoodList (catalog : list JMap) (filterText ageFilter : string)
    : M (list JMap) :=
  let q := toLowerCase (trim filterText) in
  safeMonths <~ lift getProfileSafeAgeMonths ;;
  let range := parseAgeRange ageFilter in
  _ <~ lift getProfileSafeAgeMonths ;;            (* renderFoodAgeNote *)
  match safeMonths with
  | None => ret []
  | Some sm => try (filterRes (foodListed sm range q) catalog)
  end.

(** The loop of [getDayIcons], app.js:653-660 *)
Definition dayFlags (entries : list JVal) : DayFlags :=
  fold_left
    (fun fl e =>
       {| hasFood := true;
          hasWarn := if strictEq (prop e "reaction") (Some (JStr "disliked"))
                     then true else hasWarn fl;
          hasLove := if strictEq (prop e "reaction") (Some (JStr "liked"))
                     then true else hasLove fl |})
    entries
    {| hasFood := false; hasWarn := false; hasLove := false |}.

(** [getDayIcons], app.js:649 *)
Definition getDayIcons (dateStr : string) : M string :=
  entries <~ getEntriesForDate dateStr ;;
  match entries with
  | [] => ret ""
  | _ :: _ =>
      let fl := dayFlags entries in
      ret (trim ((if hasFood fl then "🥦" else "")
                 +:+ (if hasWarn fl then " ⚠️" else "")
                 +:+ (if hasLove fl then " ❤️" else "")))
  end.

(** The handler [persist] of the milestone checkboxes, app.js:1142 *)
Definition persistMilestones (seated noExtrusion interestInFood handToMouth : bool)
    (w : World) : JVal * World :=
  milestonesSet
    (JObj (<["seated" := JBool seated]>
          (<["noExtrusion" := JBool noExtrusion]>
          (<["interestInFood" := JBool interestInFood]>
          (<["handToMouth" := JBool handToMouth]> ∅))))) w.

(** [gestationWeeksRaw ? Number(gestationWeeksRaw) : null], as a number
    when it is one. *)
Definition weeksOf (gestationWeeksRaw : string) : option Z :=
  if String.eqb gestationWeeksRaw "" then None else stringToNumber gestationWeeksRaw.

(** The profile built at app.js:1027.  A [NaN] number of weeks is
    written to the store as [null]. *)
Definition nextProfileOf (birthDate : string) (gestationWeeks : option Z)
    (dueDate : string) : JMap :=
  <["birthDate" := JStr birthDate]>
  (<["gestationWeeks" := match gestationWeeks with
                         | Some z => JNum z
                         | None => JNull
                         end]>
  (<["dueDate" := if String.eqb dueDate "" then JNull else JStr dueDate]> ∅)).

(** The submit handler of the profile form, app.js:1008-1044, up to the
    save; what follows redraws the views. *)
Definition profileSubmit (form : ProfileForm) : M ProfileOutcome :=
  let birthDate := trim (babyBirthdate form) in
  let gestationWeeksRaw := trim (babyGestationWeeks form) in
  let dueDate := trim (babyDuedate form) in
  if String.eqb birthDate "" then ret FaltaNacimiento
  else
    let gestationWeeks := weeksOf gestationWeeksRaw in
    if isPreterm gestationWeeks && String.eqb dueDate "" then ret FaltaFpp
    else
      let nextProfile := nextProfileOf birthDate gestationWeeks dueDate in
      safeMonths <~ lift (getSafeAgeMonths (Some (JObj nextProfile))) ;;
      nextProfile <~ match safeMonths with
                     | Some sm =>
                         t <~ lift nowIso ;;
                         ret (<["safeAgeCalculatedAt" := t]>
                                (<["safeAgeMonths" := JNum sm]> nextProfile))
                     | None => ret nextProfile
                     end ;;
      _ <~ lift (babyProfileSet (JObj nextProfile)) ;;
      ret (PerfilActualizado (JObj nextProfile)).

(** The handler of a button "Borrar" of the day modal, app.js:908, when
    the caregiver confirms: [None] when nothing is deleted. *)
Definition dayDelete (id : string) (confirmed : bool) : M (option JVal) :=
  if String.eqb id "" then ret None
  else if negb confirmed then ret None
  else
    st <~ deleteEntry (JStr id) ;;
    ret (Some st).

End AppMore.

(** The record under the key [sec] of a state, empty when the value is
    not a plain object. *)
Definition sectionOf (state : JVal) (sec : string) : JMap :=
  match prop state sec with
  | Some (JObj m) => m
  | _ => ∅
  end.

(** The entity that stands for a character in escaped text. *)
Definition escapeChar (a : Ascii.ascii) : string :=
  if Ascii.eqb a chAmp then "&amp;"
  else if Ascii.eqb a chLt then "&lt;"
  else if Ascii.eqb a chGt then "&gt;"
  else if Ascii.eqb a chQuot then "&quot;"
  else if Ascii.eqb a chApos then "&#039;"
  else String a EmptyString.

Fixpoint escapeChars (s : string) : string :=
  match s with
  | EmptyString => EmptyString
  | String a s' => escapeChar a +:+ escapeChars s'
  end.

(** The character [c] occurs in [s]. *)
Fixpoint occurs (c : Ascii.ascii) (s : string) : bool :=
  match s with
  | EmptyString => false
  | String a s' => Ascii.eqb a c || occurs c s'
  end.

(** An entry whose [reaction] is the given one. *)
Definition reacted (reaction : string) (e : JVal) : bool :=
  strictEq (prop e "reaction") (Some (JStr reaction)).

(** An entry that [getEntriesForDate] keeps for a date. *)
Definition onDate (dateStr : string) (e : JVal) : bool :=
  truthy (Some e) && typeofObject (Some e)
  && strictEq (prop e "date") (Some (JStr dateStr)).

(** ** The age tests on JavaScript numbers

    [Number(x)] is [NaN], one of the two infinities or a finite number;
    the finite numbers of this development are the integers of [JNum].
    The two list filters treat [+Infinity] differently, which the
    conversion [toNumber], with [None] for every value that is not
    finite, does not show. *)
Inductive Num : Type :=
  | NaN
  | PosInf
  | NegInf
  | Fin (z : Z).

(** [Number.isFinite(n)] *)
Definition isFiniteNum (n : Num) : bool :=
  match n with
  | Fin _ => true
  | _ => false
  end.

(** [a > b], [a >= b] and [a < b] for a finite [b]: false on [NaN]. *)
Definition gtNum (a : Num) (b : Z) : bool :=
  match a with
  | Fin x => b <? x
  | PosInf => true
  | NegInf | NaN => false
  end.

Definition geNum (a : Num) (b : Z) : bool :=
  match a with
  | Fin x => b <=? x
  | PosInf => true
  | NegInf | NaN => false
  end.

Definition ltNum (a : Num) (b : Z) : bool :=
  match a with
  | Fin x => x <? b
  | NegInf => true
  | PosInf | NaN => false
  end.

(** The age tests of the filter of [renderFoodList], app.js:215-222, on
    [Number(f.edad_minima)]; [true] when the record goes on to the text
    search. *)
Definition foodAge (safeMonths : Z) (range : option AgeRange) (age : Num) : bool :=
  if gtNum age safeMonths then false
  else
    match range with
    | Some r =>
        let min := age in
        if negb (isFiniteNum min) then false
        else if negb (geNum min (rangeMin r) && ltNum min (maxExclusive r)) then false
        else true
    | None => true
    end.

(** The age tests of the filter of [renderRecipeList], app.js:99-105, on
    [Number(r.edad_minima)]; [true] when the recipe goes on to the
    ingredient and allergen tests. *)
Definition recipeAge (safeMonths : Z) (range : option AgeRange) (minAge : Num) : bool :=
  if isFiniteNum minAge && gtNum minAge safeMonths then false
  else
    match range with
    | Some r =>
        if negb (isFiniteNum minAge) then false
        else if negb (geNum minAge (rangeMin r) && ltNum minAge (maxExclusive r))
             then false
        else true
    | None => true
    end.

Section AgeTests.
Context `{Platform}.

(** [Number(s)] of a string, the infinities kept apart. *)
Variable stringToNum : string -> Num.

(** [Number(v)] *)
Definition toNum (v : JOpt) : Num :=
  match v with
  | None => NaN
  | Some JNull => Fin 0
  | Some (JBool b) => Fin (if b then 1 else 0)
  | Some (JNum z) => Fin z
  | Some (JStr s) => stringToNum s
  | Some (JArr l) => stringToNum (toStr (JArr l))
  | Some (JObj _) => NaN
  end.

Definition foodListAgeNum (safeMonths : Z) (range : option AgeRange) (f : JMap) : bool :=
  foodAge safeMonths range (toNum (f !! "edad_minima")).

Definition recipeListAgeNum (safeMonths : Z) (range : option AgeRange) (r : JMap) : bool :=
  recipeAge safeMonths range (toNum (r !! "edad_minima")).

(** The finite value of a number, as [toNumber] gives it. *)
Definition finite (n : Num) : option Z :=
  match n with
  | Fin z => Some z
  | _ => None
  end.

End AgeTests.

(** ** sw.js

    The cache is the set of the requests handed to [cache.addAll] that it
    holds.  A call of [cache.addAll] adds all the requests of its batch
    when it resolves and none when it rejects; which calls resolve is
    given from outside, as are the value of [self.FOOD_INDEX] that
    [importScripts] leaves and the document that the fetch of the recipe
    index returns. *)




Section ServiceWorker.
Context `{Platform}.


(** [resolves k] tells whether the [cache.addAll] of the batch number
    [k] of a loop resolves. *)
Variable resolves : nat -> bool.





End ServiceWorker.

(** ** Stores, forms and records for the examples *)

(** [toLowerCase] on the letters A to Z. *)
Fixpoint asciiLower (s : string) : string :=
  match s with
  | EmptyString => EmptyString
  | String a s' =>
      let n := Ascii.nat_of_ascii a in
      String (if (65 <=? n)%nat && (n <=? 90)%nat then Ascii.ascii_of_nat (n + 32) else a)
        (asciiLower s')
  end.

(** A browser that holds the history of the first version of the
    application and no state. *)
Definition legacyWorld : World :=
  setItem LEGACY_HISTORY_KEY (Json (JArr [JObj bananaEntry])) emptyWorld.

(** A store whose diary is [null]. *)
Definition nullDiaryWorld : World :=
  setItem STATE_KEY
    (Json (JObj (<["version" := JNum 1]> (<["diary" := JNull]> ∅)))) emptyWorld.

(** The store of [readyWorld] after a severe reaction to egg was
    recorded. *)
Definition reactionWorld : World :=
  (setStatus (H := browser) "huevo" "severe" readyWorld).2.

(** Two records of the recipe index. *)
Definition tortilla : JMap :=
  <["id" := JStr "tortilla"]>
  (<["nombre" := JStr "Tortilla francesa"]>
  (<["edad_minima" := JNum 6]>
  (<["alergenos" := JArr [JStr "huevo"]]>
  (<["ingredientes" := JArr [JStr "Huevo"; JStr "Aceite de oliva"]]> ∅)))).

Definition calabaza : JMap :=
  <["id" := JStr "calabaza"]>
  (<["nombre" := JStr "Puré de calabaza"]>
  (<["edad_minima" := JNum 6]>
  (<["alergenos" := JArr []]>
  (<["ingredientes" := JArr [JStr "Calabaza"]]> ∅)))).

(** The profile form of a preterm baby. *)
Definition pretermForm : ProfileForm :=
  {| babyBirthdate := "2024-01-03"; babyGestationWeeks := " 32";
     babyDuedate := "2024-03-01" |}.

(** The profile that the submit of [pretermForm] saves on a new store. *)
Definition pretermSaved : JVal :=
  match (profileSubmit (H := browser) pretermForm emptyWorld).1 with
  | Ok (PerfilActualizado p) => p
  | _ => JNull
  end.

(** The entry that the save of avocado writes on [readyWorld]. *)
Definition avocadoSaved : JVal :=
  match (daySave (H := browser) [aguacate; miel] "2024-08-10" None
           (blankForm "aguacate") readyWorld).1 with
  | Ok (Guardado e) => e
  | _ => JNull
  end.



(** A reader of decimal numerals and of the spellings of the infinities. *)
Definition numeral (s : string) : Num :=
  if String.eqb (trimSpaces s) "Infinity" then PosInf
  else if String.eqb (trimSpaces s) "+Infinity" then PosInf
  else if String.eqb (trimSpaces s) "-Infinity" then NegInf
  else match decimal (trimSpaces s) with
       | Some z => Fin z
       | None => NaN
       end.

(** A record of the food index whose minimum age reads as [+Infinity]. *)
Definition edadInfinita : JMap := food "edad-infinita" (JStr "Infinity").

(** * Properties *)

(** ** mergeDeep *)

Lemma depth_prop (m : JMap) (k : string) (v : JVal) :
  m !! k = Some v -> (depth v < depth (JObj m))%nat.
Proof.
  intros Hk. simpl.
  rewrite (map_fold_delete_L _ _ k v m); [lia | | exact Hk].
  intros. lia.
Qed.

(** Induction on the nesting of objects. *)
Lemma JVal_nest_ind (P : JVal -> Prop) :
  (forall v, (forall m k x, v = JObj m -> m !! k = Some x -> P x) -> P v) ->
  forall v, P v.
Proof.
  intros step v.
  remember (depth v) as n eqn:Hn.
  revert v Hn. induction n as [n IH] using lt_wf_ind.
  intros v ->. apply step. intros m k x -> Hk.
  eapply IH; [|reflexivity]. by eapply depth_prop.
Qed.

Lemma mergeDeep_obj (t s : JMap) :
  exists m, mergeDeep (JObj t) (JObj s) = JObj m
            /\ forall k, m !! k = mergeAt (t !! k) (s !! k).
Proof.
  eexists. split; [reflexivity|].
  apply (map_fold_weak_ind
           (fun out (m : JMap) => forall k, out !! k = mergeAt (t !! k) (m !! k))).
  - intros k. by rewrite lookup_empty.
  - intros i x m out Hi IH k. rewrite !lookup_insert. case_decide as Hk.
    + subst k. rewrite (IH i), Hi. unfold mergeAt.
      destruct (t !! i) as [tv|]; [done|]. by rewrite andb_false_r.
    + apply IH.
Qed.

Lemma mergeDeep_not_plain_source (t s : JVal) :
  isPlainObject (Some s) = false -> mergeDeep t s = s.
Proof. destruct s, t; simpl; done. Qed.

Lemma mergeDeep_not_plain_target (t s : JVal) :
  isPlainObject (Some t) = false -> mergeDeep t s = s.
Proof. destruct t, s; simpl; done. Qed.

Lemma mergeDeep_prop (t s : JVal) (k : string) :
  isPlainObject (Some t) = true -> isPlainObject (Some s) = true ->
  prop (mergeDeep t s) k = mergeAt (prop t k) (prop s k).
Proof.
  destruct t as [| | | | |t]; try done. destruct s as [| | | | |s]; try done.
  intros _ _. destruct (mergeDeep_obj t s) as (m & -> & Hm). apply Hm.
Qed.

Lemma mergeDeep_plain (t s : JVal) :
  isPlainObject (Some s) = true -> isPlainObject (Some (mergeDeep t s)) = true.
Proof. destruct s, t; simpl; done. Qed.

Lemma mergeDeep_mergeMap (t s : JMap) :
  mergeDeep (JObj t) (JObj s) = JObj (mergeMap t s).
Proof. reflexivity. Qed.

Lemma lookup_mergeMap (t s : JMap) (k : string) :
  mergeMap t s !! k = mergeAt (t !! k) (s !! k).
Proof.
  destruct (mergeDeep_obj t s) as (m & Hm & Hk).
  unfold mergeMap. rewrite Hm. apply Hk.
Qed.

(** Merging a value into itself changes nothing. *)
Lemma mergeDeep_idem (v : JVal) : mergeDeep v v = v.
Proof.
  induction v as [v IH] using JVal_nest_ind.
  destruct v as [| | | | |m]; try reflexivity.
  rewrite mergeDeep_mergeMap. f_equal. apply map_eq. intros k.
  rewrite lookup_mergeMap. unfold mergeAt.
  destruct (m !! k) as [x|] eqn:Hk; [|done].
  f_equal. rewrite andb_diag.
  destruct (isPlainObject (Some x)); [|done].
  by eapply IH.
Qed.

Lemma mergeAt_absorb (ot' ot os : JOpt) :
  (forall tv sv, ot = Some tv -> os = Some sv ->
     mergeDeep tv (mergeDeep tv sv) = mergeDeep tv sv) ->
  (ot' = ot \/ exists a b, ot' = Some a /\ ot = Some b
                           /\ isPlainObject (Some a) = false
                           /\ isPlainObject (Some b) = false) ->
  mergeAt ot' (mergeAt ot os) = mergeAt ot os.
Proof.
  intros IH [->|(a & b & -> & -> & Ha & Hb)]; unfold mergeAt.
  - destruct os as [sv|], ot as [tv|]; try done.
    + f_equal.
      destruct (isPlainObject (Some sv)) eqn:Hs, (isPlainObject (Some tv)) eqn:Ht;
        cbn [andb]; rewrite ?Hs, ?Ht; cbn [andb]; try done.
      rewrite mergeDeep_plain by done. cbn [andb]. by apply IH.
    + f_equal. rewrite andb_diag.
      destruct (isPlainObject (Some tv)); [apply mergeDeep_idem|done].
  - destruct os as [sv|].
    + rewrite Hb, andb_false_r. by rewrite Ha, andb_false_r.
    + by rewrite Ha, andb_false_r.
Qed.

(** Merging into the same target twice is merging once. *)
Lemma mergeDeep_absorb (s t : JVal) :
  mergeDeep t (mergeDeep t s) = mergeDeep t s.
Proof.
  revert t. induction s as [s IH] using JVal_nest_ind. intros t.
  destruct (isPlainObject (Some s)) eqn:Hs;
    [|by rewrite !(mergeDeep_not_plain_source _ s)].
  destruct (isPlainObject (Some t)) eqn:Ht;
    [|by rewrite !(mergeDeep_not_plain_target t)].
  destruct s as [| | | | |sm]; try done. destruct t as [| | | | |tm]; try done.
  rewrite !mergeDeep_mergeMap. f_equal. apply map_eq. intros k.
  rewrite !lookup_mergeMap. apply mergeAt_absorb; [|by left].
  intros tv sv _ Hk. by eapply IH.
Qed.


Lemma mergeMap_empty_l (s : JMap) : mergeMap ∅ s = s.
Proof.
  apply map_eq. intros k. rewrite lookup_mergeMap, lookup_empty.
  by destruct (s !! k).
Qed.


Lemma mergeMap_sameShape (t' t : JMap) : sameShape t' t -> mergeMap t' t = t.
Proof.
  intros Hsh. apply map_eq. intros k. rewrite lookup_mergeMap.
  destruct (Hsh k) as [->|(a & b & -> & -> & Ha & Hb)]; unfold mergeAt.
  - destruct (t !! k) as [x|]; [|done]. f_equal. rewrite andb_diag.
    destruct (isPlainObject (Some x)); [apply mergeDeep_idem|done].
  - by rewrite Ha, andb_false_r.
Qed.

(** ** The store in closed form *)

Section StoreFacts.
Context `{Platform}.

Lemma later_later (a b : nat) (w : World) : later a (later b w) = later (a + b) w.
Proof. unfold later. simpl. f_equal. lia. Qed.

Lemma getDefaultState_at (w : World) :
  getDefaultState w = (JObj (defaultsAt (tick w)), later 2 w).
Proof. reflexivity. Qed.

Lemma accepted_inv (raw : JVal) :
  accepted raw = true -> exists r, raw = JObj r /\ r !! "version" = Some (JNum 1).
Proof.
  unfold accepted. intros Hv.
  apply andb_true_iff in Hv as [Ht Hv]. apply andb_true_iff in Ht as [Ht Hto].
  destruct raw as [|b|z|s|l|r]; try done.
  exists r. split; [done|]. unfold prop, strictEq in Hv.
  destruct (r !! "version") as [[| |z| | |]|]; try done.
  apply Z.eqb_eq in Hv. by subst.
Qed.

Lemma accepted_obj (r : JMap) :
  r !! "version" = Some (JNum 1) -> accepted (JObj r) = true.
Proof. intros Hv. unfold accepted, prop. by rewrite Hv. Qed.

Lemma normalizeState_at (raw : JVal) (w : World) :
  normalizeState raw w = (normalizeAt (tick w) raw, later (normalizeCost raw) w).
Proof.
  unfold normalizeState, normalizeAt, normalizeCost. rewrite getDefaultState_at.
  destruct (accepted raw) eqn:Hacc.
  - destruct (accepted_inv _ Hacc) as (r & -> & Hv).
    unfold prop, strictEq, truthy, typeofObject. rewrite Hv. reflexivity.
  - unfold accepted in Hacc.
    destruct (truthy (Some raw)); [|done].
    destruct (typeofObject (Some raw)); [|done].
    cbn [andb] in Hacc. cbn [negb orb]. by rewrite Hacc.
Qed.

Lemma normalizeAt_obj (n : nat) (r : JMap) :
  r !! "version" = Some (JNum 1) ->
  normalizeAt n (JObj r)
  = JObj (<["updatedAt" := stamp (S (S n))]>
          (<["version" := JNum 1]> (mergeMap (defaultsAt n) r))).
Proof. intros Hv. unfold normalizeAt. by rewrite accepted_obj. Qed.

Lemma normalizeAt_rejected (n : nat) (raw : JVal) :
  accepted raw = false -> normalizeAt n raw = JObj (defaultsAt n).
Proof. intros Hacc. unfold normalizeAt. by rewrite Hacc. Qed.

Lemma defaultsAt_version (n : nat) : defaultsAt n !! "version" = Some (JNum 1).
Proof. reflexivity. Qed.

(** Whatever the input, the normalised state is an object tagged with
    version 1. *)
Lemma normalizeAt_version (n : nat) (raw : JVal) :
  exists m, normalizeAt n raw = JObj m /\ m !! "version" = Some (JNum 1).
Proof.
  destruct (accepted raw) eqn:Hacc.
  - destruct (accepted_inv _ Hacc) as (r & -> & Hv).
    rewrite normalizeAt_obj by done. eexists. split; [reflexivity|].
    rewrite lookup_insert_ne by done. apply lookup_insert_eq.
  - rewrite normalizeAt_rejected by done. eexists. split; [reflexivity|].
    apply defaultsAt_version.
Qed.

Lemma accepted_normalizeAt (n : nat) (raw : JVal) :
  accepted (normalizeAt n raw) = true.
Proof.
  destruct (normalizeAt_version n raw) as (m & -> & Hv). by apply accepted_obj.
Qed.

Lemma writeStateToStorage_at (state : JVal) (w : World) :
  writeStateToStorage state w
  = (normalizeAt (tick w) state,
     setItem STATE_KEY (Json (normalizeAt (tick w) state))
       (later (normalizeCost state) w)).
Proof. unfold writeStateToStorage. by rewrite normalizeState_at. Qed.

Lemma readStateFromStorage_at (w : World) :
  readStateFromStorage w
  = (normalizeAt (tick w) (persisted w), later (normalizeCost (persisted w)) w).
Proof. unfold readStateFromStorage. by rewrite normalizeState_at. Qed.

Lemma ensureState_present (w : World) :
  hasState w = true ->
  ensureState w
  = (normalizeAt (tick w) (persisted w), later (normalizeCost (persisted w)) w).
Proof.
  intros Hs. unfold ensureState, migrateLegacyIfNeeded.
  unfold hasState in Hs. rewrite Hs.
  rewrite readStateFromStorage_at.
  change (getItem STATE_KEY (later _ w)) with (getItem STATE_KEY w).
  by rewrite Hs.
Qed.

Lemma persisted_absent (w : World) : hasState w = false -> persisted w = JNull.
Proof.
  unfold hasState, persisted. by destruct (getItem STATE_KEY w) as [[| |v]|].
Qed.

Lemma ensureState_fresh (w : World) :
  hasState w = false -> legacyPresent w = false ->
  ensureState w
  = (JObj (defaultsAt (tick w)),
     setItem STATE_KEY (Json (normalizeAt (2 + tick w) (JObj (defaultsAt (tick w)))))
       (later 5 w)).
Proof.
  intros Hs Hl. unfold ensureState, migrateLegacyIfNeeded.
  unfold hasState in Hs. rewrite Hs. unfold legacyPresent in Hl.
  assert (match safeParse (getItem LEGACY_HISTORY_KEY w) with
          | JArr (_ :: _) =>
              let '(c, w1) := nowIso w in
              let '(u, w2) := nowIso w1 in
              (writeStateToStorage
                 (JObj (<["diary" := JObj (<["entries" := safeParse (getItem LEGACY_HISTORY_KEY w)]> ∅)]>
                          (defaultStateAt c u))) w2).2
          | _ => w
          end = w) as ->.
  { destruct (safeParse (getItem LEGACY_HISTORY_KEY w)) as [| | | |[|x l]|]; done. }
  rewrite readStateFromStorage_at, (persisted_absent w) by done.
  change (getItem STATE_KEY (later _ w)) with (getItem STATE_KEY w).
  rewrite Hs. cbn [negb]. rewrite writeStateToStorage_at.
  rewrite normalizeAt_rejected by done.
  cbn [snd]. unfold normalizeCost.
  rewrite accepted_obj by apply defaultsAt_version.
  change (accepted JNull) with false. cbv iota.
  by rewrite later_later.
Qed.

Lemma ensureState_legacy (w : World) :
  hasState w = false -> legacyPresent w = true ->
  ensureState w
  = (normalizeAt (5 + tick w) (migrated w),
     later 3 (setItem STATE_KEY (Json (migrated w)) (later 5 w))).
Proof.
  intros Hs Hl. unfold ensureState, migrateLegacyIfNeeded.
  unfold hasState in Hs. rewrite Hs. unfold legacyPresent in Hl.
  destruct (safeParse (getItem LEGACY_HISTORY_KEY w)) as [| | | |[|x l]|] eqn:Hleg;
    try done.
  change (nowIso w) with (stamp (tick w), later 1 w). cbv iota beta.
  change (nowIso (later 1 w)) with (stamp (S (tick w)), later 2 w).
  cbv iota beta. rewrite writeStateToStorage_at. cbn [snd].
  set (st := JObj (<["diary" := _]> _)).
  assert (accepted st = true) as Hacc by (by apply accepted_obj).
  assert (normalizeAt (tick (later 2 w)) st = migrated w) as Hmig.
  { unfold migrated. by rewrite Hleg. }
  rewrite Hmig. unfold normalizeCost at 1. rewrite Hacc, later_later.
  rewrite readStateFromStorage_at.
  assert (persisted (setItem STATE_KEY (Json (migrated w)) (later (3 + 2) w))
          = migrated w) as ->.
  { unfold persisted, getItem, setItem. cbn [storage].
    rewrite lookup_insert_eq. reflexivity. }
  unfold normalizeCost. rewrite (accepted_normalizeAt _ _ : accepted (migrated w) = true).
  assert (getItem STATE_KEY
            (later 3 (setItem STATE_KEY (Json (migrated w)) (later (3 + 2) w)))
          = Some (Json (migrated w))) as ->.
  { unfold getItem, setItem, later. cbn [storage]. apply lookup_insert_eq. }
  reflexivity.
Qed.

Lemma eqButUpdated_trans (a b c : JVal) :
  eqButUpdated a b -> eqButUpdated b c -> eqButUpdated a c.
Proof. intros Hab Hbc k Hk. by rewrite Hab, Hbc. Qed.

Lemma eqButStamps_trans (a b c : JVal) :
  eqButStamps a b -> eqButStamps b c -> eqButStamps a c.
Proof. intros Hab Hbc k Hk Hk'. by rewrite Hab, Hbc. Qed.

Lemma eqButUpdated_sym (a b : JVal) : eqButUpdated a b -> eqButUpdated b a.
Proof. intros Hab k Hk. by rewrite Hab. Qed.

Lemma eqButStamps_sym (a b : JVal) : eqButStamps a b -> eqButStamps b a.
Proof. intros Hab k Hk Hk'. by rewrite Hab. Qed.

Lemma eqButUpdated_weaken (a b : JVal) : eqButUpdated a b -> eqButStamps a b.
Proof. intros Hab k Hk _. by apply Hab. Qed.

Lemma defaultsAt_other (n m : nat) (k : string) :
  k <> "createdAt" -> k <> "updatedAt" -> defaultsAt n !! k = defaultsAt m !! k.
Proof.
  intros Hc Hu. unfold defaultsAt, defaultStateAt.
  rewrite !lookup_insert. repeat case_decide; congruence.
Qed.

Lemma defaultsAt_createdAt (n : nat) : defaultsAt n !! "createdAt" = Some (stamp n).
Proof. reflexivity. Qed.

Lemma defaultsAt_updatedAt (n : nat) :
  defaultsAt n !! "updatedAt" = Some (stamp (S n)).
Proof. reflexivity. Qed.

Lemma sameShape_defaults (n m : nat) : sameShape (defaultsAt n) (defaultsAt m).
Proof.
  intros k.
  destruct (decide (k = "createdAt")) as [->|Hc].
  { right. exists (stamp n), (stamp m). by rewrite !defaultsAt_createdAt. }
  destruct (decide (k = "updatedAt")) as [->|Hu].
  { right. exists (stamp (S n)), (stamp (S m)). by rewrite !defaultsAt_updatedAt. }
  left. by apply defaultsAt_other.
Qed.

Lemma prop_normalizeAt_obj (n : nat) (r : JMap) (k : string) :
  r !! "version" = Some (JNum 1) ->
  prop (normalizeAt n (JObj r)) k
  = if decide (k = "updatedAt") then Some (stamp (S (S n)))
    else if decide (k = "version") then Some (JNum 1)
    else mergeAt (defaultsAt n !! k) (r !! k).
Proof.
  intros Hv. rewrite normalizeAt_obj by done. unfold prop.
  rewrite !lookup_insert, lookup_mergeMap.
  repeat case_decide; congruence.
Qed.

(** Reading the same persisted value at two moments gives the same state,
    timestamps apart. *)
Lemma normalizeAt_same_raw (n m : nat) (raw : JVal) :
  eqButStamps (normalizeAt m raw) (normalizeAt n raw).
Proof.
  intros k Hu Hc. destruct (accepted raw) eqn:Hacc.
  - destruct (accepted_inv _ Hacc) as (r & -> & Hv).
    rewrite !prop_normalizeAt_obj by done.
    repeat case_decide; try congruence.
    by rewrite (defaultsAt_other m n).
  - rewrite !normalizeAt_rejected by done. unfold prop.
    by apply defaultsAt_other.
Qed.

(** [createdAt] is the same too when the persisted value carries one. *)
Lemma normalizeAt_same_raw_created (n m : nat) (raw : JVal) :
  accepted raw = true -> is_Some (prop raw "createdAt") ->
  eqButUpdated (normalizeAt m raw) (normalizeAt n raw).
Proof.
  intros Hacc [c Hc] k Hu.
  destruct (decide (k = "createdAt")) as [->|Hk];
    [|by apply normalizeAt_same_raw].
  destruct (accepted_inv _ Hacc) as (r & -> & Hv).
  rewrite !prop_normalizeAt_obj by done.
  repeat case_decide; try congruence. rewrite !defaultsAt_createdAt.
  unfold prop in Hc. rewrite Hc. unfold mergeAt.
  by rewrite !andb_false_r.
Qed.

(** Normalising a normalised state changes [updatedAt] only. *)
Lemma normalizeAt_idem (n m : nat) (raw : JVal) :
  eqButUpdated (normalizeAt m (normalizeAt n raw)) (normalizeAt n raw).
Proof.
  intros k Hu. destruct (normalizeAt_version n raw) as (x & Hx & Hxv).
  rewrite Hx, prop_normalizeAt_obj by done.
  rewrite decide_False by done. unfold prop. case_decide as Hkv; [by subst|].
  destruct (accepted raw) eqn:Hacc.
  - destruct (accepted_inv _ Hacc) as (r & -> & Hv).
    rewrite normalizeAt_obj in Hx by done. injection Hx as <-.
    rewrite !lookup_insert_ne by done. rewrite lookup_mergeMap.
    apply mergeAt_absorb; [|apply sameShape_defaults].
    intros tv sv _ _. apply mergeDeep_absorb.
  - rewrite normalizeAt_rejected in Hx by done. injection Hx as <-.
    rewrite <- lookup_mergeMap. by rewrite mergeMap_sameShape by apply sameShape_defaults.
Qed.

Lemma defaults_normalizeAt (n : nat) : JObj (defaultsAt n) = normalizeAt n JNull.
Proof. reflexivity. Qed.

(** What the store holds after [ensureState], read at any later moment,
    is the state [ensureState] returned, timestamps apart. *)
Lemma ensureState_stable (w : World) :
  hasState (ensureState w).2 = true
  /\ forall m,
       eqButStamps (normalizeAt m (persisted (ensureState w).2)) (ensureState w).1
       /\ (settled w ->
           eqButUpdated (normalizeAt m (persisted (ensureState w).2)) (ensureState w).1).
Proof.
  destruct (hasState w) eqn:Hs.
  - rewrite ensureState_present by done. cbn [fst snd].
    split; [exact Hs|]. intros m.
    change (persisted (later _ w)) with (persisted w).
    split; [apply normalizeAt_same_raw|].
    intros Hset. destruct (Hset Hs) as [Hacc Hc].
    by apply normalizeAt_same_raw_created.
  - destruct (legacyPresent w) eqn:Hl.
    + rewrite ensureState_legacy by done. cbn [fst snd].
      assert (persisted (later 3 (setItem STATE_KEY (Json (migrated w)) (later 5 w)))
              = migrated w) as ->.
      { unfold persisted, getItem, setItem, later. cbn [storage].
        rewrite lookup_insert_eq. reflexivity. }
      split.
      { unfold hasState, getItem, setItem, later. cbn [storage].
        rewrite lookup_insert_eq. reflexivity. }
      intros m.
      assert (eqButUpdated (normalizeAt m (migrated w))
                (normalizeAt (5 + tick w) (migrated w))) as Heq.
      { eapply eqButUpdated_trans; [apply normalizeAt_idem|].
        apply eqButUpdated_sym, normalizeAt_idem. }
      split; [by apply eqButUpdated_weaken|done].
    + rewrite ensureState_fresh by done. cbn [fst snd].
      assert (persisted (setItem STATE_KEY
                (Json (normalizeAt (2 + tick w) (JObj (defaultsAt (tick w)))))
                (later 5 w))
              = normalizeAt (2 + tick w) (JObj (defaultsAt (tick w)))) as ->.
      { unfold persisted, getItem, setItem, later. cbn [storage].
        rewrite lookup_insert_eq. reflexivity. }
      split.
      { unfold hasState, getItem, setItem, later. cbn [storage].
        rewrite lookup_insert_eq. reflexivity. }
      intros m.
      assert (eqButUpdated
                (normalizeAt m (normalizeAt (2 + tick w) (JObj (defaultsAt (tick w)))))
                (JObj (defaultsAt (tick w)))) as Heq.
      { eapply eqButUpdated_trans; [apply normalizeAt_idem|].
        rewrite defaults_normalizeAt. apply normalizeAt_idem. }
      split; [by apply eqButUpdated_weaken|done].
Qed.

End StoreFacts.

(** ** The version tag of the store *)

Section Version.
Context `{Platform}.

Lemma ensureState_normalized (w : World) :
  exists n raw, (ensureState w).1 = normalizeAt n raw.
Proof.
  destruct (hasState w) eqn:Hs.
  - rewrite ensureState_present by done. by eexists _, _.
  - destruct (legacyPresent w) eqn:Hl.
    + rewrite ensureState_legacy by done. by eexists _, _.
    + rewrite ensureState_fresh by done. exists (tick w), JNull. reflexivity.
Qed.

Lemma ensureState_version (w : World) :
  prop (ensureState w).1 "version" = Some (JNum 1).
Proof.
  destruct (ensureState_normalized w) as (n & raw & ->).
  by destruct (normalizeAt_version n raw) as (m & -> & Hv).
Qed.

Lemma accepted_false (raw : JVal) :
  isPlainObject (Some raw) = false \/ prop raw "version" <> Some (JNum 1) ->
  accepted raw = false.
Proof.
  intros Hbad. destruct (accepted raw) eqn:Hacc; [|done].
  destruct (accepted_inv _ Hacc) as (r & -> & Hv).
  by destruct Hbad as [Hp|Hp].
Qed.

(** C10.  Every state returned by [getState], [setState], [importState]
    (when it returns) and [resetState] carries version 1; and a persisted
    value that is not a plain object, or whose version is not the number
    1, is read as the default state built at the time of the read, which
    is then the state [getState] returns. *)
Theorem store_version_is_one (w : World) (partial doc : JVal) :
  prop (getState w).1 "version" = Some (JNum 1)
  /\ prop (setState partial w).1 "version" = Some (JNum 1)
  /\ (forall s w', importState doc w = (Ok s, w') ->
        prop s "version" = Some (JNum 1))
  /\ prop (resetState w).1 "version" = Some (JNum 1)
  /\ (isPlainObject (Some (safeParse (getItem STATE_KEY w))) = false
      \/ prop (safeParse (getItem STATE_KEY w)) "version" <> Some (JNum 1) ->
      (readStateFromStorage w).1
      = JObj (defaultStateAt (JStr (clockIso (tick w)))
                (JStr (clockIso (S (tick w)))))
      /\ (itemTruthy (getItem STATE_KEY w) = true ->
          (getState w).1
          = JObj (defaultStateAt (JStr (clockIso (tick w)))
                    (JStr (clockIso (S (tick w))))))).
Proof.
  repeat split.
  - apply ensureState_version.
  - unfold setState. destruct (ensureState w) as [current w1].
    rewrite writeStateToStorage_at. cbn [fst].
    by destruct (normalizeAt_version (tick w1) (mergeDeep current (plainOrEmpty partial)))
      as (m & -> & Hv).
  - intros s w'. unfold importState.
    destruct (ok (validateBackupState doc)); cbn [negb]; [|done].
    unfold bind, lift. destruct (writeStateToStorage doc w) as [x w1].
    pose proof (ensureState_version w1) as Hv.
    destruct (ensureState w1) as [s1 w2]. intros [= <- <-]. exact Hv.
  - apply ensureState_version.
  - rewrite readStateFromStorage_at. cbn [fst].
    by rewrite normalizeAt_rejected by by apply accepted_false.
  - intros Hs. unfold getState. rewrite ensureState_present by done. cbn [fst].
    by rewrite normalizeAt_rejected by by apply accepted_false.
Qed.

End Version.

(** ** Import of a backup *)

Section Backup.
Context `{Platform}.

Lemma lacksSection_container (doc : JVal) (k : string) :
  lacksSection doc k = negb (isContainer (prop doc k)).
Proof.
  unfold lacksSection.
  destruct (prop doc k) as [[|[]|z|s|l|m]|]; simpl; by rewrite ?orb_true_r.
Qed.

Lemma validate_ok_iff (doc : JVal) :
  ok (validateBackupState doc) = true
  <-> isContainer (Some doc) = true
      /\ prop doc "version" = Some (JNum 1)
      /\ Forall (fun k => isContainer (prop doc k) = true) backupSections.
Proof.
  unfold validateBackupState, backupSections.
  rewrite !lacksSection_container. split.
  - destruct doc as [|b|z|s|l|m];
      cbn [truthy typeofObject negb orb andb prop strictEq ok invalid]; try done.
    { by destruct b. }
    { by rewrite orb_true_r. }
    { by rewrite orb_true_r. }
    destruct (strictEq (m !! "version") (Some (JNum 1))) eqn:Hv; [|done].
    cbn [negb]. intros Hok. split; [done|]. split.
    { unfold strictEq in Hv.
      destruct (m !! "version") as [[| |z| | |]|]; try done.
      apply Z.eqb_eq in Hv. by subst. }
    destruct (isContainer (m !! "diary")) eqn:H1; [|done].
    destruct (isContainer (m !! "allergens")) eqn:H2; [|done].
    destruct (isContainer (m !! "milestones")) eqn:H3; [|done].
    destruct (isContainer (m !! "babyProfile")) eqn:H4; [|done].
    by repeat constructor.
  - intros (Hc & Hv & Hs). destruct doc as [|b|z|s|l|m]; try done.
    cbn [truthy typeofObject negb orb]. rewrite Hv. cbn [strictEq Z.eqb negb].
    rewrite !Forall_cons in Hs. destruct Hs as (-> & -> & -> & -> & _).
    reflexivity.
Qed.

Lemma validate_error_listed (doc : JVal) :
  ok (validateBackupState doc) = false ->
  exists msg, error (validateBackupState doc) = Some msg /\ msg ∈ backupErrors
              /\ msg <> "".
Proof.
  unfold validateBackupState, backupErrors, invalid.
  repeat match goal with
         | |- context [if ?c then _ else _] => destruct c
         end; cbn [ok error]; intros Hok; try done;
    eexists; (split; [reflexivity|]); (split; [|done]);
    rewrite !elem_of_cons; tauto.
Qed.

Lemma badBackup_not_ok (doc : JVal) :
  badBackup doc -> ok (validateBackupState doc) = false.
Proof.
  intros Hbad. destruct (ok (validateBackupState doc)) eqn:Hok; [|done].
  apply validate_ok_iff in Hok as (Hc & Hv & Hs).
  destruct Hbad as [Hb|[Hb|(k & Hk & Hb)]]; [congruence|done|].
  rewrite Forall_forall in Hs. specialize (Hs k Hk). congruence.
Qed.

Lemma not_ok_badBackup (doc : JVal) :
  ok (validateBackupState doc) = false -> badBackup doc.
Proof.
  intros Hok. unfold badBackup.
  destruct (isContainer (Some doc)) eqn:Hc; [|by left]. right.
  destruct (strictEq (prop doc "version") (Some (JNum 1))) eqn:Hv.
  - right.
    assert (prop doc "version" = Some (JNum 1)) as Hv'.
    { unfold strictEq in Hv.
      destruct (prop doc "version") as [[| |z| | |]|]; try done.
      apply Z.eqb_eq in Hv. by subst. }
    destruct (isContainer (prop doc "diary")) eqn:H1;
      [|exists "diary"; split; [set_solver|done]].
    destruct (isContainer (prop doc "allergens")) eqn:H2;
      [|exists "allergens"; split; [set_solver|done]].
    destruct (isContainer (prop doc "milestones")) eqn:H3;
      [|exists "milestones"; split; [set_solver|done]].
    destruct (isContainer (prop doc "babyProfile")) eqn:H4;
      [|exists "babyProfile"; split; [set_solver|done]].
    assert (ok (validateBackupState doc) = true) as Hyes; [|congruence].
    apply validate_ok_iff. split; [done|]. split; [done|].
    unfold backupSections. by repeat constructor.
  - left. intros Hv'. rewrite Hv' in Hv. done.
Qed.

(** C6, as the code has it.  A document that is no container, whose
    version is not the number 1, or one of whose four sections is
    missing, [null] or a primitive, makes [importState] throw an error
    with one of the messages of the validation, and the world, persisted
    state included, is the one before the call.  Every other document,
    and so one whose sections are arrays, is accepted: it is written and
    the state read back is returned. *)
Theorem importState_rejects (doc : JVal) (w : World) :
  (badBackup doc ->
     exists msg, msg ∈ backupErrors
                 /\ importState doc w = (Throw (Error msg), w))
  /\ (~ badBackup doc ->
      exists st w',
        importState doc w = (Ok st, w')
        /\ getItem STATE_KEY w' = Some (Json (normalizeAt (tick w) doc))).
Proof.
  split.
  - intros Hbad. apply badBackup_not_ok in Hbad.
    destruct (validate_error_listed doc Hbad) as (msg & Herr & Hin & Hne).
    exists msg. split; [done|].
    unfold importState. rewrite Hbad, Herr. cbn [negb]. unfold try.
    by destruct (String.eqb_spec msg "").
  - intros Hgood.
    destruct (ok (validateBackupState doc)) eqn:Hok;
      [|by apply not_ok_badBackup in Hok].
    unfold importState. rewrite Hok. cbn [negb].
    unfold bind, lift. rewrite writeStateToStorage_at.
    set (w1 := setItem _ _ _).
    assert (hasState w1 = true) as Hs.
    { unfold hasState, w1, getItem, setItem. cbn [storage].
      rewrite lookup_insert_eq. reflexivity. }
    rewrite (ensureState_present _ Hs). eexists _, _. split; [reflexivity|].
    unfold w1, getItem, setItem, later. cbn [storage].
    apply lookup_insert_eq.
Qed.

End Backup.

(** A backup without its [milestones] section is turned down on a store
    that already holds a state, and the store is not touched. *)
Lemma importState_rejects_witness :
  badBackup (JObj (delete "milestones" (defaultStateAt JNull JNull)))
  /\ exists msg,
       msg ∈ backupErrors
       /\ importState (H := browser)
            (JObj (delete "milestones" (defaultStateAt JNull JNull)))
            (getState (H := browser) emptyWorld).2
          = (Throw (Error msg), (getState (H := browser) emptyWorld).2).
Proof.
  assert (badBackup (JObj (delete "milestones" (defaultStateAt JNull JNull))))
    as Hbad.
  { right. right. exists "milestones". split; [|reflexivity].
    unfold backupSections. rewrite !elem_of_cons. tauto. }
  split; [exact Hbad|].
  destruct (importState_rejects (H := browser)
              (JObj (delete "milestones" (defaultStateAt JNull JNull)))
              (getState (H := browser) emptyWorld).2) as [Hrej _].
  exact (Hrej Hbad).
Defined.

(** C6 as stated fails: a backup whose [diary] is an array, which is not
    the shape of the diary record, is accepted and written. *)
Lemma importState_accepts_array_section :
  isPlainObject (prop arrayDiaryBackup "diary") = false
  /\ exists s w',
       importState (H := browser) arrayDiaryBackup emptyWorld = (Ok s, w')
       /\ prop s "diary" = Some (JArr [])
       /\ getItem STATE_KEY w' <> getItem STATE_KEY emptyWorld.
Proof.
  split; [reflexivity|].
  eexists _, _. split; [vm_compute; reflexivity|].
  split; [reflexivity|]. vm_compute. discriminate.
Qed.

(** ** The milestone gate *)

Section Milestones.
Context `{Platform}.

Lemma isComplete_allFour (w : World) :
  (isComplete w).1 = allFour (milestonesGetAll w).1.
Proof.
  unfold isComplete, bind, lift, try.
  by destruct (milestonesGetAll w) as [m w1].
Qed.

Lemma allFour_value (x : JVal) :
  x <> JNull ->
  allFour (Some x)
  = Ok (truthy (prop x "seated") && truthy (prop x "noExtrusion")
        && truthy (prop x "interestInFood") && truthy (prop x "handToMouth")).
Proof. by destruct x. Qed.

(** A milestone that the persisted record does not mention reads as the
    default [false]. *)
Lemma milestones_default_false (w : World) (r pm : JMap) (k : string) :
  hasState w = true -> persisted w = JObj r ->
  r !! "version" = Some (JNum 1) ->
  r !! "milestones" = Some (JObj pm) ->
  k ∈ milestoneFields -> pm !! k = None ->
  exists m, (milestonesGetAll w).1 = Some (JObj m) /\ m !! k = Some (JBool false).
Proof.
  intros Hs Hp Hv Hm Hk Hnone. unfold milestonesGetAll.
  rewrite (ensureState_present _ Hs), Hp. cbn [fst].
  rewrite prop_normalizeAt_obj by done. rewrite !decide_False by done.
  rewrite Hm.
  change (defaultsAt (tick w) !! "milestones")
    with (Some (JObj (<["seated" := JBool false]>
                     (<["noExtrusion" := JBool false]>
                     (<["interestInFood" := JBool false]>
                     (<["handToMouth" := JBool false]> ∅)))))).
  unfold mergeAt. cbn [isPlainObject andb]. rewrite mergeDeep_mergeMap.
  eexists. split; [reflexivity|].
  rewrite lookup_mergeMap, Hnone. cbn [mergeAt].
  unfold milestoneFields in Hk. rewrite !elem_of_cons, elem_of_nil in Hk.
  destruct Hk as [->|[->|[->|[->|[]]]]]; reflexivity.
Qed.

(** C2.  On the milestone record [x] of the current state, [isComplete]
    is the conjunction of the truthiness of the four fields.  It returns
    true when the four fields are [true]; it returns false as soon as one
    field is [false] or missing; so on a checklist whose fields are
    booleans (or missing) it returns true exactly when all four are
    [true]. *)
Theorem isComplete_iff (w : World) (x : JVal) :
  (milestonesGetAll w).1 = Some x ->
  x <> JNull ->
  (isComplete w).1 = Ok (forallb (fun k => truthy (prop x k)) milestoneFields)
  /\ (Forall (fun k => prop x k = Some (JBool true)) milestoneFields ->
      (isComplete w).1 = Ok true)
  /\ (Exists (fun k => prop x k = None \/ prop x k = Some (JBool false))
        milestoneFields ->
      (isComplete w).1 = Ok false)
  /\ (Forall (fun k => prop x k = None \/ exists b, prop x k = Some (JBool b))
        milestoneFields ->
      ((isComplete w).1 = Ok true
       <-> Forall (fun k => prop x k = Some (JBool true)) milestoneFields)).
Proof.
  intros Hm Hnull. rewrite isComplete_allFour, Hm, allFour_value by done.
  unfold milestoneFields. split.
  { cbn [forallb]. by rewrite andb_true_r, !andb_assoc. }
  assert (forall k, prop x k = None \/ prop x k = Some (JBool false) ->
                    truthy (prop x k) = false) as Hfalse.
  { intros k [->| ->]; reflexivity. }
  assert (Exists (fun k => prop x k = None \/ prop x k = Some (JBool false))
            ["seated"; "noExtrusion"; "interestInFood"; "handToMouth"] ->
          truthy (prop x "seated") && truthy (prop x "noExtrusion")
          && truthy (prop x "interestInFood") && truthy (prop x "handToMouth")
          = false) as Hex.
  { rewrite !Exists_cons, Exists_nil.
    intros [Hk|[Hk|[Hk|[Hk|[]]]]]; rewrite (Hfalse _ Hk);
      by rewrite ?andb_false_r. }
  assert (Forall (fun k => prop x k = Some (JBool true))
            ["seated"; "noExtrusion"; "interestInFood"; "handToMouth"] ->
          truthy (prop x "seated") && truthy (prop x "noExtrusion")
          && truthy (prop x "interestInFood") && truthy (prop x "handToMouth")
          = true) as Hall.
  { rewrite !Forall_cons. by intros (-> & -> & -> & -> & _). }
  split; [by intros ->%Hall|]. split; [by intros ->%Hex|].
  intros Hty. split; [|by intros ->%Hall].
  intros [= Hok]. rewrite !andb_true_iff in Hok.
  destruct Hok as [[[T1 T2] T3] T4].
  assert (forall k, (prop x k = None \/ exists b, prop x k = Some (JBool b)) ->
                    truthy (prop x k) = true -> prop x k = Some (JBool true))
    as Htrue.
  { intros k [Hk|[b Hk]]; rewrite Hk; [done|]. cbn [truthy]. by intros ->. }
  rewrite !Forall_cons in Hty |- *.
  destruct Hty as (H1 & H2 & H3 & H4 & _).
  repeat split; auto.
Qed.

End Milestones.

(** With the four boxes ticked the gate is open. *)
Lemma isComplete_iff_witness :
  (milestonesGetAll (H := browser) readyWorld).1 = Some (JObj allMilestones)
  /\ JObj allMilestones <> JNull
  /\ (isComplete (H := browser) readyWorld).1 = Ok true.
Proof.
  assert ((milestonesGetAll (H := browser) readyWorld).1
          = Some (JObj allMilestones)) as Hm by (vm_compute; reflexivity).
  split; [exact Hm|]. split; [discriminate|].
  destruct (isComplete_iff (H := browser) readyWorld (JObj allMilestones) Hm)
    as (_ & Hall & _); [discriminate|].
  apply Hall. unfold milestoneFields.
  repeat (constructor; [reflexivity|]). constructor.
Defined.

(** ** Writing a partial state *)

Section Write.
Context `{Platform}.

Lemma ensureState_obj (w : World) :
  exists c, (ensureState w).1 = JObj c /\ c !! "version" = Some (JNum 1).
Proof.
  destruct (ensureState_normalized w) as (n & raw & ->).
  apply normalizeAt_version.
Qed.

(** The fields of the state [setState] returns. *)
Lemma setState_prop (pm : JMap) (w : World) (k : string) :
  pm !! "version" = None -> k <> "updatedAt" -> k <> "version" ->
  prop (setState (JObj pm) w).1 k
  = mergeAt (defaultsAt (tick (ensureState w).2) !! k)
      (mergeAt (prop (ensureState w).1 k) (pm !! k)).
Proof.
  intros Hpv Hu Hv. unfold setState.
  destruct (ensureState_obj w) as (c & Hc & Hcv).
  destruct (ensureState w) as [cur w1]. cbn [fst snd] in *. subst cur.
  rewrite writeStateToStorage_at. cbn [fst].
  change (plainOrEmpty (JObj pm)) with (JObj pm).
  rewrite mergeDeep_mergeMap, prop_normalizeAt_obj.
  - rewrite !decide_False by done. by rewrite lookup_mergeMap.
  - by rewrite lookup_mergeMap, Hpv, Hcv.
Qed.

(** A later read of the store shows the same sections. *)
Lemma ensureState_again (w : World) (k : string) :
  k <> "updatedAt" -> k <> "createdAt" ->
  prop (ensureState (ensureState w).2).1 k = prop (ensureState w).1 k.
Proof.
  intros Hu Hc. destruct (ensureState_stable w) as [Hs Hst].
  rewrite (ensureState_present _ Hs). cbn [fst].
  destruct (Hst (tick (ensureState w).2)) as [He _]. by apply He.
Qed.

Lemma mergeMap_statuses (am : JMap) (X : JMap) :
  mergeMap am {["statuses" := JObj X]} !! "statuses"
  = Some (JObj (mergeMap (match am !! "statuses" with
                          | Some (JObj sm) => sm
                          | _ => ∅
                          end) X)).
Proof.
  rewrite lookup_mergeMap, lookup_singleton_eq. unfold mergeAt.
  destruct (am !! "statuses") as [[| | | | |sm]|]; cbn [isPlainObject andb];
    rewrite ?mergeMap_empty_l; reflexivity.
Qed.

Lemma setState_registry (X : JMap) (w : World) :
  registry (setState (statusesPartial X) w).1
  = mergeMap (registry (ensureState w).1) X.
Proof.
  unfold registry at 1, statusesPartial.
  rewrite setState_prop by done. rewrite lookup_singleton_eq.
  change (defaultsAt _ !! "allergens")
    with (Some (JObj (<["statuses" := JObj ∅]> ∅))).
  unfold registry.
  destruct (prop (ensureState w).1 "allergens") as [al|]; unfold mergeAt.
  - destruct al as [|b|z|s|l|am]; cbn [isPlainObject andb prop];
      rewrite ?mergeDeep_mergeMap; cbn [prop];
      rewrite ?lookup_mergeMap, ?mergeMap_statuses, ?lookup_insert_eq,
        ?lookup_singleton_eq, ?lookup_empty;
      unfold mergeAt; cbn [isPlainObject andb];
      rewrite ?mergeDeep_mergeMap, ?mergeMap_empty_l; try reflexivity.
    cbn [prop]. rewrite lookup_mergeMap, mergeMap_statuses, lookup_insert_eq.
    unfold mergeAt. cbn [isPlainObject andb].
    by rewrite mergeDeep_mergeMap, mergeMap_empty_l.
  - cbn [isPlainObject andb prop]. rewrite mergeDeep_mergeMap. cbn [prop].
    rewrite lookup_mergeMap, lookup_insert_eq, lookup_singleton_eq.
    unfold mergeAt. cbn [isPlainObject andb].
    by rewrite mergeDeep_mergeMap, !mergeMap_empty_l.
Qed.

End Write.

(** ** The allergen registry *)

Section Allergens.
Context `{Platform}.

Lemma mergeMap_insert_leaf (R : JMap) (a : string) (v : JVal) :
  isPlainObject (Some v) = false -> mergeMap R {[a := v]} = <[a := v]> R.
Proof.
  intros Hv. apply map_eq. intros k. rewrite lookup_mergeMap.
  destruct (decide (a = k)) as [->|Hne].
  - rewrite lookup_singleton_eq, lookup_insert_eq. unfold mergeAt.
    destruct (R !! k); [|done]. by rewrite Hv.
  - by rewrite lookup_singleton_ne, lookup_insert_ne.
Qed.

Lemma mergeMap_insert_self (R : JMap) (a : string) (v : JVal) :
  isPlainObject (Some v) = false -> mergeMap R (<[a := v]> R) = <[a := v]> R.
Proof.
  intros Hv. apply map_eq. intros k. rewrite lookup_mergeMap.
  destruct (decide (a = k)) as [->|Hne].
  - rewrite lookup_insert_eq. unfold mergeAt.
    destruct (R !! k); [|done]. by rewrite Hv.
  - rewrite lookup_insert_ne by done. unfold mergeAt.
    destruct (R !! k) as [x|]; [|done]. f_equal. rewrite andb_diag.
    destruct (isPlainObject (Some x)); [apply mergeDeep_idem|done].
Qed.

Lemma currentStatuses_registry (current : JVal) :
  prop current "allergens" <> Some JNull ->
  is_Some (prop current "allergens") ->
  currentStatuses current = Ok (registry current).
Proof.
  intros Hnull [al Hal]. unfold currentStatuses, registry. rewrite Hal in *.
  destruct al as [|b|z|s|l|am]; try done.
  cbn [getProp prop]. by destruct (am !! "statuses") as [[| | | | |m]|].
Qed.

Lemma ensureState_allergens (w : World) :
  is_Some (prop (ensureState w).1 "allergens").
Proof.
  destruct (ensureState_normalized w) as (n & raw & ->).
  destruct (accepted raw) eqn:Hacc.
  - destruct (accepted_inv _ Hacc) as (r & -> & Hv).
    rewrite prop_normalizeAt_obj by done. rewrite !decide_False by done.
    change (defaultsAt n !! "allergens")
      with (Some (JObj (<["statuses" := JObj ∅]> ∅))).
    unfold mergeAt. by destruct (r !! "allergens").
  - by rewrite normalizeAt_rejected.
Qed.

Lemma setStatus_registry (w : World) (allergenId status : string) :
  allergenId <> "" ->
  prop (ensureState w).1 "allergens" <> Some JNull ->
  exists st w', setStatus allergenId status w = (Ok st, w')
                /\ registry st
                   = <[allergenId := JStr status]> (registry (ensureState w).1).
Proof.
  intros Hid Hnull. unfold setStatus.
  assert (truthy (Some (JStr allergenId)) = true) as ->.
  { cbn [truthy]. by destruct (String.eqb_spec allergenId ""). }
  cbn [negb]. unfold bind, lift, try.
  pose proof (setState_registry
                (<[allergenId := JStr status]> (registry (ensureState w).1))
                (ensureState w).2) as Hreg.
  assert (registry (ensureState (ensureState w).2).1 = registry (ensureState w).1)
    as Hsame.
  { unfold registry. by rewrite ensureState_again. }
  rewrite Hsame, mergeMap_insert_self in Hreg by done.
  pose proof (currentStatuses_registry (ensureState w).1 Hnull
                (ensureState_allergens w)) as Hcur.
  destruct (ensureState w) as [current w1]. cbn [fst snd] in *.
  rewrite Hcur. unfold statusesPartial in Hreg.
  destruct (setState _ w1) as [st w2]. by exists st, w2.
Qed.

(** C9.  [mergeDeep] merges two objects key by key: under a key of the
    source it leaves the merge of the two values when both are plain
    objects, else the source's value (arrays and leaves replace), and
    under any other key what the target had.  So writing the partial
    [{ allergens: { statuses: { id: status } } }] with [setState] leaves
    the new status under that allergen and, under every other allergen of
    the registry, the status it had.  [setStatus] does the same for a
    non-empty id on a state whose [allergens] is not [null]; with an
    empty id it returns the current state, and on [allergens: null] it
    throws before any status is written. *)
Theorem setStatus_keeps_other_allergens (w : World) (allergenId status : string) :
  (registry (setState (statusesPartial {[allergenId := JStr status]}) w).1
     !! allergenId = Some (JStr status)
   /\ forall other, other <> allergenId ->
        registry (setState (statusesPartial {[allergenId := JStr status]}) w).1
          !! other
        = registry (getState w).1 !! other)
  /\ (allergenId <> "" ->
      prop (getState w).1 "allergens" <> Some JNull ->
      exists st w',
        setStatus allergenId status w = (Ok st, w')
        /\ registry st !! allergenId = Some (JStr status)
        /\ forall other, other <> allergenId ->
             registry st !! other = registry (getState w).1 !! other)
  /\ (allergenId = "" ->
      setStatus allergenId status w = (Ok (getState w).1, (getState w).2))
  /\ (allergenId <> "" ->
      prop (getState w).1 "allergens" = Some JNull ->
      setStatus allergenId status w = (Throw TypeError, (getState w).2))
  /\ (forall t s k,
        prop (mergeDeep (JObj t) (JObj s)) k
        = match s !! k, t !! k with
          | Some (JObj sv), Some (JObj tv) => Some (mergeDeep (JObj tv) (JObj sv))
          | Some v, _ => Some v
          | None, old => old
          end).
Proof.
  unfold getState. split; [|split; [|split; [|split]]]; cycle 4.
  { intros t s k. rewrite mergeDeep_prop by done. cbn [prop]. unfold mergeAt.
    destruct (s !! k) as [[| | | | |sv]|], (t !! k) as [[| | | | |tv]|]; done. }
  - rewrite setState_registry, mergeMap_insert_leaf by done. split.
    + apply lookup_insert_eq.
    + intros other Hne. by rewrite lookup_insert_ne.
  - intros Hid Hnull.
    destruct (setStatus_registry w allergenId status Hid Hnull)
      as (st & w' & Hset & Hreg).
    exists st, w'. split; [done|]. rewrite Hreg. split.
    + apply lookup_insert_eq.
    + intros other Hne. by rewrite lookup_insert_ne.
  - intros ->. unfold setStatus, lift. cbn [truthy String.eqb negb].
    by destruct (ensureState w).
  - intros Hid Hnull. unfold setStatus.
    assert (truthy (Some (JStr allergenId)) = true) as ->.
    { cbn [truthy]. by destruct (String.eqb_spec allergenId ""). }
    cbn [negb]. unfold bind, lift, try.
    destruct (ensureState w) as [current w1]. cbn [fst snd] in *.
    unfold currentStatuses. by rewrite Hnull.
Qed.

End Allergens.

(** The registry keeps the status of egg when the status of milk is set. *)
Lemma setStatus_keeps_other_allergens_witness :
  "leche" <> ""
  /\ prop (getState (H := browser)
             (setStatus (H := browser) "huevo" "ok" readyWorld).2).1 "allergens"
     <> Some JNull
  /\ exists st w',
       setStatus (H := browser) "leche" "mild"
         (setStatus (H := browser) "huevo" "ok" readyWorld).2 = (Ok st, w')
       /\ registry st !! "leche" = Some (JStr "mild")
       /\ registry st !! "huevo" = Some (JStr "ok").
Proof.
  assert ("leche" <> "") as Hid by discriminate.
  assert (prop (getState (H := browser)
                  (setStatus (H := browser) "huevo" "ok" readyWorld).2).1
            "allergens" <> Some JNull) as Hnull
    by (vm_compute; discriminate).
  split; [exact Hid|]. split; [exact Hnull|].
  destruct (setStatus_keeps_other_allergens (H := browser)
              (setStatus (H := browser) "huevo" "ok" readyWorld).2 "leche" "mild")
    as (_ & Hmain & _ & _ & _).
  destruct (Hmain Hid Hnull) as (st & w' & Hset & Hnew & Hold).
  exists st, w'. split; [exact Hset|]. split; [exact Hnew|].
  rewrite (Hold "huevo") by discriminate. vm_compute. reflexivity.
Defined.

(** ** Export and import *)

Section RoundTrip.
Context `{Platform}.

Lemma eqButUpdated_delete (a b : JMap) :
  eqButUpdated (JObj a) (JObj b) <-> delete "updatedAt" a = delete "updatedAt" b.
Proof.
  split.
  - intros Heq. apply map_eq. intros k. rewrite !lookup_delete.
    case_decide; [done|]. by apply (Heq k).
  - intros Heq k Hk. unfold prop.
    rewrite <- (lookup_delete_ne a "updatedAt" k) by done.
    rewrite <- (lookup_delete_ne b "updatedAt" k) by done.
    by rewrite Heq.
Qed.

Lemma eqButStamps_delete (a b : JMap) :
  eqButStamps (JObj a) (JObj b)
  <-> delete "createdAt" (delete "updatedAt" a)
      = delete "createdAt" (delete "updatedAt" b).
Proof.
  split.
  - intros Heq. apply map_eq. intros k. rewrite !lookup_delete.
    repeat case_decide; try done. by apply (Heq k).
  - intros Heq k Hu Hc. unfold prop.
    rewrite <- (lookup_delete_ne a "updatedAt" k) by done.
    rewrite <- (lookup_delete_ne b "updatedAt" k) by done.
    rewrite <- (lookup_delete_ne (delete _ a) "createdAt" k) by done.
    rewrite <- (lookup_delete_ne (delete _ b) "createdAt" k) by done.
    by rewrite Heq.
Qed.

Lemma validate_eqButStamps (a b : JMap) :
  eqButStamps (JObj a) (JObj b) ->
  ok (validateBackupState (JObj a)) = ok (validateBackupState (JObj b)).
Proof.
  intros Heq.
  assert (forall x y : JMap, eqButStamps (JObj x) (JObj y) ->
            ok (validateBackupState (JObj x)) = true ->
            ok (validateBackupState (JObj y)) = true) as Hone.
  { intros x y Hxy. rewrite !validate_ok_iff. intros (_ & Hv & Hs).
    split; [done|]. split; [by rewrite <- Hxy|].
    rewrite Forall_forall in Hs |- *. intros k Hk.
    pose proof (Hs k Hk) as Hsk.
    unfold backupSections in Hk. rewrite !elem_of_cons, elem_of_nil in Hk.
    rewrite <- Hxy; [exact Hsk|..]; intros ->;
      destruct Hk as [Hk|[Hk|[Hk|[Hk|[]]]]]; discriminate Hk. }
  destruct (ok (validateBackupState (JObj a))) eqn:Ha.
  - symmetry. by apply (Hone a b).
  - destruct (ok (validateBackupState (JObj b))) eqn:Hb; [|done].
    rewrite <- Ha. apply (Hone b a); [|done].
    by apply eqButStamps_sym.
Qed.

(** The state a valid document leaves in the store is the document with a
    new [updatedAt]. *)
Lemma importState_at (doc : JVal) (w : World) :
  ok (validateBackupState doc) = true ->
  exists w',
    importState doc w
    = (Ok (normalizeAt (normalizeCost doc + tick w) (normalizeAt (tick w) doc)), w').
Proof.
  intros Hok. unfold importState. rewrite Hok. cbn [negb].
  unfold bind, lift. rewrite writeStateToStorage_at.
  set (w1 := setItem _ _ _).
  assert (hasState w1 = true) as Hs.
  { unfold hasState, w1, getItem, setItem. cbn [storage].
    rewrite lookup_insert_eq. reflexivity. }
  rewrite (ensureState_present _ Hs).
  assert (persisted w1 = normalizeAt (tick w) doc) as ->.
  { unfold persisted, w1, getItem, setItem. cbn [storage].
    rewrite lookup_insert_eq. reflexivity. }
  eexists. reflexivity.
Qed.

(** C7, as the code has it.  When the sections of the current state [S]
    pass the validation of backups, importing the exported document
    succeeds and returns a state with the fields of [S], the timestamps
    apart; [createdAt] is that of [S] as well when the store is empty or
    holds a state written by the store.  [updatedAt] is stamped anew by
    every read and write. *)
Theorem import_export_roundtrip (w : World) :
  ok (validateBackupState (getState w).1) = true ->
  exists mS mR w',
    (getState w).1 = JObj mS
    /\ importState (exportState (getState w).2).1 (exportState (getState w).2).2
       = (Ok (JObj mR), w')
    /\ delete "createdAt" (delete "updatedAt" mR)
       = delete "createdAt" (delete "updatedAt" mS)
    /\ (settled w -> delete "updatedAt" mR = delete "updatedAt" mS).
Proof.
  unfold getState, exportState. intros Hok.
  destruct (ensureState_obj w) as (mS & HS & _).
  destruct (ensureState_stable w) as [Hs Hst].
  set (w1 := (ensureState w).2) in *.
  destruct (Hst (tick w1)) as [Hdoc HdocC].
  rewrite (ensureState_present _ Hs). cbn [fst snd].
  set (doc := normalizeAt (tick w1) (persisted w1)) in *.
  destruct (normalizeAt_version (tick w1) (persisted w1)) as (md & Hmd & _).
  fold doc in Hmd.
  assert (ok (validateBackupState doc) = true) as Hokd.
  { rewrite Hmd, <- Hok, HS. apply validate_eqButStamps.
    by rewrite <- Hmd, <- HS. }
  destruct (importState_at doc (later (normalizeCost (persisted w1)) w1) Hokd)
    as (w' & Himp).
  set (R := normalizeAt _ (normalizeAt _ doc)) in Himp.
  destruct (normalizeAt_version
              (normalizeCost doc + tick (later (normalizeCost (persisted w1)) w1))
              (normalizeAt (tick (later (normalizeCost (persisted w1)) w1)) doc))
    as (mR & HmR & _).
  fold R in HmR.
  assert (eqButUpdated R doc) as HRdoc.
  { eapply eqButUpdated_trans; [apply normalizeAt_idem|].
    apply normalizeAt_idem. }
  exists mS, mR, w'. split; [done|]. split; [by rewrite Himp, HmR|].
  rewrite <- eqButStamps_delete, <- HmR, <- HS. split.
  - eapply eqButStamps_trans; [apply eqButUpdated_weaken, HRdoc|done].
  - intros Hset. rewrite <- eqButUpdated_delete, <- HmR, <- HS.
    eapply eqButUpdated_trans; [exact HRdoc|by apply HdocC].
Qed.

End RoundTrip.

(** The round trip on the store of [readyWorld]: everything comes back
    but [updatedAt]. *)
Lemma import_export_roundtrip_witness :
  ok (validateBackupState (getState (H := browser) readyWorld).1) = true
  /\ exists mS mR w',
       (getState (H := browser) readyWorld).1 = JObj mS
       /\ importState (H := browser)
            (exportState (H := browser) (getState (H := browser) readyWorld).2).1
            (exportState (H := browser) (getState (H := browser) readyWorld).2).2
          = (Ok (JObj mR), w')
       /\ delete "updatedAt" mR = delete "updatedAt" mS.
Proof.
  assert (ok (validateBackupState (getState (H := browser) readyWorld).1) = true)
    as Hok by (vm_compute; reflexivity).
  split; [exact Hok|].
  destruct (import_export_roundtrip (H := browser) readyWorld Hok)
    as (mS & mR & w' & HS & Himp & _ & Hset).
  exists mS, mR, w'. split; [exact HS|]. split; [exact Himp|].
  apply Hset. intros _. split; [vm_compute; reflexivity|].
  vm_compute. eexists. reflexivity.
Defined.

(** C7 as stated fails: on a new store the state that comes back from
    the round trip carries another [updatedAt] than the state before the
    export, so the two are not equal. *)
Lemma roundtrip_restamps_updatedAt :
  exists R w',
    importState (H := browser)
      (exportState (H := browser) (getState (H := browser) emptyWorld).2).1
      (exportState (H := browser) (getState (H := browser) emptyWorld).2).2
    = (Ok R, w')
    /\ prop (getState (H := browser) emptyWorld).1 "updatedAt"
       = Some (JStr "2024-08-10T12:00:00.1Z")
    /\ prop R "updatedAt" = Some (JStr "2024-08-10T12:00:00.13Z")
    /\ R <> (getState (H := browser) emptyWorld).1.
Proof.
  eexists _, _. split; [vm_compute; reflexivity|].
  split; [vm_compute; reflexivity|].
  split; [vm_compute; reflexivity|].
  intros Heq.
  apply (f_equal (fun v => prop v "updatedAt")) in Heq.
  vm_compute in Heq. discriminate Heq.
Qed.

(** ** The diary *)

Section Diary.
Context `{Platform}.






Lemma setState_entries (next : list JVal) (w : World) :
  entriesOf (setState (diaryPartial next) w).1 = next.
Proof.
  unfold entriesOf, diaryPartial.
  rewrite setState_prop by done. rewrite lookup_singleton_eq.
  change (defaultsAt _ !! "diary")
    with (Some (JObj (<["entries" := JArr []]> ∅))).
  assert (forall dm : JMap,
            prop (mergeDeep (JObj (<["entries" := JArr []]> ∅))
                    (JObj (mergeMap dm {["entries" := JArr next]}))) "entries"
            = Some (JArr next)) as Hin.
  { intros dm. rewrite mergeDeep_mergeMap. cbn [prop].
    rewrite !lookup_mergeMap, lookup_insert_eq, lookup_singleton_eq.
    unfold mergeAt. by destruct (dm !! "entries"). }
  assert (prop (mergeDeep (JObj (<["entries" := JArr []]> ∅))
                  (JObj {["entries" := JArr next]})) "entries"
          = Some (JArr next)) as Hout.
  { rewrite <- (mergeMap_empty_l {["entries" := JArr next]}). apply Hin. }
  destruct (prop (ensureState w).1 "diary") as [d|]; unfold mergeAt.
  - destruct d as [|b|z|s|l|dm];
      rewrite ?(mergeDeep_mergeMap dm); cbn [isPlainObject andb];
      by rewrite ?Hout, ?Hin.
  - cbn [isPlainObject andb]. by rewrite Hout.
Qed.

Lemma ensureState_diary (w : World) : is_Some (prop (ensureState w).1 "diary").
Proof.
  destruct (ensureState_normalized w) as (n & raw & ->).
  destruct (accepted raw) eqn:Hacc.
  - destruct (accepted_inv _ Hacc) as (r & -> & Hv).
    rewrite prop_normalizeAt_obj by done. rewrite !decide_False by done.
    change (defaultsAt n !! "diary")
      with (Some (JObj (<["entries" := JArr []]> ∅))).
    unfold mergeAt. by destruct (r !! "diary").
  - by rewrite normalizeAt_rejected.
Qed.

Lemma currentEntries_entriesOf (current : JVal) :
  prop current "diary" <> Some JNull -> is_Some (prop current "diary") ->
  currentEntries current = Ok (entriesOf current).
Proof.
  intros Hnull [d Hd]. unfold currentEntries, entriesOf. rewrite Hd in *.
  by destruct d.
Qed.




End Diary.


(** The path of an edit in the day modal: the entry found by
    [renderDayModal] gives the hidden id and the [createdAt] of the entry
    that the save writes at its place. *)
Example edit_keeps_createdAt :
  (findEditing (H := browser) "2024-08-10" "e1" diaryWorld).1
  = Ok (Some (JObj bananaEntry))
  /\ hiddenEntryId (H := browser) (Some (JObj bananaEntry)) = "e1"
  /\ exists entry w',
       daySave (H := browser) [aguacate; food "platano" (JNum 6)] "2024-08-10"
         (Some (JObj bananaEntry))
         {| dayFood := "platano"; dayQuantity := "ate_well"; dayForm := "sticks";
            dayReaction := "liked"; dayNotes := " le encanta ";
            dayEntryId := hiddenEntryId (H := browser) (Some (JObj bananaEntry)) |}
         (findEditing (H := browser) "2024-08-10" "e1" diaryWorld).2
       = (Ok (Guardado entry), w')
       /\ entriesOf (getState (H := browser) w').1 = [entry]
       /\ prop entry "id" = Some (JStr "e1")
       /\ prop entry "notes" = Some (JStr "le encanta")
       /\ prop entry "createdAt" = bananaEntry !! "createdAt".
Proof.
  split; [vm_compute; reflexivity|]. split; [reflexivity|].
  eexists _, _. split; [vm_compute; reflexivity|].
  split; [vm_compute; reflexivity|]. repeat split; reflexivity.
Qed.


(** ** The safe age *)

Section SafeAge.
Context `{Platform}.

Lemma monthsBetweenUtc_wholeMonths (start today : UtcDate) :
  monthsBetweenUtc start today = wholeMonths start today.
Proof.
  unfold monthsBetweenUtc, wholeMonths. cbv zeta.
  destruct (utcDate today <? utcDate start); f_equal; lia.
Qed.

Lemma getSafeAgeMonths_not_container (profile : JOpt) (w : World) :
  isContainer profile = false -> getSafeAgeMonths profile w = (None, w).
Proof.
  unfold getSafeAgeMonths. destruct profile as [[|b|z|s|l|m]|]; try done; cbn.
  - by destruct b.
  - by rewrite orb_true_r.
  - by rewrite orb_true_r.
Qed.

Lemma getSafeAgeMonths_no_birth (p : JVal) (w : World) :
  parseDateInput (prop p "birthDate") = None ->
  getSafeAgeMonths (Some p) w = (None, w).
Proof.
  intros Hb. destruct (isContainer (Some p)) eqn:Hc;
    [|by apply getSafeAgeMonths_not_container].
  unfold getSafeAgeMonths. rewrite Hb.
  by destruct p.
Qed.

Lemma getSafeAgeMonths_birth (p : JVal) (birth : UtcDate) (w : World) :
  isContainer (Some p) = true ->
  parseDateInput (prop p "birthDate") = Some birth ->
  getSafeAgeMonths (Some p) w
  = (Some (monthsBetweenUtc
             (match parseDateInput (prop p "dueDate") with
              | Some d => if isPreterm (toNumber (prop p "gestationWeeks"))
                          then d else birth
              | None => birth
              end) (clockUtc (tick w))), later 1 w).
Proof.
  intros Hc Hb. unfold getSafeAgeMonths. rewrite Hb.
  by destruct p.
Qed.

(** C4.  A profile that is [null] or whose birth date is absent or does
    not parse has an unknown safe age.  With a birth date that parses and
    no correction (not preterm, or no due date that parses), the safe age
    is the difference in calendar months between the birth date and the
    UTC date of today, less one when today's day of the month is before
    the birth day, and zero when that is negative. *)
Theorem getSafeAgeMonths_chronological (p : JVal) (w : World) :
  (getSafeAgeMonths None w).1 = None
  /\ (parseDateInput (prop p "birthDate") = None ->
      (getSafeAgeMonths (Some p) w).1 = None)
  /\ (forall birth,
        isContainer (Some p) = true ->
        parseDateInput (prop p "birthDate") = Some birth ->
        isPreterm (toNumber (prop p "gestationWeeks")) = false
        \/ parseDateInput (prop p "dueDate") = None ->
        (getSafeAgeMonths (Some p) w).1
        = Some (Z.max 0
                  ((utcFullYear (clockUtc (tick w)) - utcFullYear birth) * 12
                   + (utcMonth (clockUtc (tick w)) - utcMonth birth)
                   - (if utcDate (clockUtc (tick w)) <? utcDate birth
                      then 1 else 0)))).
Proof.
  split; [reflexivity|]. split.
  - intros Hb. by rewrite getSafeAgeMonths_no_birth.
  - intros birth Hc Hb Hcorr.
    rewrite (getSafeAgeMonths_birth p birth) by done. cbn [fst].
    assert (match parseDateInput (prop p "dueDate") with
            | Some d => if isPreterm (toNumber (prop p "gestationWeeks"))
                        then d else birth
            | None => birth
            end = birth) as ->.
    { destruct Hcorr as [-> | ->]; [|done].
      by destruct (parseDateInput (prop p "dueDate")). }
    by rewrite monthsBetweenUtc_wholeMonths.
Qed.

(** C3, as the code has it.  For a profile with a birth date that
    parses, gestation weeks strictly between 0 and 37 and a due date that
    parses, the safe age is the whole-month difference from the due date
    to today, whatever the birth date is; it is never negative, and it is
    zero when the due date is a later day than today. *)
Theorem getSafeAgeMonths_corrected (p : JVal) (w : World)
    (birth due : UtcDate) (gw : Z) :
  isContainer (Some p) = true ->
  parseDateInput (prop p "birthDate") = Some birth ->
  toNumber (prop p "gestationWeeks") = Some gw ->
  0 < gw < 37 ->
  parseDateInput (prop p "dueDate") = Some due ->
  (getSafeAgeMonths (Some p) w).1 = Some (wholeMonths due (clockUtc (tick w)))
  /\ 0 <= wholeMonths due (clockUtc (tick w))
  /\ (monthInRange due -> monthInRange (clockUtc (tick w)) ->
      laterDay due (clockUtc (tick w)) ->
      (getSafeAgeMonths (Some p) w).1 = Some 0).
Proof.
  intros Hc Hb Hgw Hrange Hd.
  assert ((getSafeAgeMonths (Some p) w).1
          = Some (wholeMonths due (clockUtc (tick w)))) as Hage.
  { rewrite (getSafeAgeMonths_birth p birth) by done. cbn [fst].
    rewrite Hd, Hgw. unfold isPreterm.
    assert ((0 <? gw) && (gw <? 37) = true) as ->.
    { apply andb_true_iff. split; apply Z.ltb_lt; lia. }
    by rewrite monthsBetweenUtc_wholeMonths. }
  split; [exact Hage|]. split; [unfold wholeMonths; lia|].
  intros Hmd Hmt Hlater. rewrite Hage. f_equal.
  unfold wholeMonths, monthInRange, laterDay in *.
  destruct (Z.ltb_spec (utcDate (clockUtc (tick w))) (utcDate due)); lia.
Qed.

End SafeAge.

(** The first scenario of the design document: born on 10 January 2024,
    seen on 10 August 2024, the safe age is 7 months. *)
Lemma getSafeAgeMonths_chronological_witness :
  isContainer (Some (JObj termProfile)) = true
  /\ parseDateInput (H := browser) (prop (JObj termProfile) "birthDate")
     = Some {| utcFullYear := 2024; utcMonth := 0; utcDate := 10 |}
  /\ (getSafeAgeMonths (H := browser) (Some (JObj termProfile)) emptyWorld).1
     = Some 7.
Proof.
  split; [reflexivity|]. split; [reflexivity|].
  destruct (getSafeAgeMonths_chronological (H := browser) (JObj termProfile)
              emptyWorld) as (_ & _ & Hage).
  rewrite (Hage {| utcFullYear := 2024; utcMonth := 0; utcDate := 10 |});
    [reflexivity|reflexivity|reflexivity|by left].
Defined.

(** A preterm profile with its birth date: the age runs from the due
    date, 1 March 2024, which gives 5 months on 10 August 2024. *)
Lemma getSafeAgeMonths_corrected_witness :
  isContainer (Some (JObj pretermProfile)) = true
  /\ parseDateInput (H := browser) (prop (JObj pretermProfile) "birthDate")
     = Some {| utcFullYear := 2024; utcMonth := 0; utcDate := 3 |}
  /\ toNumber (H := browser) (prop (JObj pretermProfile) "gestationWeeks") = Some 32
  /\ 0 < 32 < 37
  /\ parseDateInput (H := browser) (prop (JObj pretermProfile) "dueDate")
     = Some {| utcFullYear := 2024; utcMonth := 2; utcDate := 1 |}
  /\ (getSafeAgeMonths (H := browser) (Some (JObj pretermProfile)) emptyWorld).1
     = Some 5.
Proof.
  split; [reflexivity|]. split; [reflexivity|]. split; [reflexivity|].
  split; [lia|]. split; [reflexivity|].
  destruct (getSafeAgeMonths_corrected (H := browser) (JObj pretermProfile)
              emptyWorld
              {| utcFullYear := 2024; utcMonth := 0; utcDate := 3 |}
              {| utcFullYear := 2024; utcMonth := 2; utcDate := 1 |} 32)
    as (Hage & _); [reflexivity|reflexivity|reflexivity|lia|reflexivity|].
  exact Hage.
Defined.

(** C3 as stated fails: the preterm profile of the design document, with
    32 weeks and a due date but no birth date, has an unknown safe age,
    not the 5 months counted from the due date. *)
Lemma getSafeAgeMonths_needs_birth_date :
  toNumber (H := browser) (prop (JObj pretermNoBirth) "gestationWeeks") = Some 32
  /\ parseDateInput (H := browser) (prop (JObj pretermNoBirth) "dueDate")
     = Some {| utcFullYear := 2024; utcMonth := 2; utcDate := 1 |}
  /\ wholeMonths {| utcFullYear := 2024; utcMonth := 2; utcDate := 1 |}
       (clockUtc (Platform := browser) (tick emptyWorld)) = 5
  /\ (getSafeAgeMonths (H := browser) (Some (JObj pretermNoBirth)) emptyWorld).1
     = None.
Proof. repeat split; reflexivity. Qed.

(** ** The eligibility filter *)

Section Eligibility.
Context `{Platform}.

Lemma numLe_spec (a : option Z) (sm : Z) :
  numLe a sm = true <-> exists n, a = Some n /\ n <= sm.
Proof.
  unfold numLe. destruct a as [x|].
  - rewrite Z.leb_le. split; [by exists x|]. by intros (n & [= ->] & Hn).
  - split; [done|]. by intros (n & Hn & _).
Qed.

Lemma numGt_spec (a : option Z) (sm : Z) :
  numGt a sm = false <-> forall n, a = Some n -> n <= sm.
Proof.
  unfold numGt. destruct a as [x|].
  - rewrite Z.ltb_ge. split; [by intros Hx n [= <-]|]. intros Hx. by apply Hx.
  - split; [|done]. by intros _ n.
Qed.

Lemma getAllowedFoodsBySafeAge_filter (catalog : list JMap) (w : World) :
  getAllowedFoodsBySafeAge catalog w
  = (match (getProfileSafeAgeMonths w).1 with
     | Some sm =>
         List.filter (fun f => numLe (toNumber (f !! "edad_minima")) sm) catalog
     | None => []
     end, (getProfileSafeAgeMonths w).2).
Proof.
  unfold getAllowedFoodsBySafeAge.
  by destruct (getProfileSafeAgeMonths w) as [[sm|] w1].
Qed.

Lemma foodListAge_safe (sm : Z) (f : JMap) :
  foodListAge sm None f = true
  <-> forall n, toNumber (f !! "edad_minima") = Some n -> n <= sm.
Proof.
  unfold foodListAge. rewrite <- numGt_spec. by destruct (numGt _ sm).
Qed.

Lemma recipeListAge_safe (sm : Z) (r : JMap) :
  recipeListAge sm None r = true
  <-> forall n, toNumber (r !! "edad_minima") = Some n -> n <= sm.
Proof.
  unfold recipeListAge. destruct (toNumber (r !! "edad_minima")) as [x|].
  - destruct (Z.ltb_spec sm x); split; try done.
    + intros Hx. specialize (Hx x eq_refl). lia.
    + intros _ n [= <-]. lia.
  - split; [|done]. by intros _ n.
Qed.

(** C5, as the code has it.  With an unknown safe age
    [getAllowedFoodsBySafeAge] returns the empty list.  With a known safe
    age [sm] it returns, in the order of the catalog, exactly the records
    whose [edad_minima], converted by [Number], is a number at most [sm]:
    a minimum age that converts to [NaN] (a missing one, an object)
    excludes the record, and [null], which converts to 0, booleans and
    numeric strings are compared by their converted value.  The list
    filters of [renderFoodList] and [renderRecipeList], with no age
    bracket chosen, drop a record only when its converted minimum age is
    a number above [sm]. *)
Theorem getAllowedFoodsBySafeAge_exact (catalog : list JMap) (w : World) :
  ((getProfileSafeAgeMonths w).1 = None ->
     (getAllowedFoodsBySafeAge catalog w).1 = [])
  /\ (forall sm, (getProfileSafeAgeMonths w).1 = Some sm ->
        (getAllowedFoodsBySafeAge catalog w).1
        = List.filter (fun f => numLe (toNumber (f !! "edad_minima")) sm) catalog
        /\ forall f,
             In f (getAllowedFoodsBySafeAge catalog w).1
             <-> In f catalog
                 /\ exists n, toNumber (f !! "edad_minima") = Some n /\ n <= sm)
  /\ (forall sm f,
        (foodListAge sm None f = true
         <-> forall n, toNumber (f !! "edad_minima") = Some n -> n <= sm)
        /\ (recipeListAge sm None f = true
            <-> forall n, toNumber (f !! "edad_minima") = Some n -> n <= sm))
  /\ (toNumber None = None
      /\ toNumber (Some JNull) = Some 0
      /\ (forall z, toNumber (Some (JNum z)) = Some z)
      /\ (forall s, toNumber (Some (JStr s)) = stringToNumber s)
      /\ (forall m, toNumber (Some (JObj m)) = None)).
Proof.
  rewrite getAllowedFoodsBySafeAge_filter. cbn [fst].
  split; [by intros ->|]. split.
  { intros sm ->. split; [done|]. intros f.
    rewrite List.filter_In. by rewrite numLe_spec. }
  split.
  { intros sm f. split; [apply foodListAge_safe|apply recipeListAge_safe]. }
  repeat split; reflexivity.
Qed.

End Eligibility.

(** The first scenario of the design document: at a safe age of 7 months
    the food from 6 months is listed and the food from 8 months is not. *)
Lemma getAllowedFoodsBySafeAge_exact_witness :
  (getProfileSafeAgeMonths (H := browser) readyWorld).1 = Some 7
  /\ (getAllowedFoodsBySafeAge (H := browser) [aguacate; fresa] readyWorld).1
     = [aguacate].
Proof.
  assert ((getProfileSafeAgeMonths (H := browser) readyWorld).1 = Some 7)
    as Hage by (vm_compute; reflexivity).
  split; [exact Hage|].
  destruct (getAllowedFoodsBySafeAge_exact (H := browser) [aguacate; fresa]
              readyWorld) as (_ & Hknown & _ & _).
  destruct (Hknown 7 Hage) as [-> _]. reflexivity.
Defined.

(** C5 as stated fails: a record whose minimum age is [null], which is
    not a number, is returned, because [Number(null)] is 0. *)
Lemma getAllowedFoodsBySafeAge_keeps_null_age :
  sinEdad !! "edad_minima" = Some JNull
  /\ (getProfileSafeAgeMonths (H := browser) readyWorld).1 = Some 7
  /\ (getAllowedFoodsBySafeAge (H := browser) [sinEdad; fresa] readyWorld).1
     = [sinEdad].
Proof.
  split; [reflexivity|]. split; vm_compute; reflexivity.
Qed.

(** ** The save of a diary entry *)

Section Save.
Context `{Platform}.

Lemma ensureCalendarAllowedOrExplain_eq (w : World) :
  ensureCalendarAllowedOrExplain w
  = match isComplete w with
    | (Throw e, w1) => (Throw e, w1)
    | (Ok false, w1) =>
        (Ok (GateMilestones (missingMilestones (milestonesGetAll w1).1)),
         (milestonesGetAll w1).2)
    | (Ok true, w1) =>
        match getProfileSafeAgeMonths w1 with
        | (None, w2) => (Ok GateProfile, w2)
        | (Some sm, w2) => (Ok (GateOk sm), w2)
        end
    end.
Proof.
  unfold ensureCalendarAllowedOrExplain, bind at 1.
  destruct (isComplete w) as [[[|]|e] w1]; cbn [negb]; [| |done].
  - unfold bind, lift, ret.
    by destruct (getProfileSafeAgeMonths w1) as [[sm|] w2].
  - unfold bind, lift, ret. by destruct (milestonesGetAll w1) as [m w2].
Qed.

Lemma daySave_eq (catalog : list JMap) (dateStr : string) (editing : JOpt)
    (form : DayForm) (w : World) :
  daySave catalog dateStr editing form w
  = match ensureCalendarAllowedOrExplain w with
    | (Throw e, w') => (Throw e, w')
    | (Ok (GateMilestones missing), w') => (Ok (RegistroBloqueado missing), w')
    | (Ok GateProfile, w') => (Ok FaltaPerfil, w')
    | (Ok (GateOk sm), w') =>
        if String.eqb (trim (dayFood form)) "" then (Ok FaltaDato, w')
        else if outOfRange (findFood catalog (trim (dayFood form))) sm
        then (Ok FueraDeRango, w')
        else
          match upsertEntry
                  (buildEntry dateStr editing form (trim (dayFood form)) w').1
                  (buildEntry dateStr editing form (trim (dayFood form)) w').2
          with
          | (Ok _, w'') =>
              (Ok (Guardado (buildEntry dateStr editing form
                               (trim (dayFood form)) w').1), w'')
          | (Throw e, w'') => (Throw e, w'')
          end
    end.
Proof.
  unfold daySave, bind at 1.
  destruct (ensureCalendarAllowedOrExplain w) as [[[missing| |sm]|e] w']; try done.
  destruct (String.eqb (trim (dayFood form)) ""); [done|].
  destruct (outOfRange _ sm); [done|].
  unfold bind, lift, ret.
  destruct (buildEntry dateStr editing form (trim (dayFood form)) w')
    as [entry w3]. cbn [fst snd].
  by destruct (upsertEntry entry w3) as [[st|e] w4].
Qed.

Lemma outOfRange_spec (catalog : list JMap) (foodId : string) (sm : Z) :
  outOfRange (findFood catalog foodId) sm = true <-> aboveSafeAge catalog foodId sm.
Proof.
  unfold outOfRange, aboveSafeAge, numGt.
  destruct (findFood catalog foodId) as [f|].
  - destruct (toNumber (f !! "edad_minima")) as [n|] eqn:Hn.
    + rewrite Z.ltb_lt. split; [by exists f, n|].
      intros (f' & n' & [= <-] & Hn' & Hlt). congruence.
    + split; [done|]. intros (f' & n' & [= <-] & Hn' & _). congruence.
  - split; [done|]. by intros (f' & n' & Hf & _).
Qed.

End Save.

(** C1 as stated fails.  With the milestones complete and a safe age of
    7 months, a food id that the catalog does not know is saved, where
    the chain of the design document answers FoodIneligible; and an empty
    food reference ends in "Falta dato" (ValidationError), where that
    chain, which looks the food up first, answers FoodIneligible. *)
Lemma daySave_saves_unknown_food :
  (isComplete (H := browser) readyWorld).1 = Ok true
  /\ (getProfileSafeAgeMonths (H := browser)
        (isComplete (H := browser) readyWorld).2).1 = Some 7
  /\ catalogMinAge (H := browser) [aguacate; miel] "mango" = None
  /\ specChain true (Some 7) (catalogMinAge (H := browser) [aguacate; miel] "mango")
       "mango" = FoodIneligible
  /\ savedAs (daySave (H := browser) [aguacate; miel] "2024-08-10" None
                (blankForm "mango") readyWorld).1 = Some SaveAccepted
  /\ specChain true (Some 7) (catalogMinAge (H := browser) [aguacate; miel] "")
       "" = FoodIneligible
  /\ savedAs (daySave (H := browser) [aguacate; miel] "2024-08-10" None
                (blankForm "") readyWorld).1 = Some ValidationError.
Proof. repeat split; vm_compute; reflexivity. Qed.

(** * Further properties of the code *)

(** ** The store *)

Section StoreMoreFacts.
Context `{Platform}.

Lemma hasState_setItem (v : JVal) (w : World) :
  hasState (setItem STATE_KEY (Json v) w) = true.
Proof.
  unfold hasState, getItem, setItem. cbn [storage].
  rewrite lookup_insert_eq. reflexivity.
Qed.

Lemma persisted_setItem (v : JVal) (w : World) :
  persisted (setItem STATE_KEY (Json v) w) = v.
Proof.
  unfold persisted, getItem, setItem. cbn [storage].
  rewrite lookup_insert_eq. reflexivity.
Qed.

(** What [writeStateToStorage] returns is what the next read returns,
    [updatedAt] apart. *)
Lemma writeStateToStorage_read (state : JVal) (w : World) :
  eqButUpdated (ensureState (writeStateToStorage state w).2).1
    (writeStateToStorage state w).1.
Proof.
  rewrite writeStateToStorage_at. cbn [fst snd].
  rewrite ensureState_present by apply hasState_setItem. cbn [fst].
  rewrite persisted_setItem. apply normalizeAt_idem.
Qed.

Lemma setState_read (partial : JVal) (w : World) :
  eqButUpdated (ensureState (setState partial w).2).1 (setState partial w).1.
Proof.
  unfold setState. destruct (ensureState w) as [current w1].
  apply writeStateToStorage_read.
Qed.

Lemma setState_persisted (partial : JVal) (w : World) :
  getItem STATE_KEY (setState partial w).2 = Some (Json (setState partial w).1).
Proof.
  unfold setState. destruct (ensureState w) as [current w1].
  rewrite writeStateToStorage_at. cbn [fst snd].
  unfold getItem, setItem. cbn [storage]. apply lookup_insert_eq.
Qed.

Lemma normalizeAt_createdAt (n : nat) (raw : JVal) :
  is_Some (prop (normalizeAt n raw) "createdAt").
Proof.
  destruct (accepted raw) eqn:Hacc.
  - destruct (accepted_inv _ Hacc) as (r & -> & Hv).
    rewrite prop_normalizeAt_obj by done. rewrite !decide_False by done.
    rewrite defaultsAt_createdAt. unfold mergeAt. by destruct (r !! "createdAt").
  - by rewrite normalizeAt_rejected.
Qed.

Lemma ensureState_createdAt (w : World) :
  is_Some (prop (ensureState w).1 "createdAt").
Proof.
  destruct (ensureState_normalized w) as (n & raw & ->).
  apply normalizeAt_createdAt.
Qed.

Lemma entriesOf_normalizeAt (n : nat) (raw : JVal) :
  accepted raw = true -> entriesOf (normalizeAt n raw) = entriesOf raw.
Proof.
  intros Hacc. destruct (accepted_inv _ Hacc) as (r & -> & Hv).
  unfold entriesOf. rewrite prop_normalizeAt_obj by done.
  rewrite !decide_False by done.
  change (defaultsAt n !! "diary") with (Some (JObj (<["entries" := JArr []]> ∅))).
  cbn [prop]. unfold mergeAt.
  destruct (r !! "diary") as [[| | | | |dm]|]; cbn [isPlainObject andb prop];
    try reflexivity.
  rewrite mergeDeep_mergeMap. cbn [prop]. rewrite lookup_mergeMap, lookup_insert_eq.
  unfold mergeAt. destruct (dm !! "entries") as [x|]; [|done].
  by rewrite andb_false_r.
Qed.

Lemma registry_normalizeAt (n : nat) (raw : JVal) :
  accepted raw = true -> registry (normalizeAt n raw) = registry raw.
Proof.
  intros Hacc. destruct (accepted_inv _ Hacc) as (r & -> & Hv).
  unfold registry. rewrite prop_normalizeAt_obj by done.
  rewrite !decide_False by done.
  change (defaultsAt n !! "allergens") with (Some (JObj (<["statuses" := JObj ∅]> ∅))).
  cbn [prop]. unfold mergeAt.
  destruct (r !! "allergens") as [[| | | | |am]|]; cbn [isPlainObject andb prop];
    try reflexivity.
  rewrite mergeDeep_mergeMap. cbn [prop]. rewrite lookup_mergeMap, lookup_insert_eq.
  unfold mergeAt.
  destruct (am !! "statuses") as [[| | | | |sm]|]; cbn [isPlainObject andb];
    try reflexivity.
  by rewrite mergeDeep_mergeMap, mergeMap_empty_l.
Qed.

(** X1.  [resetState] returns the default state stamped with the time of
    the call, whatever the store held: no diary entry, no allergen
    status, no milestone and no profile survive.  It removes the legacy
    history as well, so that nothing is migrated back, and the store then
    holds that state: the next read returns it, [updatedAt] apart. *)
Theorem resetState_defaults (w : World) :
  (resetState w).1
  = JObj (defaultStateAt (JStr (clockIso (tick w))) (JStr (clockIso (S (tick w)))))
  /\ getItem LEGACY_HISTORY_KEY (resetState w).2 = None
  /\ hasState (resetState w).2 = true
  /\ eqButUpdated (getState (resetState w).2).1 (resetState w).1.
Proof.
  unfold resetState, getState.
  set (w0 := removeItem LEGACY_HISTORY_KEY (removeItem STATE_KEY w)).
  assert (hasState w0 = false) as Hs.
  { unfold hasState, w0, getItem, removeItem. cbn [storage].
    rewrite lookup_delete_ne by done. by rewrite lookup_delete_eq. }
  assert (legacyPresent w0 = false) as Hl.
  { unfold legacyPresent, w0, getItem, removeItem. cbn [storage].
    by rewrite lookup_delete_eq. }
  destruct (ensureState_stable w0) as [Hhas Hst].
  split; [by rewrite ensureState_fresh|].
  split.
  { rewrite ensureState_fresh by done. cbn [snd].
    unfold getItem, setItem, later, w0, removeItem. cbn [storage].
    rewrite lookup_insert_ne by done. apply lookup_delete_eq. }
  split; [exact Hhas|].
  rewrite (ensureState_present _ Hhas). cbn [fst].
  apply Hst. intros Hs'. congruence.
Qed.


(** X2.  On a store without a state whose legacy history is a non-empty
    array, the first read migrates the history: the state returned, and
    the state persisted, carry the legacy entries as their diary, in
    order.  The legacy item itself is left in place. *)
Theorem legacy_history_migrated (w : World) (x : JVal) (l : list JVal) :
  hasState w = false ->
  getItem LEGACY_HISTORY_KEY w = Some (Json (JArr (x :: l))) ->
  entriesOf (getState w).1 = x :: l
  /\ entriesOf (persisted (getState w).2) = x :: l
  /\ hasState (getState w).2 = true
  /\ getItem LEGACY_HISTORY_KEY (getState w).2 = Some (Json (JArr (x :: l))).
Proof.
  intros Hs Hleg. unfold getState.
  assert (legacyPresent w = true) as Hl by (unfold legacyPresent; by rewrite Hleg).
  rewrite ensureState_legacy by done. cbn [fst snd].
  assert (entriesOf (migrated w) = x :: l) as Hm.
  { unfold migrated. rewrite entriesOf_normalizeAt by by apply accepted_obj.
    unfold entriesOf. cbn [prop]. rewrite lookup_insert_eq. cbn [prop].
    rewrite lookup_insert_eq, Hleg. reflexivity. }
  split.
  { rewrite entriesOf_normalizeAt by apply accepted_normalizeAt. exact Hm. }
  split.
  { change (persisted (later 3 ?v)) with (persisted v).
    by rewrite persisted_setItem. }
  split.
  { change (hasState (later 3 ?v)) with (hasState v). apply hasState_setItem. }
  unfold getItem, setItem, later. cbn [storage].
  rewrite lookup_insert_ne by done. exact Hleg.
Qed.

(** X3.  When the store holds a state, [getState] writes nothing: the
    items of [localStorage] are the same after the call, although the
    state returned carries a new [updatedAt].  Reading again returns the
    same state, timestamps apart ([updatedAt] apart when the persisted
    value was written by the store), and the legacy history is ignored. *)
Theorem getState_reads_only (w : World) :
  hasState w = true ->
  storage (getState w).2 = storage w
  /\ eqButStamps (getState (getState w).2).1 (getState w).1
  /\ (settled w -> eqButUpdated (getState (getState w).2).1 (getState w).1)
  /\ forall i, (getState (setItem LEGACY_HISTORY_KEY i w)).1 = (getState w).1.
Proof.
  intros Hs. unfold getState.
  destruct (ensureState_stable w) as [Hhas Hst].
  rewrite (ensureState_present _ Hhas).
  rewrite (ensureState_present w) in * by done. cbn [fst snd] in *.
  split; [reflexivity|].
  split; [apply Hst|]. split; [apply Hst|].
  intros i.
  assert (hasState (setItem LEGACY_HISTORY_KEY i w) = true) as Hs'.
  { unfold hasState, getItem, setItem in *. cbn [storage].
    by rewrite lookup_insert_ne. }
  rewrite (ensureState_present _ Hs'). cbn [fst].
  unfold persisted, getItem, setItem. cbn [storage].
  by rewrite lookup_insert_ne.
Qed.

(** X4.  What [setState] returns is what it persists, and the next
    [getState] returns the same state, [updatedAt] apart.  After any
    write the store holds a value that the normalisation accepts and
    that carries a [createdAt]. *)
Theorem setState_then_getState (partial : JVal) (w : World) :
  getItem STATE_KEY (setState partial w).2 = Some (Json (setState partial w).1)
  /\ eqButUpdated (getState (setState partial w).2).1 (setState partial w).1
  /\ settled (setState partial w).2.
Proof.
  split; [apply setState_persisted|]. split; [apply setState_read|].
  intros _. unfold persisted. rewrite setState_persisted. cbn [safeParse].
  unfold setState. destruct (ensureState w) as [current w1].
  rewrite writeStateToStorage_at. cbn [fst].
  split; [apply accepted_normalizeAt|apply normalizeAt_createdAt].
Qed.

(** X5.  A partial that is not a plain object ([null], an array, a
    string, a number) is ignored by [setState], as is the empty object:
    the state returned is the current state with a new [updatedAt]. *)
Theorem setState_ignores_non_plain (partial : JVal) (w : World) :
  isPlainObject (Some partial) = false ->
  eqButUpdated (setState partial w).1 (getState w).1
  /\ eqButUpdated (setState (JObj ∅) w).1 (getState w).1.
Proof.
  intros Hp.
  assert (eqButUpdated (setState (JObj ∅) w).1 (getState w).1) as Hempty.
  { unfold setState, getState.
    destruct (ensureState_normalized w) as (n & raw & Hn).
    destruct (ensureState w) as [current w1]. cbn [fst] in *. subst current.
    rewrite writeStateToStorage_at. cbn [fst].
    destruct (normalizeAt_version n raw) as (m & Hm & _). rewrite Hm at 1.
    change (plainOrEmpty (JObj ∅)) with (JObj ∅).
    change (mergeDeep (JObj m) (JObj ∅)) with (JObj m).
    rewrite <- Hm. apply normalizeAt_idem. }
  split; [|exact Hempty].
  unfold setState in *. unfold plainOrEmpty in *. by rewrite Hp.
Qed.

(** X6.  A partial that carries a [version] other than the number 1
    makes [setState] discard the whole state: the merged state fails the
    version test of [normalizeState], which answers with the defaults,
    and these are written; the diary and the allergen registry are
    empty afterwards. *)
Theorem setState_foreign_version (pm : JMap) (v : JVal) (w : World) :
  pm !! "version" = Some v -> v <> JNum 1 ->
  (setState (JObj pm) w).1 = JObj (defaultsAt (tick (getState w).2))
  /\ entriesOf (setState (JObj pm) w).1 = []
  /\ registry (setState (JObj pm) w).1 = ∅.
Proof.
  intros Hv Hne. unfold setState, getState.
  destruct (ensureState_obj w) as (c & Hc & Hcv).
  destruct (ensureState w) as [current w1]. cbn [fst snd] in *. subst current.
  rewrite writeStateToStorage_at. cbn [fst].
  change (plainOrEmpty (JObj pm)) with (JObj pm).
  rewrite normalizeAt_rejected; [done|].
  apply accepted_false. right. rewrite mergeDeep_mergeMap. cbn [prop].
  rewrite lookup_mergeMap, Hv, Hcv. unfold mergeAt. cbn [isPlainObject].
  rewrite andb_false_r. congruence.
Qed.

(** X7.  [setState] with a partial that names neither [version] nor
    [createdAt] keeps the [createdAt] of the current state, in the state
    it returns and in the state the next read returns. *)
Theorem setState_keeps_createdAt (pm : JMap) (w : World) :
  pm !! "version" = None -> pm !! "createdAt" = None ->
  prop (setState (JObj pm) w).1 "createdAt" = prop (getState w).1 "createdAt"
  /\ prop (getState (setState (JObj pm) w).2).1 "createdAt"
     = prop (getState w).1 "createdAt".
Proof.
  intros Hv Hc. unfold getState.
  assert (prop (setState (JObj pm) w).1 "createdAt" = prop (ensureState w).1 "createdAt")
    as Hset.
  { rewrite setState_prop by done. rewrite Hc, defaultsAt_createdAt.
    destruct (ensureState_createdAt w) as [c ->]. cbn [mergeAt].
    by rewrite andb_false_r. }
  split; [exact Hset|]. by rewrite setState_read.
Qed.


(** The diary record that [setState] leaves is a plain object that holds
    the new array. *)
Lemma setState_diary (next : list JVal) (w : World) :
  exists dm, prop (setState (diaryPartial next) w).1 "diary" = Some (JObj dm)
             /\ dm !! "entries" = Some (JArr next).
Proof.
  unfold diaryPartial. rewrite setState_prop by done. rewrite lookup_singleton_eq.
  change (defaultsAt _ !! "diary") with (Some (JObj (<["entries" := JArr []]> ∅))).
  assert (forall dm : JMap,
            mergeMap (<["entries" := JArr []]> ∅) (mergeMap dm {["entries" := JArr next]})
              !! "entries" = Some (JArr next)) as Hin.
  { intros dm. rewrite !lookup_mergeMap, lookup_insert_eq, lookup_singleton_eq.
    unfold mergeAt. by destruct (dm !! "entries"). }
  assert (mergeMap (<["entries" := JArr []]> ∅) {["entries" := JArr next]}
            !! "entries" = Some (JArr next)) as Hout.
  { rewrite <- (mergeMap_empty_l {["entries" := JArr next]}) at 1. apply Hin. }
  destruct (prop (ensureState w).1 "diary") as [d|].
  - destruct (isPlainObject (Some d)) eqn:Hd.
    + destruct d as [| | | | |dm]; try discriminate Hd.
      exists (mergeMap (<["entries" := JArr []]> ∅) (mergeMap dm {["entries" := JArr next]})).
      split; [|apply Hin]. unfold mergeAt. cbn [isPlainObject andb].
      rewrite (mergeDeep_mergeMap dm). cbn [isPlainObject andb].
      by rewrite mergeDeep_mergeMap.
    + exists (mergeMap (<["entries" := JArr []]> ∅) {["entries" := JArr next]}).
      split; [|exact Hout]. unfold mergeAt. rewrite Hd, andb_false_r.
      cbn [isPlainObject andb]. by rewrite mergeDeep_mergeMap.
  - exists (mergeMap (<["entries" := JArr []]> ∅) {["entries" := JArr next]}).
    split; [|exact Hout]. unfold mergeAt. cbn [isPlainObject andb].
    by rewrite mergeDeep_mergeMap.
Qed.

Lemma setState_diary_plain (next : list JVal) (w : World) :
  isPlainObject (prop (setState (diaryPartial next) w).1 "diary") = true.
Proof. by destruct (setState_diary next w) as (dm & -> & _). Qed.

(** The three diary writers read the entries and write a new array. *)
Lemma diary_rewrite (g : list JVal -> list JVal) (w : World) :
  prop (ensureState w).1 "diary" <> Some JNull ->
  (current <~ lift ensureState ;;
   entries <~ try (currentEntries current) ;;
   lift (setState (diaryPartial (g entries)))) w
  = (Ok (setState (diaryPartial (g (entriesOf (ensureState w).1))) (ensureState w).2).1,
     (setState (diaryPartial (g (entriesOf (ensureState w).1))) (ensureState w).2).2).
Proof.
  intros Hnull. unfold bind, lift, try.
  pose proof (currentEntries_entriesOf _ Hnull (ensureState_diary w)) as Hcur.
  destruct (ensureState w) as [current w1]. cbn [fst snd] in *.
  rewrite Hcur. by destruct (setState _ w1).
Qed.

Lemma diary_null (g : list JVal -> list JVal) (w : World) :
  prop (ensureState w).1 "diary" = Some JNull ->
  (current <~ lift ensureState ;;
   entries <~ try (currentEntries current) ;;
   lift (setState (diaryPartial (g entries)))) w
  = (Throw TypeError, (ensureState w).2).
Proof.
  intros Hnull. unfold bind, lift, try.
  destruct (ensureState w) as [current w1]. cbn [fst snd] in *.
  unfold currentEntries. by rewrite Hnull.
Qed.

(** The entries that a later read of the diary returns. *)
Lemma getDiaryEntries_after (next : list JVal) (w : World) :
  (getDiaryEntries (setState (diaryPartial next) w).2).1 = Ok next.
Proof.
  unfold getDiaryEntries, bind, lift, try.
  pose proof (setState_read (diaryPartial next) w "diary") as Hd.
  pose proof (setState_diary_plain next w) as Hp.
  pose proof (setState_entries next w) as He.
  destruct (setState (diaryPartial next) w) as [st w1]. cbn [fst snd] in *.
  specialize (Hd ltac:(done)).
  assert (currentEntries (ensureState w1).1 = Ok next) as Hcur.
  { unfold currentEntries. rewrite Hd. unfold entriesOf in He.
    destruct (prop st "diary") as [[| | | | |dm]|]; try done.
    cbn [getProp]. by rewrite He. }
  destruct (ensureState w1) as [s2 w2]. cbn [fst] in *. by rewrite Hcur.
Qed.

Lemma filter_hasId_none (id : JOpt) (entries : list JVal) :
  countId id (List.filter (fun e => negb (hasId id e)) entries) = 0%nat.
Proof.
  unfold countId. induction entries as [|e l IH]; [done|]. cbn [List.filter].
  destruct (hasId id e) eqn:He; cbn [negb]; [exact IH|].
  cbn [List.filter]. by rewrite He.
Qed.

Lemma filter_hasId_length (id : JOpt) (entries : list JVal) :
  (length (List.filter (fun e => negb (hasId id e)) entries) + countId id entries
   = length entries)%nat.
Proof.
  unfold countId. induction entries as [|e l IH]; [done|]. cbn [List.filter].
  destruct (hasId id e); cbn [negb length]; lia.
Qed.

Lemma filter_hasId_absent (id : JOpt) (entries : list JVal) :
  countId id entries = 0%nat ->
  List.filter (fun e => negb (hasId id e)) entries = entries.
Proof.
  unfold countId. induction entries as [|e l IH]; [done|]. cbn [List.filter].
  destruct (hasId id e); cbn [negb length]; [done|]. intros Hl. by rewrite IH.
Qed.

(** X8.  On a store whose diary is not [null], [deleteEntry] removes
    every entry whose id is strictly equal to the given one and keeps the
    others in order: no entry with that id is left, the length drops by
    the number of entries that had it, and when none had it the diary is
    unchanged.  The next read of the diary returns that array. *)
Theorem deleteEntry_removes (w : World) (entryId : JVal) :
  prop (getState w).1 "diary" <> Some JNull ->
  exists st w',
    deleteEntry entryId w = (Ok st, w')
    /\ entriesOf st
       = List.filter (fun e => negb (hasId (Some entryId) e)) (entriesOf (getState w).1)
    /\ countId (Some entryId) (entriesOf st) = 0%nat
    /\ (length (entriesOf st) + countId (Some entryId) (entriesOf (getState w).1)
        = length (entriesOf (getState w).1))%nat
    /\ (countId (Some entryId) (entriesOf (getState w).1) = 0%nat ->
        entriesOf st = entriesOf (getState w).1)
    /\ (getDiaryEntries w').1 = Ok (entriesOf st).
Proof.
  intros Hnull. unfold getState in *. unfold deleteEntry.
  rewrite (diary_rewrite
             (fun entries => List.filter (fun e => negb (hasId (Some entryId) e)) entries))
    by done.
  eexists _, _. split; [reflexivity|].
  rewrite getDiaryEntries_after, setState_entries.
  split; [done|]. split; [apply filter_hasId_none|].
  split; [apply filter_hasId_length|]. split; [apply filter_hasId_absent|done].
Qed.

(** X9.  On a store whose diary is not [null], [addEntry] appends the
    entry at the end of the diary, without looking at its id or its
    shape, and the next read of the diary returns the longer array. *)
Theorem addEntry_appends (w : World) (entry : JVal) :
  prop (getState w).1 "diary" <> Some JNull ->
  exists st w',
    addEntry entry w = (Ok st, w')
    /\ entriesOf st = entriesOf (getState w).1 ++ [entry]
    /\ (getDiaryEntries w').1 = Ok (entriesOf (getState w).1 ++ [entry]).
Proof.
  intros Hnull. unfold getState in *. unfold addEntry.
  rewrite (diary_rewrite (fun entries => entries ++ [entry])) by done.
  eexists _, _. split; [reflexivity|].
  by rewrite getDiaryEntries_after, setState_entries.
Qed.

(** X10.  [upsertEntry] of a value that is not an object ([null], a
    primitive), or of an object without a truthy [id], stores nothing:
    the diary after the call is the diary before it. *)
Theorem upsertEntry_without_id (w : World) (entry : JVal) :
  prop (getState w).1 "diary" <> Some JNull ->
  isContainer (Some entry) = false \/ truthy (prop entry "id") = false ->
  exists st w',
    upsertEntry entry w = (Ok st, w')
    /\ entriesOf st = entriesOf (getState w).1
    /\ (getDiaryEntries w').1 = Ok (entriesOf (getState w).1).
Proof.
  intros Hnull Hbad. unfold getState in *. unfold upsertEntry.
  assert (negb (truthy (Some entry)) || negb (typeofObject (Some entry))
          || negb (truthy (prop entry "id")) = true) as Hc.
  { destruct Hbad as [Hb|Hb].
    - destruct entry as [|[]| | | |]; try done; cbn; by rewrite ?orb_true_r.
    - rewrite Hb. by rewrite orb_true_r. }
  unfold upsertEntry, bind, lift, try.
  pose proof (currentEntries_entriesOf _ Hnull (ensureState_diary w)) as Hcur.
  pose proof (setState_entries (entriesOf (ensureState w).1) (ensureState w).2) as Hset.
  pose proof (getDiaryEntries_after (entriesOf (ensureState w).1) (ensureState w).2)
    as Hget.
  destruct (ensureState w) as [current w1]. cbn [fst snd] in *.
  rewrite Hcur, Hc.
  destruct (setState _ w1) as [st w2]. by exists st, w2.
Qed.

(** X11.  On a store whose [diary] is [null], [addEntry], [upsertEntry],
    [deleteEntry] and [getEntries] throw a [TypeError] on the read of
    [diary.entries], after the state was read and before anything is
    written; [setEntries] does not read the diary and repairs it. *)
Theorem diary_null_throws (w : World) (entry : JVal) :
  prop (getState w).1 "diary" = Some JNull ->
  addEntry entry w = (Throw TypeError, (getState w).2)
  /\ upsertEntry entry w = (Throw TypeError, (getState w).2)
  /\ deleteEntry entry w = (Throw TypeError, (getState w).2)
  /\ getEntries w = (Throw TypeError, (getState w).2)
  /\ forall l, (getDiaryEntries (setEntries (JArr l) w).2).1 = Ok l.
Proof.
  intros Hnull. unfold getState in *.
  split; [by apply (diary_null (fun entries => entries ++ [entry]))|].
  split.
  { unfold upsertEntry, bind, lift, try.
    destruct (ensureState w) as [current w1]. cbn [fst snd] in *.
    unfold currentEntries. by rewrite Hnull. }
  split; [by apply (diary_null (fun entries => List.filter _ entries))|].
  split.
  { unfold getEntries, bind, lift, try.
    destruct (ensureState w) as [current w1]. cbn [fst snd] in *.
    by rewrite Hnull. }
  intros l. apply getDiaryEntries_after.
Qed.

(** X12.  [setEntries] replaces the diary by the array it is given, and
    by the empty array when the value is not an array; [getEntries], the
    legacy wrappers [setHistory] and [getHistory], and [getDiaryEntries]
    of app.js then return that array. *)
Theorem setEntries_getEntries (w : World) (entries : JVal) :
  entriesOf (setEntries entries w).1 = arrayOrEmpty (Some entries)
  /\ (getEntries (setEntries entries w).2).1 = Ok (JArr (arrayOrEmpty (Some entries)))
  /\ (getHistory (setHistory entries w).2).1 = Ok (JArr (arrayOrEmpty (Some entries)))
  /\ (getDiaryEntries (setEntries entries w).2).1 = Ok (arrayOrEmpty (Some entries)).
Proof.
  unfold getHistory, setHistory, setEntries.
  set (next := arrayOrEmpty (Some entries)).
  split; [apply setState_entries|].
  assert ((getEntries (setState (diaryPartial next) w).2).1 = Ok (JArr next)) as Hget.
  { unfold getEntries, bind, lift, try, ret.
    pose proof (setState_read (diaryPartial next) w "diary") as Hd.
    destruct (setState_diary next w) as (dm & Hdm & He).
    destruct (setState (diaryPartial next) w) as [st w1]. cbn [fst snd] in *.
    specialize (Hd ltac:(done)).
    destruct (ensureState w1) as [s2 w2]. cbn [fst] in *. rewrite Hd, Hdm.
    cbn [getProp prop fst]. by rewrite He. }
  split; [exact Hget|]. split; [exact Hget|]. apply getDiaryEntries_after.
Qed.


Lemma getStatus_registry (w : World) (allergenId : string) :
  prop (ensureState w).1 "allergens" <> Some JNull ->
  getStatus allergenId w
  = (Ok (valueOr (registry (ensureState w).1 !! allergenId) (JStr "not_introduced")),
     (ensureState w).2).
Proof.
  intros Hnull. unfold getStatus, bind, lift, try, ret.
  destruct (ensureState_allergens w) as [al Hal].
  unfold registry. rewrite Hal in *.
  destruct (ensureState w) as [current w1]. cbn [fst snd] in *. rewrite Hal.
  destruct al as [|b|z|s|l|am]; try congruence; cbn [getProp prop];
    try (by rewrite lookup_empty).
  destruct (am !! "statuses") as [[|[]|z|s|l|sm]|]; cbn [valueOr truthy prop];
    try (by rewrite lookup_empty).
  - by destruct (negb (z =? 0)); cbn [prop]; rewrite ?lookup_empty.
  - by destruct (negb (String.eqb s "")); cbn [prop]; rewrite ?lookup_empty.
  - reflexivity.
Qed.

Lemma setStatus_eq (w : World) (allergenId status : string) :
  allergenId <> "" ->
  prop (ensureState w).1 "allergens" <> Some JNull ->
  setStatus allergenId status w
  = (Ok (setState (statusesPartial
                     (<[allergenId := JStr status]> (registry (ensureState w).1)))
           (ensureState w).2).1,
     (setState (statusesPartial
                  (<[allergenId := JStr status]> (registry (ensureState w).1)))
        (ensureState w).2).2).
Proof.
  intros Hid Hnull. unfold setStatus.
  assert (truthy (Some (JStr allergenId)) = true) as ->.
  { cbn [truthy]. by destruct (String.eqb_spec allergenId ""). }
  cbn [negb]. unfold bind, lift, try.
  pose proof (currentStatuses_registry (ensureState w).1 Hnull
                (ensureState_allergens w)) as Hcur.
  destruct (ensureState w) as [current w1]. cbn [fst snd] in *.
  rewrite Hcur. unfold statusesPartial. by destruct (setState _ w1).
Qed.

Lemma registry_allergens (state : JVal) (k : string) :
  is_Some (registry state !! k) -> prop state "allergens" <> Some JNull.
Proof.
  unfold registry. intros [x Hx] Hnull. rewrite Hnull in Hx.
  cbn [prop] in Hx. by rewrite lookup_empty in Hx.
Qed.

(** X13.  After [setStatus] of an allergen (non-empty id, [allergens]
    not [null]), [getStatus] of that allergen returns the status set, or
    "not_introduced" when the status set is the empty string; the status
    of every other allergen reads as before; and an allergen that the
    registry does not hold reads as "not_introduced". *)
Theorem getStatus_after_setStatus (w : World) (allergenId status : string) :
  allergenId <> "" ->
  prop (getState w).1 "allergens" <> Some JNull ->
  exists st w',
    setStatus allergenId status w = (Ok st, w')
    /\ (getStatus allergenId w').1
       = Ok (JStr (if String.eqb status "" then "not_introduced" else status))
    /\ (forall other, other <> allergenId ->
          (getStatus other w').1 = (getStatus other w).1)
    /\ (forall absent, registry (getState w).1 !! absent = None ->
          (getStatus absent w).1 = Ok (JStr "not_introduced")).
Proof.
  intros Hid Hnull. unfold getState in *.
  rewrite setStatus_eq by done. eexists _, _. split; [reflexivity|].
  set (R := registry (ensureState w).1).
  set (P := statusesPartial (<[allergenId := JStr status]> R)).
  assert (registry (ensureState (setState P (ensureState w).2).2).1
          = <[allergenId := JStr status]> R) as Hreg.
  { unfold registry at 1. rewrite setState_read by done.
    fold (registry (setState P (ensureState w).2).1).
    unfold P. rewrite setState_registry.
    assert (registry (ensureState (ensureState w).2).1 = R) as ->.
    { unfold R, registry. by rewrite ensureState_again. }
    by apply mergeMap_insert_self. }
  assert (prop (ensureState (setState P (ensureState w).2).2).1 "allergens"
          <> Some JNull) as Hnull'.
  { apply (registry_allergens _ allergenId). rewrite Hreg, lookup_insert_eq. by eexists. }
  split; [|split].
  - rewrite getStatus_registry by done. cbn [fst].
    rewrite Hreg, lookup_insert_eq. cbn [valueOr truthy].
    by destruct (String.eqb status "").
  - intros other Hne. rewrite !getStatus_registry by done. cbn [fst].
    rewrite Hreg. by rewrite lookup_insert_ne.
  - intros absent Habs. rewrite getStatus_registry by done. cbn [fst].
    fold R. by rewrite Habs.
Qed.

(** X14.  Merging the same source a second time changes nothing:
    [mergeDeep(mergeDeep(t, s), s)] is [mergeDeep(t, s)], for all values
    [t] and [s]. *)
Theorem mergeDeep_twice (t s : JVal) :
  mergeDeep (mergeDeep t s) s = mergeDeep t s.
Proof.
  revert t. induction s as [s IH] using JVal_nest_ind. intros t.
  destruct (isPlainObject (Some s)) eqn:Hs;
    [|by rewrite !(mergeDeep_not_plain_source _ s)].
  destruct (isPlainObject (Some t)) eqn:Ht;
    [|rewrite (mergeDeep_not_plain_target t) by done; apply mergeDeep_idem].
  destruct s as [| | | | |sm]; try discriminate Hs.
  destruct t as [| | | | |tm]; try discriminate Ht.
  rewrite !mergeDeep_mergeMap. f_equal. apply map_eq. intros k.
  rewrite !lookup_mergeMap. unfold mergeAt.
  destruct (sm !! k) as [sv|] eqn:Hk; [|by destruct (tm !! k)].
  destruct (tm !! k) as [tv|].
  - f_equal.
    destruct (isPlainObject (Some sv)) eqn:Hsv, (isPlainObject (Some tv)) eqn:Htv;
      cbn [andb]; rewrite ?Hsv; cbn [andb]; try reflexivity.
    + rewrite mergeDeep_plain by done. by eapply IH.
    + apply mergeDeep_idem.
  - f_equal. rewrite andb_diag.
    destruct (isPlainObject (Some sv)); [apply mergeDeep_idem|reflexivity].
Qed.

(** X15.  [mergeDeep] of two objects never drops a key: the keys of the
    result are those of the target and those of the source.  The empty
    object is neutral on both sides, and an array of the source replaces
    what the target held under that key; arrays are not merged. *)
Theorem mergeDeep_keeps_keys (t s : JMap) :
  (forall k, is_Some (prop (mergeDeep (JObj t) (JObj s)) k)
             <-> is_Some (t !! k) \/ is_Some (s !! k))
  /\ mergeDeep (JObj t) (JObj ∅) = JObj t
  /\ mergeDeep (JObj ∅) (JObj s) = JObj s
  /\ (forall k l, s !! k = Some (JArr l) ->
        prop (mergeDeep (JObj t) (JObj s)) k = Some (JArr l)).
Proof.
  split; [|split; [|split]].
  - intros k. rewrite mergeDeep_mergeMap. cbn [prop]. rewrite lookup_mergeMap.
    unfold mergeAt. destruct (s !! k) as [sv|], (t !! k) as [tv|].
    + split; [intros _; left|intros _]; apply mk_is_Some with (1 := eq_refl).
    + split; [intros _; right|intros _]; apply mk_is_Some with (1 := eq_refl).
    + split; [intros _; left|intros _]; apply mk_is_Some with (1 := eq_refl).
    + split; [intros [x Hx]; discriminate Hx|].
      intros [[x Hx]|[x Hx]]; discriminate Hx.
  - reflexivity.
  - rewrite mergeDeep_mergeMap. by rewrite mergeMap_empty_l.
  - intros k l Hk. rewrite mergeDeep_mergeMap. cbn [prop].
    rewrite lookup_mergeMap, Hk. unfold mergeAt. by destruct (t !! k).
Qed.

(** X16.  The import of a valid backup overwrites the local data: the
    state it leaves is determined by the document alone.  Imported into
    two stores of any content, the same document gives the same state,
    timestamps apart ([updatedAt] apart when the document carries a
    [createdAt]), with the diary and the allergen registry of the
    document. *)
Theorem importState_overwrites (doc : JVal) (w1 w2 : World) :
  ok (validateBackupState doc) = true ->
  exists s1 s2 w1' w2',
    importState doc w1 = (Ok s1, w1')
    /\ importState doc w2 = (Ok s2, w2')
    /\ eqButStamps s1 s2
    /\ (is_Some (prop doc "createdAt") -> eqButUpdated s1 s2)
    /\ entriesOf s1 = entriesOf doc
    /\ registry s1 = registry doc.
Proof.
  intros Hok.
  assert (accepted doc = true) as Hacc.
  { apply validate_ok_iff in Hok as (Hc & Hv & _).
    destruct doc as [| | | | |m]; try discriminate Hc; try discriminate Hv.
    by apply accepted_obj. }
  destruct (importState_at doc w1 Hok) as (w1' & H1).
  destruct (importState_at doc w2 Hok) as (w2' & H2).
  eexists _, _, w1', w2'. split; [exact H1|]. split; [exact H2|].
  split; [|split; [|split]].
  - eapply eqButStamps_trans; [apply eqButUpdated_weaken, normalizeAt_idem|].
    eapply eqButStamps_trans; [apply normalizeAt_same_raw|].
    apply eqButStamps_sym, eqButUpdated_weaken, normalizeAt_idem.
  - intros Hc.
    eapply eqButUpdated_trans; [apply normalizeAt_idem|].
    eapply eqButUpdated_trans; [by apply normalizeAt_same_raw_created|].
    apply eqButUpdated_sym, normalizeAt_idem.
  - rewrite !entriesOf_normalizeAt; [done|done|apply accepted_normalizeAt].
  - rewrite !registry_normalizeAt; [done|done|apply accepted_normalizeAt].
Qed.

End StoreMoreFacts.

(** ** Milestones and profile *)

Section AppMoreFacts.
Context `{Platform}.

Lemma mergeMap_leaf (t s : JMap) (k : string) (v : JVal) :
  s !! k = Some v -> isPlainObject (Some v) = false -> mergeMap t s !! k = Some v.
Proof.
  intros Hk Hv. rewrite lookup_mergeMap, Hk. unfold mergeAt.
  destruct (t !! k); [|done]. by rewrite Hv.
Qed.

(** The record that [setState] leaves under a section when the partial
    gives that section only. *)
Lemma setState_section (sec : string) (pm dsec : JMap) (w : World) :
  sec <> "version" -> sec <> "updatedAt" ->
  (forall n, defaultsAt n !! sec = Some (JObj dsec)) ->
  prop (setState (JObj {[sec := JObj pm]}) w).1 sec
  = Some (JObj (mergeMap dsec (mergeMap (sectionOf (ensureState w).1 sec) pm))).
Proof.
  intros Hv Hu Hd. rewrite setState_prop; [|by rewrite lookup_singleton_ne|done..].
  rewrite Hd, lookup_singleton_eq. unfold sectionOf, mergeAt.
  destruct (prop (ensureState w).1 sec) as [[| | | | |cm]|];
    cbn [isPlainObject andb]; rewrite ?mergeDeep_mergeMap, ?mergeMap_empty_l;
    reflexivity.
Qed.

(** The same section at the next read. *)
Lemma setState_section_read (sec : string) (pm dsec : JMap) (w : World) :
  sec <> "version" -> sec <> "updatedAt" ->
  (forall n, defaultsAt n !! sec = Some (JObj dsec)) ->
  prop (ensureState (setState (JObj {[sec := JObj pm]}) w).2).1 sec
  = Some (JObj (mergeMap dsec (mergeMap (sectionOf (ensureState w).1 sec) pm))).
Proof.
  intros Hv Hu Hd. rewrite setState_read by done. by apply setState_section.
Qed.

(** X17.  After the handler of the milestone checkboxes has persisted
    the four boxes, whatever the store held, [isComplete] is the
    conjunction of the four boxes, and the modal "Registro bloqueado"
    would list exactly the boxes that are not ticked, in the order of the
    checklist. *)
Theorem persistMilestones_isComplete (seated noExtrusion interestInFood handToMouth : bool)
    (w : World) :
  (isComplete (persistMilestones seated noExtrusion interestInFood handToMouth w).2).1
  = Ok (seated && noExtrusion && interestInFood && handToMouth)
  /\ (missingMilestones
        (milestonesGetAll
           (persistMilestones seated noExtrusion interestInFood handToMouth w).2).1
      = (if seated then [] else ["Se mantiene sentado"])
        ++ (if noExtrusion then [] else ["Sin reflejo de extrusión"])
        ++ (if interestInFood then [] else ["Interés por comida"])
        ++ (if handToMouth then [] else ["Coordinación mano-boca"])).
Proof.
  set (pm := <["seated" := JBool seated]>
             (<["noExtrusion" := JBool noExtrusion]>
             (<["interestInFood" := JBool interestInFood]>
             (<["handToMouth" := JBool handToMouth]> (∅ : JMap))))).
  assert (exists M,
            (milestonesGetAll
               (persistMilestones seated noExtrusion interestInFood handToMouth w).2).1
            = Some (JObj M)
            /\ M !! "seated" = Some (JBool seated)
            /\ M !! "noExtrusion" = Some (JBool noExtrusion)
            /\ M !! "interestInFood" = Some (JBool interestInFood)
            /\ M !! "handToMouth" = Some (JBool handToMouth)) as (M & HM & H1 & H2 & H3 & H4).
  { unfold milestonesGetAll, persistMilestones, milestonesSet. fold pm.
    change (plainOrEmpty (JObj pm)) with (JObj pm).
    pose proof (setState_section_read "milestones" pm
                  (<["seated" := JBool false]>
                   (<["noExtrusion" := JBool false]>
                   (<["interestInFood" := JBool false]>
                   (<["handToMouth" := JBool false]> ∅)))) w
                  ltac:(discriminate) ltac:(discriminate) ltac:(reflexivity)) as Hsec.
    destruct (ensureState (setState _ w).2) as [st w2]. cbn [fst] in *.
    eexists. split; [exact Hsec|].
    repeat split; apply mergeMap_leaf; try reflexivity;
      apply mergeMap_leaf; reflexivity. }
  split.
  - rewrite isComplete_allFour, HM. cbn [allFour prop]. by rewrite H1, H2, H3, H4.
  - rewrite HM. unfold missingMilestones. cbn [prop]. by rewrite H1, H2, H3, H4.
Qed.


Lemma isComplete_eq (w : World) :
  isComplete w = (allFour (prop (ensureState w).1 "milestones"), (ensureState w).2).
Proof.
  unfold isComplete, milestonesGetAll, bind, lift, try.
  destruct (ensureState w) as [st w1]. reflexivity.
Qed.

Lemma missingMilestones_nil (x : JVal) :
  missingMilestones (Some x) = []
  <-> truthy (prop x "seated") && truthy (prop x "noExtrusion")
      && truthy (prop x "interestInFood") && truthy (prop x "handToMouth") = true.
Proof.
  unfold missingMilestones.
  destruct (truthy (prop x "seated")), (truthy (prop x "noExtrusion")),
    (truthy (prop x "interestInFood")), (truthy (prop x "handToMouth"));
    cbn; split; intros Hx; congruence.
Qed.

(** X18.  When [ensureCalendarAllowedOrExplain] blocks on the
    milestones, [isComplete] was false and the modal lists at least one
    missing milestone (the second read of the milestones agrees with the
    first).  It answers "profile" only when the milestones are complete
    and the safe age is unknown, and [ok] only when they are complete
    and the safe age is the one returned.  It throws a [TypeError]
    exactly when the [milestones] of the state are [null] or missing. *)
Theorem gate_lists_missing (w : World) :
  (forall missing w',
     ensureCalendarAllowedOrExplain w = (Ok (GateMilestones missing), w') ->
     missing <> [] /\ (isComplete w).1 = Ok false)
  /\ (forall w', ensureCalendarAllowedOrExplain w = (Ok GateProfile, w') ->
        (isComplete w).1 = Ok true
        /\ (getProfileSafeAgeMonths (isComplete w).2).1 = None)
  /\ (forall sm w', ensureCalendarAllowedOrExplain w = (Ok (GateOk sm), w') ->
        (isComplete w).1 = Ok true
        /\ (getProfileSafeAgeMonths (isComplete w).2).1 = Some sm)
  /\ ((ensureCalendarAllowedOrExplain w).1 = Throw TypeError
      <-> prop (getState w).1 "milestones" = Some JNull
          \/ prop (getState w).1 "milestones" = None).
Proof.
  rewrite ensureCalendarAllowedOrExplain_eq, isComplete_eq. unfold getState.
  destruct (prop (ensureState w).1 "milestones") as [x|] eqn:Hm.
  2:{ cbn [allFour fst snd]. split; [done|]. split; [done|]. split; [done|].
      split; [by right|done]. }
  assert (x = JNull \/ x <> JNull) as [->|Hx] by (destruct x; (by left) || (by right)).
  { cbn [allFour fst snd]. split; [done|]. split; [done|]. split; [done|].
    split; [by left|done]. }
  rewrite allFour_value by done. cbn [fst snd].
  destruct (truthy (prop x "seated") && truthy (prop x "noExtrusion")
            && truthy (prop x "interestInFood") && truthy (prop x "handToMouth"))
    eqn:Hall.
  - destruct (getProfileSafeAgeMonths (ensureState w).2) as [[sm|] w2]; cbn [fst].
    + split; [done|]. split; [done|]. split; [by intros sm' w' [= <- <-]|].
      split; [done|]. intros [H0|H0]; congruence.
    + split; [done|]. split; [done|]. split; [done|].
      split; [done|]. intros [H0|H0]; congruence.
  - cbn [fst]. split; [|split; [done|split; [done|]]].
    + intros missing w' [= <- <-]. split; [|done].
      unfold milestonesGetAll.
      pose proof (ensureState_again w "milestones" ltac:(done) ltac:(done)) as Hag.
      destruct (ensureState (ensureState w).2) as [st2 w2]. cbn [fst] in *.
      rewrite Hag, Hm. rewrite missingMilestones_nil. congruence.
    + unfold milestonesGetAll. destruct (ensureState (ensureState w).2) as [st2 w2].
      cbn [fst]. split; [done|]. intros [H0|H0]; congruence.
Qed.


(** The safe age depends on three fields of the profile only. *)
Lemma getSafeAgeMonths_ext (p q : JMap) (w : World) :
  p !! "birthDate" = q !! "birthDate" ->
  p !! "gestationWeeks" = q !! "gestationWeeks" ->
  p !! "dueDate" = q !! "dueDate" ->
  getSafeAgeMonths (Some (JObj p)) w = getSafeAgeMonths (Some (JObj q)) w.
Proof.
  intros Hb Hg Hd. unfold getSafeAgeMonths. cbn [prop]. by rewrite Hb, Hg, Hd.
Qed.

Lemma nextProfileOf_fields (birthDate : string) (gw : option Z) (dueDate : string) :
  let np := nextProfileOf birthDate gw dueDate in
  np !! "birthDate" = Some (JStr birthDate)
  /\ np !! "gestationWeeks" = Some (match gw with Some z => JNum z | None => JNull end)
  /\ np !! "dueDate" = Some (if String.eqb dueDate "" then JNull else JStr dueDate).
Proof. repeat split. Qed.

(** The profile that a submit saves, and the world it leaves. *)
Lemma profileSubmit_saved (form : ProfileForm) (w : World) :
  trim (babyBirthdate form) <> "" ->
  isPreterm (weeksOf (trim (babyGestationWeeks form))) = false
  \/ trim (babyDuedate form) <> "" ->
  exists np w2,
    profileSubmit form w
    = (Ok (PerfilActualizado (JObj np)), (babyProfileSet (JObj np) w2).2)
    /\ np !! "birthDate" = Some (JStr (trim (babyBirthdate form)))
    /\ np !! "gestationWeeks"
       = Some (match weeksOf (trim (babyGestationWeeks form)) with
               | Some z => JNum z
               | None => JNull
               end)
    /\ np !! "dueDate"
       = Some (if String.eqb (trim (babyDuedate form)) "" then JNull
               else JStr (trim (babyDuedate form))).
Proof.
  intros Hb Hd. unfold profileSubmit.
  destruct (String.eqb_spec (trim (babyBirthdate form)) "") as [|_]; [done|].
  assert (isPreterm (weeksOf (trim (babyGestationWeeks form)))
          && String.eqb (trim (babyDuedate form)) "" = false) as ->.
  { destruct Hd as [->|Hd]; [done|].
    destruct (String.eqb_spec (trim (babyDuedate form)) ""); [done|].
    apply andb_false_r. }
  set (np := nextProfileOf _ _ _).
  destruct (nextProfileOf_fields (trim (babyBirthdate form))
              (weeksOf (trim (babyGestationWeeks form))) (trim (babyDuedate form)))
    as (H1 & H2 & H3). fold np in H1, H2, H3.
  unfold bind at 1. unfold lift at 1.
  destruct (getSafeAgeMonths (Some (JObj np)) w) as [[sm|] w1].
  - unfold bind, lift, ret. destruct (nowIso w1) as [t w2].
    destruct (babyProfileSet _ w2) as [st w3] eqn:Hset.
    eexists _, w2. rewrite Hset. split; [reflexivity|].
    rewrite !lookup_insert_ne by done. done.
  - unfold bind, lift, ret.
    destruct (babyProfileSet _ w1) as [st w3] eqn:Hset.
    eexists _, w1. rewrite Hset. split; [reflexivity|]. done.
Qed.

(** X19.  The submit of the profile form stops on an empty birth date,
    and on an empty due date when the weeks of gestation are a number
    strictly between 0 and 37; in both cases nothing is read or written.
    So a profile saved through the form has a non-empty birth date, and
    a due date whenever its weeks of gestation make it preterm.  Up to
    and including the save, the handler does not throw. *)
Theorem profileSubmit_checks (form : ProfileForm) (w : World) :
  (trim (babyBirthdate form) = "" -> profileSubmit form w = (Ok FaltaNacimiento, w))
  /\ (trim (babyBirthdate form) <> "" ->
      isPreterm (weeksOf (trim (babyGestationWeeks form))) = true ->
      trim (babyDuedate form) = "" ->
      profileSubmit form w = (Ok FaltaFpp, w))
  /\ (forall p w',
        profileSubmit form w = (Ok (PerfilActualizado p), w') ->
        exists birthDate,
          prop p "birthDate" = Some (JStr birthDate) /\ birthDate <> ""
          /\ (isPreterm (toNumber (prop p "gestationWeeks")) = true ->
              exists dueDate, prop p "dueDate" = Some (JStr dueDate) /\ dueDate <> ""))
  /\ (forall e w', profileSubmit form w <> (Throw e, w')).
Proof.
  split; [|split].
  - intros Hb. unfold profileSubmit. by rewrite Hb.
  - intros Hb Hp Hd. unfold profileSubmit. rewrite Hp, Hd.
    by destruct (String.eqb_spec (trim (babyBirthdate form)) "").
  - destruct (String.eqb_spec (trim (babyBirthdate form)) "") as [Hb|Hb].
    { unfold profileSubmit. rewrite Hb. cbn [String.eqb]. unfold ret. done. }
    destruct (isPreterm (weeksOf (trim (babyGestationWeeks form)))) eqn:Hp.
    + destruct (String.eqb_spec (trim (babyDuedate form)) "") as [Hd|Hd].
      { unfold profileSubmit. rewrite Hp, Hd.
        destruct (String.eqb_spec (trim (babyBirthdate form)) ""); done. }
      destruct (profileSubmit_saved form w Hb (or_intror Hd))
        as (np & w2 & -> & H1 & H2 & H3).
      split; [|done]. intros p w' [= <- <-]. cbn [prop].
      exists (trim (babyBirthdate form)). split; [done|]. split; [done|].
      intros _. exists (trim (babyDuedate form)). rewrite H3.
      by destruct (String.eqb_spec (trim (babyDuedate form)) "").
    + destruct (profileSubmit_saved form w Hb (or_introl Hp))
        as (np & w2 & -> & H1 & H2 & H3).
      split; [|done]. intros p w' [= <- <-]. cbn [prop].
      exists (trim (babyBirthdate form)). split; [done|]. split; [done|].
      rewrite H2. intros Hpre. exfalso.
      destruct (weeksOf (trim (babyGestationWeeks form))) as [z|];
        cbn [toNumber] in Hpre; [congruence|discriminate Hpre].
Qed.

(** X20.  After a submit of the profile form that saves, the safe age
    read from the store is the safe age of the profile submitted: the
    three fields of the form replace those of the stored profile, and no
    field of the previous profile enters the computation. *)
Theorem profileSubmit_safe_age (form : ProfileForm) (w : World) (p : JVal) (w' : World) :
  profileSubmit form w = (Ok (PerfilActualizado p), w') ->
  (getProfileSafeAgeMonths w').1
  = (getSafeAgeMonths (Some p) (babyProfileGet w').2).1
  /\ (getProfileSafeAgeMonths w').1
     = (getSafeAgeMonths
          (Some (JObj (nextProfileOf (trim (babyBirthdate form))
                         (weeksOf (trim (babyGestationWeeks form)))
                         (trim (babyDuedate form)))))
          (babyProfileGet w').2).1.
Proof.
  intros Hsub.
  assert (trim (babyBirthdate form) <> ""
          /\ (isPreterm (weeksOf (trim (babyGestationWeeks form))) = false
              \/ trim (babyDuedate form) <> "")) as [Hb Hd].
  { unfold profileSubmit in Hsub.
    destruct (String.eqb_spec (trim (babyBirthdate form)) "") as [|Hb]; [done|].
    split; [done|].
    destruct (isPreterm (weeksOf (trim (babyGestationWeeks form)))); [|by left].
    destruct (String.eqb_spec (trim (babyDuedate form)) "") as [|Hd]; [done|].
    by right. }
  destruct (profileSubmit_saved form w Hb Hd) as (np & w2 & Heq & H1 & H2 & H3).
  rewrite Heq in Hsub. injection Hsub as <- <-.
  unfold getProfileSafeAgeMonths, babyProfileGet, babyProfileSet.
  change (plainOrEmpty (JObj np)) with (JObj np).
  pose proof (setState_section_read "babyProfile" np
                (<["birthDate" := JNull]>
                 (<["gestationWeeks" := JNull]> (<["dueDate" := JNull]> ∅))) w2
                ltac:(discriminate) ltac:(discriminate) ltac:(reflexivity)) as Hsec.
  destruct (ensureState (setState _ w2).2) as [st w3]. cbn [fst snd] in *.
  rewrite Hsec.
  set (BM := mergeMap _ _).
  assert (BM !! "birthDate" = np !! "birthDate"
          /\ BM !! "gestationWeeks" = np !! "gestationWeeks"
          /\ BM !! "dueDate" = np !! "dueDate") as (B1 & B2 & B3).
  { unfold BM. rewrite H1, H2, H3.
    repeat split; apply mergeMap_leaf; try apply mergeMap_leaf; try done.
    all: try (by destruct (weeksOf _)).
    all: by destruct (String.eqb _ ""). }
  split.
  - by rewrite (getSafeAgeMonths_ext BM np).
  - rewrite (getSafeAgeMonths_ext BM (nextProfileOf (trim (babyBirthdate form))
                         (weeksOf (trim (babyGestationWeeks form)))
                         (trim (babyDuedate form)))); [done|..].
    + by rewrite B1, H1.
    + by rewrite B2, H2.
    + by rewrite B3, H3.
Qed.

End AppMoreFacts.

(** ** The lists of foods and recipes *)

Section FilterFacts.
Context `{Platform}.
Variable toLowerCase : string -> string.

Lemma filterRes_total {A} (p : A -> Res bool) (g : A -> bool) (l : list A) :
  (forall x, In x l -> p x = Ok (g x)) -> filterRes p l = Ok (List.filter g l).
Proof.
  induction l as [|x l IH]; intros Hp; [done|]. cbn [filterRes List.filter].
  rewrite (Hp x) by by left. rewrite IH by (intros y Hy; apply Hp; by right).
  reflexivity.
Qed.

Lemma filterRes_In {A} (p : A -> Res bool) (l r : list A) :
  filterRes p l = Ok r -> forall x, In x r <-> In x l /\ p x = Ok true.
Proof.
  revert r. induction l as [|y l IH]; intros r; cbn [filterRes].
  - intros [= <-] x. cbn. tauto.
  - destruct (p y) as [b|e] eqn:Hy; [|done].
    destruct (filterRes p l) as [r'|e]; [|done]. intros [= <-] x.
    specialize (IH r' eq_refl x). destruct b; cbn [In]; rewrite ?IH.
    + split; [intros [<-|[Hx Hp]]; auto|]. intros [[<-|Hx] Hp]; auto.
    + split; [intros [Hx Hp]; auto|]. intros [[<-|Hx] Hp]; [congruence|auto].
Qed.

Lemma foodListAge_spec (sm : Z) (range : option AgeRange) (f : JMap) :
  foodListAge sm range f = true
  <-> (forall n, toNumber (f !! "edad_minima") = Some n -> n <= sm)
      /\ (forall r, range = Some r ->
            exists n, toNumber (f !! "edad_minima") = Some n
                      /\ rangeMin r <= n < maxExclusive r).
Proof.
  unfold foodListAge, numGt, outsideRange.
  destruct (toNumber (f !! "edad_minima")) as [x|].
  - destruct (Z.ltb_spec sm x).
    + split; [done|]. intros [Hx _]. specialize (Hx x eq_refl). lia.
    + destruct range as [r|].
      * rewrite negb_involutive, andb_true_iff, Z.leb_le, Z.ltb_lt. split.
        -- intros Hr. split; [intros n [= <-]; lia|].
           intros r' [= <-]. exists x. split; [done|lia].
        -- intros [_ Hr]. destruct (Hr r eq_refl) as (n & [= <-] & Hn). lia.
      * split; [|done]. intros _. split; [intros n [= <-]; lia|done].
  - destruct range as [r|].
    + split; [done|]. intros [_ Hr]. by destruct (Hr r eq_refl) as (n & Hn & _).
    + split; [|done]. intros _. split; done.
Qed.

Lemma foodListAge_recipeListAge (sm : Z) (range : option AgeRange) (f : JMap) :
  foodListAge sm range f = recipeListAge sm range f.
Proof.
  unfold foodListAge, recipeListAge, numGt.
  destruct (toNumber (f !! "edad_minima")) as [x|]; [|done].
  by destruct (sm <? x).
Qed.

Lemma foodMatches_blank (f : JMap) : foodMatches toLowerCase "" f = Ok true.
Proof. reflexivity. Qed.

Lemma renderFoodList_eq (catalog : list JMap) (filterText ageFilter : string)
    (w : World) :
  renderFoodList toLowerCase catalog filterText ageFilter w
  = (match (getProfileSafeAgeMonths w).1 with
     | None => Ok []
     | Some sm =>
         filterRes (foodListed toLowerCase sm (parseAgeRange ageFilter)
                      (toLowerCase (trim filterText))) catalog
     end,
     (getProfileSafeAgeMonths (getProfileSafeAgeMonths w).2).2).
Proof.
  unfold renderFoodList, bind, lift, try, ret.
  destruct (getProfileSafeAgeMonths w) as [[sm|] w1]; cbn [fst snd];
    by destruct (getProfileSafeAgeMonths w1) as [x w2].
Qed.

(** X22.  [renderFoodList] lists nothing while the safe age is unknown.
    Otherwise every record it lists is in the catalog, has no minimum
    age above the safe age and, with a bracket chosen, has its minimum
    age in the bracket, whatever the search text.  With a blank search
    text the list is the catalog filtered by the age test alone, and
    without a bracket it then holds every food that the day form offers
    ([getAllowedFoodsBySafeAge]). *)
Theorem renderFoodList_safe (catalog : list JMap) (filterText ageFilter : string)
    (w : World) :
  ((getProfileSafeAgeMonths w).1 = None ->
     (renderFoodList toLowerCase catalog filterText ageFilter w).1 = Ok [])
  /\ (forall sm items,
        (getProfileSafeAgeMonths w).1 = Some sm ->
        (renderFoodList toLowerCase catalog filterText ageFilter w).1 = Ok items ->
        forall f, In f items ->
          In f catalog
          /\ (forall n, toNumber (f !! "edad_minima") = Some n -> n <= sm)
          /\ (forall r, parseAgeRange ageFilter = Some r ->
                exists n, toNumber (f !! "edad_minima") = Some n
                          /\ rangeMin r <= n < maxExclusive r))
  /\ (forall sm,
        (getProfileSafeAgeMonths w).1 = Some sm ->
        toLowerCase (trim filterText) = "" ->
        (renderFoodList toLowerCase catalog filterText ageFilter w).1
        = Ok (List.filter (foodListAge sm (parseAgeRange ageFilter)) catalog)
        /\ (parseAgeRange ageFilter = None ->
            forall f, In f (getAllowedFoodsBySafeAge catalog w).1 ->
                      In f (List.filter (foodListAge sm None) catalog))).
Proof.
  rewrite renderFoodList_eq. cbn [fst]. split; [by intros ->|]. split.
  - intros sm items -> Hf f Hin.
    apply (filterRes_In _ _ _ Hf) in Hin as [Hin Hp]. split; [done|].
    apply foodListAge_spec. unfold foodListed in Hp.
    by destruct (foodListAge sm (parseAgeRange ageFilter) f).
  - intros sm Hsm Hq. rewrite Hsm, Hq. split.
    + apply filterRes_total. intros f _. unfold foodListed.
      by destruct (foodListAge sm (parseAgeRange ageFilter) f).
    + intros Hr f. rewrite getAllowedFoodsBySafeAge_filter, Hsm. cbn [fst].
      rewrite !List.filter_In, numLe_spec. intros [Hin (n & Hn & Hle)].
      split; [done|]. apply foodListAge_safe. intros n'. rewrite Hn.
      intros [= <-]. done.
Qed.


Lemma isReaction_spec (v : JVal) :
  isReaction v = true <-> v = JStr "mild" \/ v = JStr "severe".
Proof.
  unfold isReaction, strictEq. destruct v as [| | |s| |]; try (split; [done|by intros [|]]).
  rewrite orb_true_iff. split.
  - intros [Hs|Hs]; apply String.eqb_eq in Hs; subst; auto.
  - intros [[= ->]|[= ->]]; auto.
Qed.

Lemma reactiveOf_obj (R : JMap) (a : string) :
  a ∈ reactiveOf (JObj R)
  <-> R !! a = Some (JStr "mild") \/ R !! a = Some (JStr "severe").
Proof.
  unfold reactiveOf. rewrite elem_of_dom. split.
  - intros [v Hv]. apply map_lookup_filter_Some in Hv as [Hv Hr].
    cbn in Hr. apply isReaction_spec in Hr as [->| ->]; auto.
  - intros [Ha|Ha]; eexists; apply map_lookup_filter_Some; (split; [exact Ha|done]).
Qed.

Lemma renderRecipeList_eq (loaded : option (list JMap)) (q ageFilter : string)
    (w : World) :
  renderRecipeList toLowerCase loaded q ageFilter true w
  = match getProfileSafeAgeMonths (getProfileSafeAgeMonths w).2 with
    | (None, w2) => (Ok RecipesHidden, w2)
    | (Some sm, w2) =>
        match allergensGetAll w2 with
        | (Throw e, w3) => (Throw e, w3)
        | (Ok statuses, w3) =>
            (Ok match loaded with
                | None => RecipesUnavailable
                | Some recipes =>
                    RecipesShown
                      (List.filter
                         (recipeListed toLowerCase sm (parseAgeRange ageFilter) q true
                            (reactiveOf statuses)) recipes)
                end, w3)
        end
    end.
Proof.
  unfold renderRecipeList, bind at 1, lift at 1.
  destruct (getProfileSafeAgeMonths w) as [x w1]. cbn [snd].
  unfold bind at 1, lift at 1.
  destruct (getProfileSafeAgeMonths w1) as [[sm|] w2]; [|done].
  unfold getReactiveAllergenIds, bind, ret.
  destruct (allergensGetAll w2) as [[statuses|e] w3]; [|done].
  by destruct loaded.
Qed.

(** X23.  With the box "exclude reactive" ticked, every recipe that
    [renderRecipeList] lists comes from the index, has no minimum age
    above the safe age, and names no allergen of the reactive set: on a
    registry object, no allergen whose status is "mild" or "severe". *)
Theorem renderRecipeList_excludes_reactive (loaded : option (list JMap))
    (q ageFilter : string) (w : World) (items : list JMap) (w' : World) :
  renderRecipeList toLowerCase loaded q ageFilter true w
  = (Ok (RecipesShown items), w') ->
  exists sm statuses recipes,
    (getProfileSafeAgeMonths (getProfileSafeAgeMonths w).2).1 = Some sm
    /\ (allergensGetAll (getProfileSafeAgeMonths (getProfileSafeAgeMonths w).2).2).1
       = Ok statuses
    /\ loaded = Some recipes
    /\ forall r, In r items ->
         In r recipes
         /\ (forall n, toNumber (r !! "edad_minima") = Some n -> n <= sm)
         /\ (forall a, In (JStr a) (arrayOrEmpty (r !! "alergenos")) ->
               a ∉ reactiveOf statuses)
         /\ (forall R a, statuses = JObj R ->
               In (JStr a) (arrayOrEmpty (r !! "alergenos")) ->
               R !! a <> Some (JStr "mild") /\ R !! a <> Some (JStr "severe")).
Proof.
  rewrite renderRecipeList_eq.
  destruct (getProfileSafeAgeMonths (getProfileSafeAgeMonths w).2) as [[sm|] w2];
    [|done]. cbn [fst snd].
  destruct (allergensGetAll w2) as [[statuses|e] w3]; [|done].
  destruct loaded as [recipes|]; [|done]. intros [= <- <-].
  exists sm, statuses, recipes. split; [done|]. split; [done|]. split; [done|].
  intros r Hin. apply List.filter_In in Hin as [Hin Hl]. split; [done|].
  unfold recipeListed in Hl.
  destruct (recipeListAge sm (parseAgeRange ageFilter) r) eqn:Hage; [|done].
  cbn [negb] in Hl.
  destruct (recipeMatchesIngredient toLowerCase r q); [|done]. cbn [negb andb] in Hl.
  destruct (existsb (setHas (reactiveOf statuses)) (arrayOrEmpty (r !! "alergenos")))
    eqn:Hex; [done|].
  assert (forall a, In (JStr a) (arrayOrEmpty (r !! "alergenos")) ->
                    a ∉ reactiveOf statuses) as Hnot.
  { intros a Ha Hre.
    assert (existsb (setHas (reactiveOf statuses)) (arrayOrEmpty (r !! "alergenos"))
            = true) as Hyes; [|congruence].
    apply List.existsb_exists. exists (JStr a). split; [done|].
    cbn [setHas]. by apply bool_decide_eq_true. }
  split.
  { assert (foodListAge sm (parseAgeRange ageFilter) r = true) as Hf.
    { by rewrite foodListAge_recipeListAge. }
    by apply foodListAge_spec in Hf as [Hf _]. }
  split; [exact Hnot|].
  intros R a -> Ha. specialize (Hnot a Ha). rewrite reactiveOf_obj in Hnot. tauto.
Qed.

(** X24.  The warning of the allergy view is shown exactly when the set
    of [getReactiveAllergenIds] is not empty: both read the registry for
    a status "mild" or "severe". *)
Theorem hasReaction_reactiveOf (R : JMap) :
  hasReaction (JObj R) = true <-> exists a, a ∈ reactiveOf (JObj R).
Proof.
  unfold hasReaction. rewrite List.existsb_exists. split.
  - intros ([a v] & Hin & Hr). exists a.
    apply list_elem_of_In, elem_of_map_to_list in Hin.
    cbn in Hr. apply isReaction_spec in Hr.
    apply reactiveOf_obj. destruct Hr as [-> | ->]; auto.
  - intros (a & Ha). apply reactiveOf_obj in Ha.
    destruct Ha as [Ha|Ha]; eexists (a, _);
      (split; [by apply list_elem_of_In, elem_of_map_to_list|]); done.
Qed.

End FilterFacts.

(** ** The age tests on JavaScript numbers *)

Section AgeFacts.
Context `{Platform}.
Variable stringToNum : string -> Num.

Lemma foodAge_spec (sm : Z) (range : option AgeRange) (age : Num) :
  foodAge sm range age = true
  <-> match age with
      | Fin n => n <= sm
                 /\ forall r, range = Some r -> rangeMin r <= n < maxExclusive r
      | PosInf => False
      | NegInf | NaN => range = None
      end.
Proof.
  unfold foodAge.
  destruct age as [| | |n]; cbn [gtNum isFiniteNum geNum ltNum negb andb].
  - destruct range; split; done.
  - split; done.
  - destruct range; split; done.
  - destruct (Z.ltb_spec sm n).
    + split; [done|]. intros [Hn _]. lia.
    + destruct range as [r|].
      * destruct (Z.leb_spec (rangeMin r) n), (Z.ltb_spec n (maxExclusive r));
          cbn [negb andb]; split; try done;
          try (intros _; split; [done|]; intros r' [= <-]; lia);
          intros [_ Hr]; specialize (Hr r eq_refl); lia.
      * split; [|done]. intros _. split; [done|]. intros r Hr. discriminate Hr.
Qed.

Lemma recipeAge_spec (sm : Z) (range : option AgeRange) (age : Num) :
  recipeAge sm range age = true
  <-> match age with
      | Fin n => n <= sm
                 /\ forall r, range = Some r -> rangeMin r <= n < maxExclusive r
      | PosInf | NegInf | NaN => range = None
      end.
Proof.
  unfold recipeAge.
  destruct age as [| | |n]; cbn [gtNum isFiniteNum geNum ltNum negb andb].
  - destruct range; split; done.
  - destruct range; split; done.
  - destruct range; split; done.
  - destruct (Z.ltb_spec sm n).
    + split; [done|]. intros [Hn _]. lia.
    + destruct range as [r|].
      * destruct (Z.leb_spec (rangeMin r) n), (Z.ltb_spec n (maxExclusive r));
          cbn [negb andb]; split; try done;
          try (intros _; split; [done|]; intros r' [= <-]; lia);
          intros [_ Hr]; specialize (Hr r eq_refl); lia.
      * split; [|done]. intros _. split; [done|]. intros r Hr. discriminate Hr.
Qed.

Lemma parseAgeRange_spec (value : string) (r : AgeRange) :
  parseAgeRange value = Some r
  <-> (value = "6-7" /\ r = {| rangeMin := 6; maxExclusive := 8 |})
      \/ (value = "7-8" /\ r = {| rangeMin := 7; maxExclusive := 9 |})
      \/ (value = "8-9" /\ r = {| rangeMin := 8; maxExclusive := 10 |})
      \/ (value = "9-12" /\ r = {| rangeMin := 9; maxExclusive := 13 |}).
Proof.
  unfold parseAgeRange. split.
  - destruct (String.eqb_spec value "6-7") as [->|_];
      [intros [= <-]; left; done|].
    destruct (String.eqb_spec value "7-8") as [->|_];
      [intros [= <-]; right; left; done|].
    destruct (String.eqb_spec value "8-9") as [->|_];
      [intros [= <-]; right; right; left; done|].
    destruct (String.eqb_spec value "9-12") as [->|_];
      [intros [= <-]; right; right; right; done|].
    intros Hn. discriminate Hn.
  - intros [[-> ->]|[[-> ->]|[[-> ->]|[-> ->]]]]; reflexivity.
Qed.

Lemma parseAgeRange_none (value : string) :
  parseAgeRange value = None
  <-> value <> "6-7" /\ value <> "7-8" /\ value <> "8-9" /\ value <> "9-12".
Proof.
  unfold parseAgeRange. split.
  - destruct (String.eqb_spec value "6-7"); [intros Hn; discriminate Hn|].
    destruct (String.eqb_spec value "7-8"); [intros Hn; discriminate Hn|].
    destruct (String.eqb_spec value "8-9"); [intros Hn; discriminate Hn|].
    destruct (String.eqb_spec value "9-12"); [intros Hn; discriminate Hn|].
    done.
  - intros (H1 & H2 & H3 & H4).
    destruct (String.eqb_spec value "6-7"); [done|].
    destruct (String.eqb_spec value "7-8"); [done|].
    destruct (String.eqb_spec value "8-9"); [done|].
    destruct (String.eqb_spec value "9-12"); [done|]. reflexivity.
Qed.

(** Where the conversion to a number is finite or [NaN], or a bracket is
    chosen, the tests on [toNumber] are the tests of the lists. *)
Lemma foodListAge_finite (sm : Z) (range : option AgeRange) (f : JMap) :
  (forall s, finite (stringToNum s) = stringToNumber s) ->
  toNumber (f !! "edad_minima") = finite (toNum stringToNum (f !! "edad_minima"))
  /\ recipeListAge sm range f = recipeListAgeNum stringToNum sm range f
  /\ (toNum stringToNum (f !! "edad_minima") = PosInf /\ range = None
      \/ foodListAge sm range f = foodListAgeNum stringToNum sm range f).
Proof.
  intros Hstr.
  assert (toNumber (f !! "edad_minima")
          = finite (toNum stringToNum (f !! "edad_minima"))) as Hnum.
  { destruct (f !! "edad_minima") as [[]|]; cbn [toNumber toNum finite];
      by rewrite ?Hstr. }
  split; [exact Hnum|].
  unfold recipeListAge, foodListAge, recipeListAgeNum, foodListAgeNum,
    recipeAge, foodAge, numGt, outsideRange.
  rewrite Hnum.
  destruct (toNum stringToNum (f !! "edad_minima")) as [| | |n];
    cbn [finite gtNum isFiniteNum geNum ltNum negb andb].
  - split; [by destruct range|right; by destruct range].
  - split; [by destruct range|]. destruct range; [by right|by left].
  - split; [by destruct range|right; by destruct range].
  - destruct (sm <? n); [split; [done|by right]|].
    destruct range as [r|]; [|split; [done|by right]].
    destruct (rangeMin r <=? n), (n <? maxExclusive r); split; try done; by right.
Qed.

(** X21.  The age tests of the food list and of the recipe list, on the
    minimum age of a record converted with [Number].  A finite age
    passes either test when it is at most the safe age and, with an age
    bracket chosen, lies inside the bracket.  An age that is [NaN] or
    [-Infinity] passes either test exactly when no bracket is chosen.
    An age of [+Infinity] never passes the test of the food list, and
    passes the test of the recipe list, which guards the comparison with
    [Number.isFinite], when no bracket is chosen: the two tests differ
    there and nowhere else.  The selector gives a bracket for its four
    labels, 6 to 8, 7 to 9, 8 to 10 and 9 to 13 months with the upper
    bound left out, and none for any other value. *)
Theorem list_age_filters (sm : Z) (range : option AgeRange) (f : JMap) :
  (foodListAgeNum stringToNum sm range f = true
   <-> match toNum stringToNum (f !! "edad_minima") with
       | Fin n => n <= sm
                  /\ forall r, range = Some r -> rangeMin r <= n < maxExclusive r
       | PosInf => False
       | NegInf | NaN => range = None
       end)
  /\ (recipeListAgeNum stringToNum sm range f = true
      <-> match toNum stringToNum (f !! "edad_minima") with
          | Fin n => n <= sm
                     /\ forall r, range = Some r -> rangeMin r <= n < maxExclusive r
          | PosInf | NegInf | NaN => range = None
          end)
  /\ (foodListAgeNum stringToNum sm range f <> recipeListAgeNum stringToNum sm range f
      <-> toNum stringToNum (f !! "edad_minima") = PosInf /\ range = None)
  /\ (toNum stringToNum (f !! "edad_minima") = PosInf -> range = None ->
      foodListAgeNum stringToNum sm range f = false
      /\ recipeListAgeNum stringToNum sm range f = true)
  /\ (forall value r,
        parseAgeRange value = Some r
        <-> (value = "6-7" /\ r = {| rangeMin := 6; maxExclusive := 8 |})
            \/ (value = "7-8" /\ r = {| rangeMin := 7; maxExclusive := 9 |})
            \/ (value = "8-9" /\ r = {| rangeMin := 8; maxExclusive := 10 |})
            \/ (value = "9-12" /\ r = {| rangeMin := 9; maxExclusive := 13 |}))
  /\ (forall value,
        parseAgeRange value = None
        <-> value <> "6-7" /\ value <> "7-8" /\ value <> "8-9" /\ value <> "9-12").
Proof.
  unfold foodListAgeNum, recipeListAgeNum.
  split; [apply foodAge_spec|]. split; [apply recipeAge_spec|].
  split; [|split; [|split; [apply parseAgeRange_spec|apply parseAgeRange_none]]].
  - destruct (foodAge sm range _) eqn:Hf, (recipeAge sm range _) eqn:Hr.
    + split; [done|]. intros [Hinf _].
      apply foodAge_spec in Hf. by rewrite Hinf in Hf.
    + apply foodAge_spec in Hf. apply not_true_iff_false in Hr.
      rewrite recipeAge_spec in Hr.
      destruct (toNum stringToNum (f !! "edad_minima")); done.
    + apply recipeAge_spec in Hr. apply not_true_iff_false in Hf.
      rewrite foodAge_spec in Hf. split; [intros _|done].
      destruct (toNum stringToNum (f !! "edad_minima")); done.
    + split; [done|]. intros [Hinf ->]. apply not_true_iff_false in Hr.
      rewrite recipeAge_spec, Hinf in Hr. done.
  - intros Hinf ->. split.
    + apply not_true_iff_false. rewrite foodAge_spec, Hinf. tauto.
    + apply recipeAge_spec. by rewrite Hinf.
Qed.

End AgeFacts.

(** ** Escaping, the calendar and the icons of a day *)

Lemma append_cons (x : Ascii.ascii) (a b : string) :
  String x a +:+ b = String x (a +:+ b).
Proof. reflexivity. Qed.

Lemma append_assoc (a b c : string) : (a +:+ b) +:+ c = a +:+ (b +:+ c).
Proof.
  induction a as [|x a IH]; [done|]. by rewrite !append_cons, IH.
Qed.

Lemma replaceAll_app (c : Ascii.ascii) (r s1 s2 : string) :
  replaceAll c r (s1 +:+ s2) = replaceAll c r s1 +:+ replaceAll c r s2.
Proof.
  induction s1 as [|a s1 IH]; [done|]. rewrite append_cons. cbn [replaceAll].
  rewrite IH. destruct (Ascii.eqb a c); [|done].
  by rewrite append_assoc.
Qed.

Lemma occurs_app (c : Ascii.ascii) (s1 s2 : string) :
  occurs c (s1 +:+ s2) = occurs c s1 || occurs c s2.
Proof.
  induction s1 as [|a s1 IH]; [done|]. rewrite append_cons. cbn [occurs].
  by rewrite IH, orb_assoc.
Qed.

Lemma replaceAll_absent (c : Ascii.ascii) (r s : string) :
  occurs c s = false -> replaceAll c r s = s.
Proof.
  induction s as [|a s IH]; [done|]. cbn [occurs replaceAll].
  intros [Ha Hs]%orb_false_iff. by rewrite Ha, IH.
Qed.

Lemma escapeChars_replaceAll (s : string) :
  replaceAll chApos "&#039;"
    (replaceAll chQuot "&quot;"
       (replaceAll chGt "&gt;"
          (replaceAll chLt "&lt;" (replaceAll chAmp "&amp;" s))))
  = escapeChars s.
Proof.
  induction s as [|a s IH]; [done|]. cbn [escapeChars]. rewrite <- IH.
  rewrite <- (append_cons a EmptyString s : String a EmptyString +:+ s = String a s).
  rewrite !replaceAll_app. f_equal. unfold escapeChar. cbn [replaceAll].
  destruct (Ascii.eqb_spec a chAmp) as [->|_]; [reflexivity|]. cbn [replaceAll].
  destruct (Ascii.eqb_spec a chLt) as [->|_]; [reflexivity|]. cbn [replaceAll].
  destruct (Ascii.eqb_spec a chGt) as [->|_]; [reflexivity|]. cbn [replaceAll].
  destruct (Ascii.eqb_spec a chQuot) as [->|_]; [reflexivity|]. cbn [replaceAll].
  destruct (Ascii.eqb_spec a chApos) as [->|_]; reflexivity.
Qed.

Lemma escapeChar_clean (a c : Ascii.ascii) :
  c = chLt \/ c = chGt \/ c = chQuot \/ c = chApos ->
  occurs c (escapeChar a) = false.
Proof.
  intros Hc. unfold escapeChar.
  destruct (Ascii.eqb_spec a chAmp) as [->|_];
    [destruct Hc as [->|[->|[->| ->]]]; reflexivity|].
  destruct (Ascii.eqb_spec a chLt) as [->|H1];
    [destruct Hc as [->|[->|[->| ->]]]; reflexivity|].
  destruct (Ascii.eqb_spec a chGt) as [->|H2];
    [destruct Hc as [->|[->|[->| ->]]]; reflexivity|].
  destruct (Ascii.eqb_spec a chQuot) as [->|H3];
    [destruct Hc as [->|[->|[->| ->]]]; reflexivity|].
  destruct (Ascii.eqb_spec a chApos) as [->|H4];
    [destruct Hc as [->|[->|[->| ->]]]; reflexivity|].
  cbn [occurs]. rewrite orb_false_r.
  destruct (Ascii.eqb_spec a c) as [->|]; [|done].
  destruct Hc as [->|[->|[->| ->]]]; done.
Qed.

Section EscapeFacts.
Context `{Platform}.

(** X25.  [escapeHtml] replaces each of the five characters by its
    entity and leaves the other characters alone: the five successive
    [replaceAll] do not interfere, because the ampersand is replaced
    first.  The result holds no [<], no [>], no double quote and no
    apostrophe; a text without the five characters is returned as it
    is. *)
Theorem escapeHtml_no_markup (value : JOpt) :
  escapeHtml value = escapeChars (stringOf value)
  /\ occurs chLt (escapeHtml value) = false
  /\ occurs chGt (escapeHtml value) = false
  /\ occurs chQuot (escapeHtml value) = false
  /\ occurs chApos (escapeHtml value) = false
  /\ (occurs chAmp (stringOf value) = false ->
      occurs chLt (stringOf value) = false ->
      occurs chGt (stringOf value) = false ->
      occurs chQuot (stringOf value) = false ->
      occurs chApos (stringOf value) = false ->
      escapeHtml value = stringOf value).
Proof.
  assert (forall s c, c = chLt \/ c = chGt \/ c = chQuot \/ c = chApos ->
                      occurs c (escapeChars s) = false) as Hclean.
  { intros s c Hc. induction s as [|a s IH]; [done|]. cbn [escapeChars].
    by rewrite occurs_app, escapeChar_clean, IH. }
  unfold escapeHtml. rewrite escapeChars_replaceAll.
  split; [done|]. repeat (split; [apply Hclean; tauto|]).
  intros H0 H1 H2 H3 H4. rewrite <- escapeChars_replaceAll.
  rewrite (replaceAll_absent chAmp) by done.
  rewrite (replaceAll_absent chLt) by done.
  rewrite (replaceAll_absent chGt) by done.
  rewrite (replaceAll_absent chQuot) by done.
  by rewrite (replaceAll_absent chApos).
Qed.

End EscapeFacts.

(** X26.  The buttons of the calendar keep the month index within 0..11
    and move by exactly one month, carrying into the year in January and
    December; "next" after "previous", and "previous" after "next", give
    back the month shown. *)
Theorem calendar_navigation (s : MonthState) :
  0 <= monthIndex s <= 11 ->
  0 <= monthIndex (calPrev s) <= 11
  /\ 0 <= monthIndex (calNext s) <= 11
  /\ calNext (calPrev s) = s
  /\ calPrev (calNext s) = s
  /\ year (calPrev s) * 12 + monthIndex (calPrev s) = year s * 12 + monthIndex s - 1
  /\ year (calNext s) * 12 + monthIndex (calNext s) = year s * 12 + monthIndex s + 1.
Proof.
  destruct s as [y m]. cbn [monthIndex year]. intros Hm.
  unfold calPrev, calNext. cbn [monthIndex year].
  destruct (Z.ltb_spec (m - 1) 0), (Z.ltb_spec 11 (m + 1)); cbn [monthIndex year];
    repeat split; try lia.
  all: repeat match goal with
              | |- context [?a <? ?b] => destruct (Z.ltb_spec a b)
              end; cbn [monthIndex year]; try lia; f_equal; lia.
Qed.

Section DayFacts.
Context `{Platform}.

Lemma dayFlags_fold (entries : list JVal) (fl : DayFlags) :
  fold_left
    (fun fl e =>
       {| hasFood := true;
          hasWarn := if strictEq (prop e "reaction") (Some (JStr "disliked"))
                     then true else hasWarn fl;
          hasLove := if strictEq (prop e "reaction") (Some (JStr "liked"))
                     then true else hasLove fl |})
    entries fl
  = {| hasFood := match entries with [] => hasFood fl | _ :: _ => true end;
       hasWarn := existsb (reacted "disliked") entries || hasWarn fl;
       hasLove := existsb (reacted "liked") entries || hasLove fl |}.
Proof.
  revert fl. induction entries as [|e l IH]; intros fl; [by destruct fl|].
  cbn [fold_left existsb]. rewrite IH. cbn [hasFood hasWarn hasLove].
  unfold reacted. f_equal.
  - by destruct l.
  - destruct (strictEq (prop e "reaction") (Some (JStr "disliked")));
      by rewrite ?orb_true_r.
  - destruct (strictEq (prop e "reaction") (Some (JStr "liked")));
      by rewrite ?orb_true_r.
Qed.

(** X27.  [getDayIcons] returns the empty string for a day without
    entries.  For a day with entries it shows the food icon, the warning
    icon exactly when some entry of that day has the reaction
    "disliked", and the heart exactly when some entry has the reaction
    "liked".  The entries it looks at are those whose [date] is the
    day. *)
Theorem getDayIcons_flags (dateStr : string) (w : World) (entries : list JVal)
    (w' : World) :
  getEntriesForDate dateStr w = (Ok entries, w') ->
  getDayIcons dateStr w
  = (Ok (match entries with
         | [] => ""
         | _ :: _ =>
             trim ("🥦"
                   +:+ (if existsb (reacted "disliked") entries then " ⚠️" else "")
                   +:+ (if existsb (reacted "liked") entries then " ❤️" else ""))
         end), w')
  /\ Forall (fun e => onDate dateStr e = true) entries.
Proof.
  intros Hent. split.
  - unfold getDayIcons, bind at 1. rewrite Hent.
    destruct entries as [|e l]; [done|]. unfold ret, dayFlags.
    rewrite dayFlags_fold. cbn [hasFood hasWarn hasLove]. by rewrite !orb_false_r.
  - unfold getEntriesForDate, bind, ret in Hent.
    destruct (getDiaryEntries w) as [[es|e] w1]; [|done].
    injection Hent as <- <-. apply Forall_forall. intros e He.
    by apply list_elem_of_In, List.filter_In in He as [_ He].
Qed.

End DayFacts.

(** ** Saving and deleting from the day modal *)

Section SaveFacts.
Context `{Platform}.

Lemma buildEntry_fields (dateStr : string) (editing : JOpt) (form : DayForm)
    (foodId : string) (w : World) :
  exists em,
    (buildEntry dateStr editing form foodId w).1 = JObj em
    /\ em !! "id" = Some (JStr (orElse (trim (dayEntryId form)) (makeId w)))
    /\ em !! "date" = Some (JStr dateStr)
    /\ em !! "foodId" = Some (JStr foodId)
    /\ truthy (em !! "id") = true.
Proof.
  unfold buildEntry.
  destruct (match match editing with
                  | Some e => prop e "createdAt"
                  | None => None
                  end with
            | Some c => _
            | None => _
            end) as [createdAt w1].
  cbv beta iota zeta. cbn [fst].
  eexists. split; [reflexivity|]. rewrite lookup_insert_eq.
  split; [reflexivity|]. split; [reflexivity|]. split; [reflexivity|].
  cbn [truthy]. unfold orElse, makeId.
  destruct (String.eqb_spec (trim (dayEntryId form)) "") as [_|Hne].
  - apply negb_true_iff. destruct (String.eqb_spec (randomUUID (tick w)) "")
      as [He|]; [by apply randomUUID_nonempty in He|done].
  - by destruct (String.eqb_spec (trim (dayEntryId form)) "").
Qed.

Lemma upsertEntry_eq (w : World) (em : JMap) :
  truthy (em !! "id") = true ->
  prop (ensureState w).1 "diary" <> Some JNull ->
  upsertEntry (JObj em) w
  = (Ok (setState (diaryPartial (upsertList (entriesOf (ensureState w).1) (JObj em)))
           (ensureState w).2).1,
     (setState (diaryPartial (upsertList (entriesOf (ensureState w).1) (JObj em)))
        (ensureState w).2).2).
Proof.
  intros Hid Hnull. unfold upsertEntry, bind, lift, try.
  pose proof (currentEntries_entriesOf _ Hnull (ensureState_diary w)) as Hcur.
  destruct (ensureState w) as [current w1]. cbn [fst snd] in *.
  rewrite Hcur. cbn [truthy typeofObject negb orb prop]. rewrite Hid.
  cbn [negb]. by destruct (setState _ w1).
Qed.

Lemma upsertEntry_null (w : World) (entry : JVal) :
  prop (ensureState w).1 "diary" = Some JNull ->
  upsertEntry entry w = (Throw TypeError, (ensureState w).2).
Proof.
  intros Hnull. unfold upsertEntry, bind, lift, try.
  destruct (ensureState w) as [current w1]. cbn [fst snd] in *.
  unfold currentEntries. by rewrite Hnull.
Qed.

Lemma In_upsertList (entries : list JVal) (entry : JVal) :
  In entry (upsertList entries entry).
Proof.
  unfold upsertList. destruct (findIndex _ _) as [idx|]; apply in_or_app; right;
    by left.
Qed.

(** X28.  When the handler of "Guardar" saves, the entry carries the
    date of the modal and the non-empty food of the form, the gate was
    open with a safe age that the food does not exceed in the catalog,
    and the entry is among the entries that [getEntriesForDate] then
    returns for that date, and among those of no other date. *)
Theorem daySave_entry_listed (catalog : list JMap) (dateStr : string) (editing : JOpt)
    (form : DayForm) (w : World) (entry : JVal) (w' : World) :
  daySave catalog dateStr editing form w = (Ok (Guardado entry), w') ->
  prop entry "date" = Some (JStr dateStr)
  /\ prop entry "foodId" = Some (JStr (trim (dayFood form)))
  /\ trim (dayFood form) <> ""
  /\ (exists sm, (ensureCalendarAllowedOrExplain w).1 = Ok (GateOk sm)
                 /\ ~ aboveSafeAge catalog (trim (dayFood form)) sm)
  /\ (exists es, (getEntriesForDate dateStr w').1 = Ok es /\ In entry es)
  /\ (forall other es, other <> dateStr ->
        (getEntriesForDate other w').1 = Ok es -> ~ In entry es).
Proof.
  rewrite daySave_eq.
  destruct (ensureCalendarAllowedOrExplain w) as [[[missing| |sm]|e] w1]; try done.
  destruct (String.eqb_spec (trim (dayFood form)) "") as [|Hfood]; [done|].
  destruct (outOfRange _ sm) eqn:Hout; [done|].
  destruct (buildEntry_fields dateStr editing form (trim (dayFood form)) w1)
    as (em & Hem & Hid & Hdate & Hfid & Htr).
  set (built := buildEntry dateStr editing form (trim (dayFood form)) w1) in *.
  rewrite Hem.
  destruct (ensureState_diary built.2) as [d Hd].
  assert (d = JNull \/ d <> JNull) as [->|Hnn]
    by (destruct d; (by left) || (by right)).
  { rewrite upsertEntry_null by exact Hd. intros Hx; discriminate Hx. }
  rewrite upsertEntry_eq; [|exact Htr|congruence]. intros Heq.
  pose proof (f_equal snd Heq) as Hw. cbn [snd] in Hw.
  pose proof (f_equal fst Heq) as He. cbn [fst] in He.
  injection He as He. clear Heq. subst entry w'.
  split; [exact Hdate|]. split; [exact Hfid|]. split; [exact Hfood|]. split.
  { exists sm. split; [reflexivity|]. intros Habove.
    apply outOfRange_spec in Habove. congruence. }
  assert (forall d', (getEntriesForDate d' (setState (diaryPartial
              (upsertList (entriesOf (ensureState built.2).1) (JObj em)))
              (ensureState built.2).2).2).1
            = Ok (List.filter (onDate d')
                    (upsertList (entriesOf (ensureState built.2).1) (JObj em))))
    as Hget.
  { intros d'. unfold getEntriesForDate, bind, ret.
    pose proof (getDiaryEntries_after
                  (upsertList (entriesOf (ensureState built.2).1) (JObj em))
                  (ensureState built.2).2) as Hafter.
    destruct (getDiaryEntries _) as [r w3]. cbn [fst] in *. by rewrite Hafter. }
  split.
  - eexists. split; [apply Hget|]. apply List.filter_In.
    split; [apply In_upsertList|]. unfold onDate. cbn [truthy typeofObject prop andb].
    rewrite Hdate. cbn [strictEq]. apply String.eqb_refl.
  - intros other es Hne. rewrite Hget. intros [= <-] Hin.
    apply List.filter_In in Hin as [_ Hon]. unfold onDate in Hon.
    cbn [truthy typeofObject prop andb] in Hon. rewrite Hdate in Hon.
    cbn [strictEq] in Hon. apply String.eqb_eq in Hon. congruence.
Qed.

(** X29.  The handler of "Borrar" does nothing, not even a read, when
    the id is empty or the caregiver declines.  Otherwise, on a store
    whose diary is not [null], the diary read afterwards is the diary
    before without the entries of that id, and no entry left carries that
    id. *)
Theorem dayDelete_confirmed (id : string) (confirmed : bool) (w : World) :
  (confirmed = false \/ id = "" -> dayDelete id confirmed w = (Ok None, w))
  /\ (confirmed = true -> id <> "" ->
      prop (getState w).1 "diary" <> Some JNull ->
      exists st w',
        dayDelete id confirmed w = (Ok (Some st), w')
        /\ (getDiaryEntries w').1
           = Ok (List.filter (fun e => negb (hasId (Some (JStr id)) e))
                   (entriesOf (getState w).1))
        /\ forall e, In e (entriesOf st) -> prop e "id" <> Some (JStr id)).
Proof.
  split.
  - intros [-> | ->]; unfold dayDelete; [|done].
    by destruct (String.eqb id "").
  - intros -> Hid Hnull. unfold dayDelete.
    destruct (String.eqb_spec id "") as [|_]; [done|]. cbn [negb].
    unfold getState in *. unfold bind at 1, deleteEntry.
    rewrite (diary_rewrite
               (fun entries => List.filter (fun e => negb (hasId (Some (JStr id)) e)) entries))
      by done.
    eexists _, _. split; [reflexivity|].
    rewrite getDiaryEntries_after, setState_entries. split; [done|].
    intros e [_ He]%List.filter_In. apply negb_true_iff in He.
    unfold hasId in He. intros Heq.
    destruct e as [| | | | |m]; try discriminate Heq.
    rewrite Heq in He. cbn in He. by rewrite String.eqb_refl in He.
Qed.

End SaveFacts.

(** ** The save handler from end to end *)

Section SaveChain.
Context `{Platform}.

Lemma getSafeAgeMonths_storage (profile : JOpt) (w : World) :
  storage (getSafeAgeMonths profile w).2 = storage w.
Proof.
  unfold getSafeAgeMonths. destruct profile as [p|]; [|reflexivity].
  destruct (negb (truthy (Some p)) || negb (typeofObject (Some p))); [reflexivity|].
  destruct (parseDateInput (prop p "birthDate")); reflexivity.
Qed.

Lemma getProfileSafeAgeMonths_storage (w : World) :
  storage (getProfileSafeAgeMonths w).2 = storage (ensureState w).2.
Proof.
  unfold getProfileSafeAgeMonths, babyProfileGet.
  destruct (ensureState w) as [st w1]. cbn [snd]. apply getSafeAgeMonths_storage.
Qed.

Lemma ensureState_storage (w : World) :
  hasState w = true -> storage (ensureState w).2 = storage w.
Proof. intros Hs. by rewrite ensureState_present. Qed.

(** C1, as the code has it.  The handler of "Guardar" evaluates, in this
    order and stopping at the first failure: the milestone gate (modal
    "Registro bloqueado", MilestonesIncomplete), the safe age ("Falta
    perfil", ProfileIncomplete), the food reference of the form, which
    must not be empty ("Falta dato", ValidationError), and the age of the
    food, which fails only when the id resolves in the catalog to a
    minimum age that is a number above the safe age ("Fuera de rango",
    FoodIneligible).  A save that fails at one of the four tests stops
    there: it returns in the world of the last test made, and
    [localStorage] holds what the first read of the state left, which
    is what it held before when a state was stored.  A food id that
    does not resolve passes the last test; the handler then returns in
    the world of [upsertEntry] on the entry built from the form, the
    stored state is the one [upsertEntry] returned and the entry is
    among the entries read back. *)
Theorem daySave_chain (catalog : list JMap) (dateStr : string) (editing : JOpt)
    (form : DayForm) (w w1 : World) :
  (isComplete w = (Ok false, w1) ->
     daySave catalog dateStr editing form w
     = (Ok (RegistroBloqueado (missingMilestones (milestonesGetAll w1).1)),
        (milestonesGetAll w1).2)
     /\ storage (milestonesGetAll w1).2 = storage (getState w).2)
  /\ (isComplete w = (Ok true, w1) ->
      (getProfileSafeAgeMonths w1).1 = None ->
      daySave catalog dateStr editing form w
      = (Ok FaltaPerfil, (getProfileSafeAgeMonths w1).2)
      /\ storage (getProfileSafeAgeMonths w1).2
         = storage (getState w).2)
  /\ (forall sm w2,
        isComplete w = (Ok true, w1) ->
        getProfileSafeAgeMonths w1 = (Some sm, w2) ->
        storage w2 = storage (getState w).2
        /\ (trim (dayFood form) = "" ->
            daySave catalog dateStr editing form w = (Ok FaltaDato, w2))
        /\ (trim (dayFood form) <> "" ->
            aboveSafeAge catalog (trim (dayFood form)) sm ->
            daySave catalog dateStr editing form w = (Ok FueraDeRango, w2))
        /\ (trim (dayFood form) <> "" ->
            ~ aboveSafeAge catalog (trim (dayFood form)) sm ->
            prop (ensureState (buildEntry dateStr editing form
                                 (trim (dayFood form)) w2).2).1 "diary"
            <> Some JNull ->
            exists st w',
              daySave catalog dateStr editing form w
              = (Ok (Guardado (buildEntry dateStr editing form
                                 (trim (dayFood form)) w2).1), w')
              /\ upsertEntry (buildEntry dateStr editing form
                                (trim (dayFood form)) w2).1
                   (buildEntry dateStr editing form (trim (dayFood form)) w2).2
                 = (Ok st, w')
              /\ In (buildEntry dateStr editing form (trim (dayFood form)) w2).1
                   (entriesOf st)
              /\ getItem STATE_KEY w' = Some (Json st)
              /\ (getDiaryEntries w').1 = Ok (entriesOf st)))
  /\ (hasState w = true -> storage (getState w).2 = storage w).
Proof.
  assert (forall b, isComplete w = (Ok b, w1) -> w1 = (ensureState w).2) as Hw1.
  { intros b. rewrite isComplete_eq. by intros [= _ <-]. }
  destruct (ensureState_stable w) as [Hs1 _].
  unfold getState.
  rewrite daySave_eq, ensureCalendarAllowedOrExplain_eq.
  split; [|split; [|split]].
  - intros Hc. rewrite Hc. split; [reflexivity|].
    rewrite (Hw1 _ Hc), <- (ensureState_storage _ Hs1). unfold milestonesGetAll.
    by destruct (ensureState (ensureState w).2).
  - intros Hc Hage. rewrite Hc. split.
    + by destruct (getProfileSafeAgeMonths w1) as [[sm|] w2].
    + rewrite (Hw1 _ Hc), <- (ensureState_storage _ Hs1).
      apply getProfileSafeAgeMonths_storage.
  - intros sm w2 Hc Hage. rewrite Hc, Hage. split.
    { rewrite (Hw1 _ Hc) in Hage.
      pose proof (getProfileSafeAgeMonths_storage (ensureState w).2) as Hst.
      rewrite Hage, (ensureState_storage _ Hs1) in Hst. exact Hst. }
    split; [by intros ->|]. split.
    + intros Hfood Habove.
      destruct (String.eqb_spec (trim (dayFood form)) ""); [done|].
      apply outOfRange_spec in Habove. by rewrite Habove.
    + intros Hfood Habove Hnull.
      destruct (String.eqb_spec (trim (dayFood form)) ""); [done|].
      destruct (outOfRange _ sm) eqn:Hout; [by apply outOfRange_spec in Hout|].
      destruct (buildEntry_fields dateStr editing form (trim (dayFood form)) w2)
        as (em & Hem & Hid & Hdate & Hfid & Htr).
      set (built := buildEntry dateStr editing form (trim (dayFood form)) w2) in *.
      rewrite Hem in *. rewrite upsertEntry_eq; [|exact Htr|exact Hnull].
      eexists _, _. split; [reflexivity|]. split; [reflexivity|].
      rewrite setState_entries. split; [apply In_upsertList|].
      split; [apply setState_persisted|apply getDiaryEntries_after].
  - intros Hs. by apply ensureState_storage.
Qed.

End SaveChain.

(** Honey, from 12 months, is turned down at a safe age of 7 months, and
    the store is left as it was. *)
Lemma daySave_chain_witness :
  isComplete (H := browser) readyWorld
  = (Ok true, (isComplete (H := browser) readyWorld).2)
  /\ getProfileSafeAgeMonths (H := browser) (isComplete (H := browser) readyWorld).2
     = (Some 7,
        (getProfileSafeAgeMonths (H := browser)
           (isComplete (H := browser) readyWorld).2).2)
  /\ trim (Platform := browser) (dayFood (blankForm "miel")) <> ""
  /\ aboveSafeAge (H := browser) [aguacate; miel]
       (trim (Platform := browser) (dayFood (blankForm "miel"))) 7
  /\ hasState readyWorld = true
  /\ daySave (H := browser) [aguacate; miel] "2024-08-10" None
       (blankForm "miel") readyWorld
     = (Ok FueraDeRango,
        (getProfileSafeAgeMonths (H := browser)
           (isComplete (H := browser) readyWorld).2).2)
  /\ storage (getProfileSafeAgeMonths (H := browser)
                (isComplete (H := browser) readyWorld).2).2
     = storage readyWorld.
Proof.
  assert (isComplete (H := browser) readyWorld
          = (Ok true, (isComplete (H := browser) readyWorld).2)) as Hgate
    by (vm_compute; reflexivity).
  assert (getProfileSafeAgeMonths (H := browser)
            (isComplete (H := browser) readyWorld).2
          = (Some 7,
             (getProfileSafeAgeMonths (H := browser)
                (isComplete (H := browser) readyWorld).2).2)) as Hage
    by (vm_compute; reflexivity).
  assert (trim (Platform := browser) (dayFood (blankForm "miel")) <> "") as Hfood
    by (vm_compute; discriminate).
  assert (aboveSafeAge (H := browser) [aguacate; miel]
            (trim (Platform := browser) (dayFood (blankForm "miel"))) 7) as Habove.
  { exists miel, 12. split; [reflexivity|]. split; [reflexivity|lia]. }
  assert (hasState readyWorld = true) as Hs by (vm_compute; reflexivity).
  split; [exact Hgate|]. split; [exact Hage|]. split; [exact Hfood|].
  split; [exact Habove|]. split; [exact Hs|].
  destruct (daySave_chain (H := browser) [aguacate; miel] "2024-08-10" None
              (blankForm "miel") readyWorld
              (isComplete (H := browser) readyWorld).2) as (_ & _ & Hchain & Hread).
  destruct (Hchain 7 _ Hgate Hage) as (Hst & _ & Hout & _).
  split; [exact (Hout Hfood Habove)|].
  exact (eq_trans Hst (Hread Hs)).
Defined.

(** ** The service worker *)

Section ServiceWorkerFacts.
Context `{Platform}.


Section Batches.
Variable foodBatch recipeBatch : nat -> bool.


End Batches.
End ServiceWorkerFacts.

(** ** Examples *)

(** The history of the first version, one banana entry, becomes the diary. *)
Lemma legacy_history_migrated_witness :
  hasState legacyWorld = false
  /\ getItem LEGACY_HISTORY_KEY legacyWorld = Some (Json (JArr [JObj bananaEntry]))
  /\ entriesOf (getState (H := browser) legacyWorld).1 = [JObj bananaEntry].
Proof.
  assert (hasState legacyWorld = false) as Hs by reflexivity.
  assert (getItem LEGACY_HISTORY_KEY legacyWorld
          = Some (Json (JArr [JObj bananaEntry]))) as Hl by reflexivity.
  split; [exact Hs|]. split; [exact Hl|].
  exact (proj1 (legacy_history_migrated (H := browser) legacyWorld
                  (JObj bananaEntry) [] Hs Hl)).
Defined.

(** Reading the store of [readyWorld] leaves its items as they are. *)
Lemma getState_reads_only_witness :
  hasState readyWorld = true
  /\ storage (getState (H := browser) readyWorld).2 = storage readyWorld.
Proof.
  assert (hasState readyWorld = true) as Hs by (vm_compute; reflexivity).
  split; [exact Hs|].
  exact (proj1 (getState_reads_only (H := browser) readyWorld Hs)).
Defined.

(** An array given as partial changes nothing but [updatedAt]. *)
Lemma setState_ignores_non_plain_witness :
  isPlainObject (Some (JArr [JNum 1])) = false
  /\ eqButUpdated (setState (H := browser) (JArr [JNum 1]) diaryWorld).1
       (getState (H := browser) diaryWorld).1.
Proof.
  assert (isPlainObject (Some (JArr [JNum 1])) = false) as Hp by reflexivity.
  split; [exact Hp|].
  exact (proj1 (setState_ignores_non_plain (H := browser) (JArr [JNum 1]) diaryWorld
                  Hp)).
Defined.

(** A partial with version 2 empties the diary of [diaryWorld]. *)
Lemma setState_foreign_version_witness :
  ({["version" := JNum 2]} : JMap) !! "version" = Some (JNum 2)
  /\ JNum 2 <> JNum 1
  /\ entriesOf (getState (H := browser) diaryWorld).1 = [JObj bananaEntry]
  /\ entriesOf (setState (H := browser) (JObj {["version" := JNum 2]}) diaryWorld).1
     = [].
Proof.
  assert (JNum 2 <> JNum 1) as Hne by discriminate.
  assert (({["version" := JNum 2]} : JMap) !! "version" = Some (JNum 2)) as Hv
    by reflexivity.
  split; [exact Hv|]. split; [exact Hne|]. split; [vm_compute; reflexivity|].
  destruct (setState_foreign_version (H := browser) {["version" := JNum 2]} (JNum 2)
              diaryWorld Hv Hne) as (_ & Hent & _).
  exact Hent.
Defined.

(** Ticking the milestones keeps the [createdAt] of the store. *)
Lemma setState_keeps_createdAt_witness :
  ({["milestones" := JObj allMilestones]} : JMap) !! "version" = None
  /\ ({["milestones" := JObj allMilestones]} : JMap) !! "createdAt" = None
  /\ prop (setState (H := browser) (JObj {["milestones" := JObj allMilestones]})
             diaryWorld).1 "createdAt"
     = prop (getState (H := browser) diaryWorld).1 "createdAt".
Proof.
  assert (({["milestones" := JObj allMilestones]} : JMap) !! "version" = None) as Hv
    by reflexivity.
  assert (({["milestones" := JObj allMilestones]} : JMap) !! "createdAt" = None) as Hc
    by reflexivity.
  split; [exact Hv|]. split; [exact Hc|].
  exact (proj1 (setState_keeps_createdAt (H := browser)
                  {["milestones" := JObj allMilestones]} diaryWorld Hv Hc)).
Defined.

(** Deleting the banana entry leaves no entry with its id. *)
Lemma deleteEntry_removes_witness :
  prop (getState (H := browser) diaryWorld).1 "diary" <> Some JNull
  /\ exists st w',
       deleteEntry (H := browser) (JStr "e1") diaryWorld = (Ok st, w')
       /\ countId (Some (JStr "e1")) (entriesOf st) = 0%nat.
Proof.
  assert (prop (getState (H := browser) diaryWorld).1 "diary" <> Some JNull)
    as Hnull by (vm_compute; discriminate).
  split; [exact Hnull|].
  destruct (deleteEntry_removes (H := browser) diaryWorld (JStr "e1") Hnull)
    as (st & w' & Hdel & _ & Hcount & _).
  exists st, w'. split; [exact Hdel|exact Hcount].
Defined.

(** [addEntry] appends an entry even when its id is already in the diary. *)
Lemma addEntry_appends_witness :
  prop (getState (H := browser) diaryWorld).1 "diary" <> Some JNull
  /\ exists st w',
       addEntry (H := browser) (JObj bananaEdited) diaryWorld = (Ok st, w')
       /\ entriesOf st = [JObj bananaEntry; JObj bananaEdited].
Proof.
  assert (prop (getState (H := browser) diaryWorld).1 "diary" <> Some JNull)
    as Hnull by (vm_compute; discriminate).
  split; [exact Hnull|].
  destruct (addEntry_appends (H := browser) diaryWorld (JObj bananaEdited) Hnull)
    as (st & w' & Hadd & Hent & _).
  exists st, w'. split; [exact Hadd|]. rewrite Hent.
  vm_compute. reflexivity.
Defined.

(** An entry without id is not stored. *)
Lemma upsertEntry_without_id_witness :
  prop (getState (H := browser) diaryWorld).1 "diary" <> Some JNull
  /\ truthy (prop (JObj (delete "id" bananaEdited)) "id") = false
  /\ exists st w',
       upsertEntry (H := browser) (JObj (delete "id" bananaEdited)) diaryWorld
       = (Ok st, w')
       /\ entriesOf st = entriesOf (getState (H := browser) diaryWorld).1.
Proof.
  assert (prop (getState (H := browser) diaryWorld).1 "diary" <> Some JNull)
    as Hnull by (vm_compute; discriminate).
  assert (truthy (prop (JObj (delete "id" bananaEdited)) "id") = false) as Hid
    by reflexivity.
  split; [exact Hnull|]. split; [exact Hid|].
  destruct (upsertEntry_without_id (H := browser) diaryWorld
              (JObj (delete "id" bananaEdited)) Hnull (or_intror Hid))
    as (st & w' & Hup & Hent & _).
  exists st, w'. split; [exact Hup|exact Hent].
Defined.

(** On a store whose diary is [null], [addEntry] throws. *)
Lemma diary_null_throws_witness :
  prop (getState (H := browser) nullDiaryWorld).1 "diary" = Some JNull
  /\ addEntry (H := browser) (JObj bananaEntry) nullDiaryWorld
     = (Throw TypeError, (getState (H := browser) nullDiaryWorld).2).
Proof.
  assert (prop (getState (H := browser) nullDiaryWorld).1 "diary" = Some JNull)
    as Hnull by (vm_compute; reflexivity).
  split; [exact Hnull|].
  exact (proj1 (diary_null_throws (H := browser) nullDiaryWorld (JObj bananaEntry)
                  Hnull)).
Defined.

(** After a mild reaction to egg is recorded, egg reads "mild" and milk
    "not_introduced". *)
Lemma getStatus_after_setStatus_witness :
  "huevo" <> ""
  /\ prop (getState (H := browser) readyWorld).1 "allergens" <> Some JNull
  /\ exists st w',
       setStatus (H := browser) "huevo" "mild" readyWorld = (Ok st, w')
       /\ (getStatus (H := browser) "huevo" w').1 = Ok (JStr "mild")
       /\ (getStatus (H := browser) "leche" w').1 = Ok (JStr "not_introduced").
Proof.
  assert ("huevo" <> "") as Hid by discriminate.
  assert (prop (getState (H := browser) readyWorld).1 "allergens" <> Some JNull)
    as Hnull by (vm_compute; discriminate).
  split; [exact Hid|]. split; [exact Hnull|].
  destruct (getStatus_after_setStatus (H := browser) readyWorld "huevo" "mild" Hid Hnull)
    as (st & w' & Hset & Hnew & Hother & _).
  exists st, w'. split; [exact Hset|]. split; [exact Hnew|].
  rewrite (Hother "leche") by discriminate. vm_compute. reflexivity.
Defined.

(** The array of the source replaces the array of the target. *)
Lemma mergeDeep_keeps_keys_witness :
  ({["entries" := JArr [JNum 2]]} : JMap) !! "entries" = Some (JArr [JNum 2])
  /\ prop (mergeDeep (JObj {["entries" := JArr [JNum 1]]})
             (JObj {["entries" := JArr [JNum 2]]})) "entries"
     = Some (JArr [JNum 2]).
Proof.
  assert (({["entries" := JArr [JNum 2]]} : JMap) !! "entries" = Some (JArr [JNum 2]))
    as Hk by reflexivity.
  split; [exact Hk|].
  destruct (mergeDeep_keeps_keys {["entries" := JArr [JNum 1]]}
              {["entries" := JArr [JNum 2]]}) as (_ & _ & _ & Harr).
  exact (Harr "entries" [JNum 2] Hk).
Defined.

(** The same backup imported into an empty store and into [diaryWorld]. *)
Lemma importState_overwrites_witness :
  ok (validateBackupState arrayDiaryBackup) = true
  /\ exists s1 s2 w1' w2',
       importState (H := browser) arrayDiaryBackup emptyWorld = (Ok s1, w1')
       /\ importState (H := browser) arrayDiaryBackup diaryWorld = (Ok s2, w2')
       /\ eqButStamps s1 s2.
Proof.
  assert (ok (validateBackupState arrayDiaryBackup) = true) as Hok by reflexivity.
  split; [exact Hok|].
  destruct (importState_overwrites (H := browser) arrayDiaryBackup emptyWorld
              diaryWorld Hok) as (s1 & s2 & w1' & w2' & H1 & H2 & Heq & _).
  exists s1, s2, w1', w2'. split; [exact H1|]. split; [exact H2|exact Heq].
Defined.

(** On a new store the gate lists the four milestones. *)
Lemma gate_lists_missing_witness :
  ensureCalendarAllowedOrExplain (H := browser) emptyWorld
  = (Ok (GateMilestones ["Se mantiene sentado"; "Sin reflejo de extrusión";
                         "Interés por comida"; "Coordinación mano-boca"]),
     (ensureCalendarAllowedOrExplain (H := browser) emptyWorld).2)
  /\ (isComplete (H := browser) emptyWorld).1 = Ok false.
Proof.
  assert (ensureCalendarAllowedOrExplain (H := browser) emptyWorld
          = (Ok (GateMilestones ["Se mantiene sentado"; "Sin reflejo de extrusión";
                                 "Interés por comida"; "Coordinación mano-boca"]),
             (ensureCalendarAllowedOrExplain (H := browser) emptyWorld).2)) as Hg
    by (vm_compute; reflexivity).
  split; [exact Hg|].
  destruct (gate_lists_missing (H := browser) emptyWorld) as (Hm & _).
  exact (proj2 (Hm _ _ Hg)).
Defined.

(** The form of a preterm baby with a due date is saved with its birth date. *)
Lemma profileSubmit_checks_witness :
  profileSubmit (H := browser) pretermForm emptyWorld
  = (Ok (PerfilActualizado pretermSaved),
     (profileSubmit (H := browser) pretermForm emptyWorld).2)
  /\ exists birthDate,
       prop pretermSaved "birthDate" = Some (JStr birthDate) /\ birthDate <> "".
Proof.
  assert (profileSubmit (H := browser) pretermForm emptyWorld
          = (Ok (PerfilActualizado pretermSaved),
             (profileSubmit (H := browser) pretermForm emptyWorld).2)) as Hsub
    by (vm_compute; reflexivity).
  split; [exact Hsub|].
  destruct (profileSubmit_checks (H := browser) pretermForm emptyWorld)
    as (_ & _ & Hsaved & _).
  destruct (Hsaved _ _ Hsub) as (b & Hb & Hne & _).
  exists b. split; [exact Hb|exact Hne].
Defined.

(** After that submit the safe age read from the store is the corrected age,
    5 months. *)
Lemma profileSubmit_safe_age_witness :
  profileSubmit (H := browser) pretermForm emptyWorld
  = (Ok (PerfilActualizado pretermSaved),
     (profileSubmit (H := browser) pretermForm emptyWorld).2)
  /\ (getProfileSafeAgeMonths (H := browser)
        (profileSubmit (H := browser) pretermForm emptyWorld).2).1 = Some 5.
Proof.
  assert (profileSubmit (H := browser) pretermForm emptyWorld
          = (Ok (PerfilActualizado pretermSaved),
             (profileSubmit (H := browser) pretermForm emptyWorld).2)) as Hsub
    by (vm_compute; reflexivity).
  split; [exact Hsub|].
  destruct (profileSubmit_safe_age (H := browser) pretermForm emptyWorld _ _ Hsub)
    as [Hage _].
  rewrite Hage. vm_compute. reflexivity.
Defined.

(** A record whose minimum age is the string "Infinity" is left out of
    the food list and kept by the age test of the recipe list; the
    avocado, from 6 months, passes both in the bracket "6-7" at a safe
    age of 7 months; "10-12" is no bracket. *)
Lemma list_age_filters_witness :
  toNum (H := browser) numeral (edadInfinita !! "edad_minima") = PosInf
  /\ parseAgeRange "safe" = None
  /\ foodListAgeNum (H := browser) numeral 7 (parseAgeRange "safe") edadInfinita = false
  /\ recipeListAgeNum (H := browser) numeral 7 (parseAgeRange "safe") edadInfinita = true
  /\ parseAgeRange "6-7" = Some {| rangeMin := 6; maxExclusive := 8 |}
  /\ foodListAgeNum (H := browser) numeral 7 (parseAgeRange "6-7") aguacate = true
  /\ recipeListAgeNum (H := browser) numeral 7 (parseAgeRange "6-7") aguacate = true
  /\ parseAgeRange "10-12" = None.
Proof.
  assert (toNum (H := browser) numeral (edadInfinita !! "edad_minima") = PosInf) as Hinf
    by reflexivity.
  assert ("10-12" <> "6-7" /\ "10-12" <> "7-8" /\ "10-12" <> "8-9"
          /\ "10-12" <> "9-12") as Hother by (repeat split; discriminate).
  assert ("6-7" = "6-7" /\ {| rangeMin := 6; maxExclusive := 8 |}
                           = {| rangeMin := 6; maxExclusive := 8 |}) as Hlabel
    by (split; reflexivity).
  destruct (list_age_filters (H := browser) numeral 7 (parseAgeRange "safe") edadInfinita)
    as (_ & _ & _ & Hdiff & Hsome & Hnone).
  split; [exact Hinf|]. split; [reflexivity|].
  destruct (Hdiff Hinf eq_refl) as [Hfood Hrecipe].
  split; [exact Hfood|]. split; [exact Hrecipe|].
  split; [exact (proj2 (Hsome _ _) (or_introl Hlabel))|].
  destruct (list_age_filters (H := browser) numeral 7 (parseAgeRange "6-7") aguacate)
    as (Hf & Hr & _).
  assert (6 <= 7
          /\ forall r, parseAgeRange "6-7" = Some r
                       -> rangeMin r <= 6 < maxExclusive r) as Hin.
  { split; [lia|]. intros r [= <-]. cbn. lia. }
  split; [exact (proj2 Hf Hin)|]. split; [exact (proj2 Hr Hin)|].
  exact (proj2 (Hnone "10-12") Hother).
Defined.

(** At a safe age of 7 months and a blank search, the food list shows the
    avocado and neither the strawberry (8 months) nor the honey (12). *)
Lemma renderFoodList_safe_witness :
  (getProfileSafeAgeMonths (H := browser) readyWorld).1 = Some 7
  /\ asciiLower (trim (Platform := browser) " ") = ""
  /\ (renderFoodList (H := browser) asciiLower [aguacate; fresa; miel] " " "safe"
        readyWorld).1 = Ok [aguacate].
Proof.
  assert ((getProfileSafeAgeMonths (H := browser) readyWorld).1 = Some 7) as Hage
    by (vm_compute; reflexivity).
  assert (asciiLower (trim (Platform := browser) " ") = "") as Hq by reflexivity.
  split; [exact Hage|]. split; [exact Hq|].
  destruct (renderFoodList_safe (H := browser) asciiLower [aguacate; fresa; miel]
              " " "safe" readyWorld) as (_ & _ & Hblank).
  destruct (Hblank 7 Hage Hq) as [-> _]. vm_compute. reflexivity.
Defined.

(** After a severe reaction to egg, the omelette is not listed. *)
Lemma renderRecipeList_excludes_reactive_witness :
  renderRecipeList (H := browser) asciiLower (Some [tortilla; calabaza]) "" "safe" true
    reactionWorld
  = (Ok (RecipesShown [calabaza]),
     (renderRecipeList (H := browser) asciiLower (Some [tortilla; calabaza]) "" "safe"
        true reactionWorld).2)
  /\ exists sm statuses recipes,
       (getProfileSafeAgeMonths (H := browser)
          (getProfileSafeAgeMonths (H := browser) reactionWorld).2).1 = Some sm
       /\ (allergensGetAll (H := browser)
             (getProfileSafeAgeMonths (H := browser)
                (getProfileSafeAgeMonths (H := browser) reactionWorld).2).2).1
          = Ok statuses
       /\ Some [tortilla; calabaza] = Some recipes.
Proof.
  assert (renderRecipeList (H := browser) asciiLower (Some [tortilla; calabaza]) "" "safe"
            true reactionWorld
          = (Ok (RecipesShown [calabaza]),
             (renderRecipeList (H := browser) asciiLower (Some [tortilla; calabaza]) ""
                "safe" true reactionWorld).2)) as Hr by (vm_compute; reflexivity).
  split; [exact Hr|].
  destruct (renderRecipeList_excludes_reactive (H := browser) asciiLower _ _ _ _ _ _ Hr)
    as (sm & statuses & recipes & Hsm & Hst & Hrec & _).
  exists sm, statuses, recipes. split; [exact Hsm|]. split; [exact Hst|exact Hrec].
Defined.

(** A text without markup is left as it is. *)
Lemma escapeHtml_no_markup_witness :
  occurs chAmp (stringOf (H := browser) (Some (JStr "pera"))) = false
  /\ escapeHtml (H := browser) (Some (JStr "pera")) = "pera".
Proof.
  split; [reflexivity|].
  destruct (escapeHtml_no_markup (H := browser) (Some (JStr "pera")))
    as (_ & _ & _ & _ & _ & Hid).
  apply Hid; reflexivity.
Defined.

(** From January 2024 back to December 2023 and forth again. *)
Lemma calendar_navigation_witness :
  0 <= monthIndex {| year := 2024; monthIndex := 0 |} <= 11
  /\ calNext (calPrev {| year := 2024; monthIndex := 0 |})
     = {| year := 2024; monthIndex := 0 |}.
Proof.
  assert (0 <= monthIndex {| year := 2024; monthIndex := 0 |} <= 11) as Hm
    by (cbn; lia).
  split; [exact Hm|].
  destruct (calendar_navigation {| year := 2024; monthIndex := 0 |} Hm)
    as (_ & _ & Hround & _).
  exact Hround.
Defined.

(** The day of the banana entry, which records no reaction, shows the food
    icon alone. *)
Lemma getDayIcons_flags_witness :
  getEntriesForDate (H := browser) "2024-08-10" diaryWorld
  = (Ok [JObj bananaEntry], (getEntriesForDate (H := browser) "2024-08-10" diaryWorld).2)
  /\ (getDayIcons (H := browser) "2024-08-10" diaryWorld).1 = Ok "🥦".
Proof.
  assert (getEntriesForDate (H := browser) "2024-08-10" diaryWorld
          = (Ok [JObj bananaEntry],
             (getEntriesForDate (H := browser) "2024-08-10" diaryWorld).2)) as He
    by (vm_compute; reflexivity).
  split; [exact He|].
  destruct (getDayIcons_flags (H := browser) "2024-08-10" diaryWorld _ _ He) as [-> _].
  vm_compute. reflexivity.
Defined.

(** The avocado saved on 10 August is listed on that day. *)
Lemma daySave_entry_listed_witness :
  daySave (H := browser) [aguacate; miel] "2024-08-10" None (blankForm "aguacate")
    readyWorld
  = (Ok (Guardado avocadoSaved),
     (daySave (H := browser) [aguacate; miel] "2024-08-10" None (blankForm "aguacate")
        readyWorld).2)
  /\ exists es,
       (getEntriesForDate (H := browser) "2024-08-10"
          (daySave (H := browser) [aguacate; miel] "2024-08-10" None
             (blankForm "aguacate") readyWorld).2).1 = Ok es
       /\ In avocadoSaved es.
Proof.
  assert (daySave (H := browser) [aguacate; miel] "2024-08-10" None
            (blankForm "aguacate") readyWorld
          = (Ok (Guardado avocadoSaved),
             (daySave (H := browser) [aguacate; miel] "2024-08-10" None
                (blankForm "aguacate") readyWorld).2)) as Hs
    by (vm_compute; reflexivity).
  split; [exact Hs|].
  destruct (daySave_entry_listed (H := browser) _ _ _ _ _ _ _ Hs)
    as (_ & _ & _ & _ & Hlisted & _).
  exact Hlisted.
Defined.

(** Deleting the banana entry from the day modal empties the diary. *)
Lemma dayDelete_confirmed_witness :
  "e1" <> ""
  /\ prop (getState (H := browser) diaryWorld).1 "diary" <> Some JNull
  /\ exists st w',
       dayDelete (H := browser) "e1" true diaryWorld = (Ok (Some st), w')
       /\ (getDiaryEntries (H := browser) w').1 = Ok [].
Proof.
  assert ("e1" <> "") as Hid by discriminate.
  assert (prop (getState (H := browser) diaryWorld).1 "diary" <> Some JNull)
    as Hnull by (vm_compute; discriminate).
  split; [exact Hid|]. split; [exact Hnull|].
  destruct (dayDelete_confirmed (H := browser) "e1" true diaryWorld) as [_ Hdel].
  destruct (Hdel (eq_refl true) Hid Hnull) as (st & w' & Hd & Hent & _).
  exists st, w'. split; [exact Hd|]. rewrite Hent. vm_compute. reflexivity.
Defined.

